(** * faiss-node-native: the index facade, its async workers and its N-API bindings

    A shallow embedding of [src/cpp/faiss_index.{h,cpp}] (class
    [FaissIndexWrapper]) and [src/cpp/napi_bindings.cpp] (the [AsyncWorker]
    subclasses and class [FaissIndexWrapperJS]).

    - C++ objects live in a store indexed by their address; a raw pointer
      ([FaissIndexWrapper*]) is an address, [std::unique_ptr] is an optional
      address or an optional owned value.
    - Every method is a function of the store in a small exception monad;
      [std::lock_guard] is an operator of that monad that records the
      acquisition and the release of the object's mutex.
    - The FAISS library itself ([faiss::Index] and the free functions
      [index_factory], [read_index], [write_index]) is not part of the
      repository: it is the type class [Faiss.Index], and every theorem that
      does not say otherwise holds for all of its instances.
    - [int], [int32_t], [int64_t], [size_t] are integers with the wrap-around
      of their conversions written out; a [float] is its IEEE-754 binary32
      bit pattern. *)

From Stdlib Require Import ZArith Lia List String Ascii Bool DecimalString.
From stdpp Require Import base option list gmap strings.
Import ListNotations.
Local Open Scope string_scope.
Local Open Scope list_scope.
Local Open Scope Z_scope.

(* ================================================================== *)
(** * Machine integers and floats *)

(** Conversion to a signed two's-complement integer of [bits] bits. *)
Definition wrap_signed (bits z : Z) : Z :=
  (z + 2 ^ (bits - 1)) mod 2 ^ bits - 2 ^ (bits - 1).

(** [static_cast<int>(x)]: [int] is 32 bits wide. *)
Definition to_int (z : Z) : Z := wrap_signed 32 z.

(** [static_cast<int32_t>(x)]. *)
Definition to_int32 (z : Z) : Z := wrap_signed 32 z.

(** [static_cast<uint32_t>(x)]. *)
Definition to_uint32 (z : Z) : Z := z mod 2 ^ 32.

(** Conversion to [size_t] (64 bits, unsigned). *)
Definition to_size_t (z : Z) : Z := z mod 2 ^ 64.

Definition INT_MAX : Z := 2 ^ 31 - 1.
Definition INT_MIN : Z := - 2 ^ 31.

(** The [double] nearest to an unsigned 64-bit integer, ties to even: the
    implicit conversion of a [size_t] to [double].  It is exact up to
    2^53. *)
Definition to_double (z : Z) : Z :=
  if z <? 2 ^ 53 then z
  else
    let e := Z.log2 z - 52 in
    let q := Z.shiftr z e in
    let r := z - Z.shiftl q e in
    let half := Z.shiftl 1 (e - 1) in
    if (half <? r) || ((r =? half) && Z.odd q) then Z.shiftl (q + 1) e
    else Z.shiftl q e.

(** [std::to_string] on an integer. *)
Definition to_string (z : Z) : string := NilZero.string_of_int (Z.to_int z).

(** A [float], as the 32 bits of its IEEE-754 encoding. *)
Definition float32 : Type := Z.

Definition f32_sign (x : float32) : bool := Z.testbit x 31.
Definition f32_exponent (x : float32) : Z := Z.land (Z.shiftr x 23) 255.
Definition f32_mantissa (x : float32) : Z := Z.land x (2 ^ 23 - 1).
Definition f32_is_nan (x : float32) : bool :=
  (f32_exponent x =? 255) && negb (f32_mantissa x =? 0).
Definition f32_is_zero (x : float32) : bool :=
  (f32_exponent x =? 0) && (f32_mantissa x =? 0).

(** [x < 0] on floats: false on NaN and on both zeros. *)
Definition f32_lt0 (x : float32) : bool :=
  f32_sign x && negb (f32_is_nan x) && negb (f32_is_zero x).

(* ================================================================== *)
(** * Exceptions *)

(** The exception classes the two files throw or catch.  All of them derive
    from [std::exception]; the three [napi_] ones also from [Napi::Error]. *)
Inductive exn_class : Type :=
| std_invalid_argument
| std_runtime_error
| std_length_error
| faiss_FaissException
| napi_Error
| napi_TypeError
| napi_RangeError.

Record exn : Type := Exn { cls : exn_class; what : string }.

Definition is_napi (e : exn) : bool :=
  match cls e with
  | napi_Error | napi_TypeError | napi_RangeError => true
  | _ => false
  end.

(** The result of running a piece of C++: a value, an exception in flight,
    or undefined behaviour (a dangling or null pointer dereferenced, a mutex
    locked twice by its owner). *)
Inductive outcome (A : Type) : Type :=
| Ret (a : A)
| Throw (e : exn)
| Fault.
Arguments Ret {A} a.
Arguments Throw {A} e.
Arguments Fault {A}.

(** What a caller can observe of the two mutex operations and of the
    accesses to the FAISS object behind [index_]. *)
Inductive event : Type :=
| Acquire (mutex : Z)
| Release (mutex : Z)
| Backend (object : Z) (member : string).

(* ================================================================== *)
(** * The store and the monad *)

Section Runtime.
Context {Obj : Type}.

(** [heap]: the live objects by address; [next]: the allocator's next
    address; [held]: the mutexes the running thread holds; [trace]: the
    events so far; [files]: the file system, by file name. *)
Record World : Type := mkWorld {
  heap : gmap Z Obj;
  next : Z;
  held : list Z;
  trace : list event;
  files : gmap string (list Byte.byte)
}.

Definition M (A : Type) : Type := World -> outcome A * World.

Definition ret {A} (a : A) : M A := fun s => (Ret a, s).
Definition throw {A} (e : exn) : M A := fun s => (Throw e, s).
Definition fault {A} : M A := fun s => (Fault, s).

Definition bind {A B} (m : M A) (k : A -> M B) : M B := fun s =>
  match m s with
  | (Ret a, s') => k a s'
  | (Throw e, s') => (Throw e, s')
  | (Fault, s') => (Fault, s')
  end.

(** [try { body } catch (const std::exception& e) { handler }]. *)
Definition try_catch {A} (body : M A) (handler : exn -> M A) : M A := fun s =>
  match body s with
  | (Throw e, s') => handler e s'
  | r => r
  end.

Definition emit (ev : event) : M unit := fun s =>
  (Ret tt, mkWorld (heap s) (next s) (held s) (trace s ++ [ev]) (files s)).

(** [*p] for a raw pointer [p]. *)
Definition load (p : Z) : M Obj := fun s =>
  match heap s !! p with
  | Some o => (Ret o, s)
  | None => (Fault, s)
  end.

Definition store (p : Z) (o : Obj) : M unit := fun s =>
  match heap s !! p with
  | Some _ => (Ret tt, mkWorld (<[p := o]> (heap s)) (next s) (held s) (trace s) (files s))
  | None => (Fault, s)
  end.

(** [new]: the object gets the next free address. *)
Definition alloc (o : Obj) : M Z := fun s =>
  (Ret (next s), mkWorld (<[next s := o]> (heap s)) (next s + 1) (held s) (trace s) (files s)).

(** [delete]. *)
Definition free (p : Z) : M unit := fun s =>
  match heap s !! p with
  | Some _ => (Ret tt, mkWorld (delete p (heap s)) (next s) (held s) (trace s) (files s))
  | None => (Fault, s)
  end.

Definition holds (m : Z) (l : list Z) : bool := existsb (Z.eqb m) l.

(** [mutex_.lock()] on the mutex of the object at [m].  Locking a mutex the
    thread already owns is undefined behaviour for [std::mutex]. *)
Definition lock (m : Z) : M unit := fun s =>
  match heap s !! m with
  | None => (Fault, s)
  | Some _ =>
      if holds m (held s) then (Fault, s)
      else (Ret tt, mkWorld (heap s) (next s) (m :: held s) (trace s ++ [Acquire m]) (files s))
  end.

Definition unlock (m : Z) : M unit := fun s =>
  (Ret tt, mkWorld (heap s) (next s) (List.filter (fun x => negb (x =? m)) (held s))
                   (trace s ++ [Release m]) (files s)).

(** [std::lock_guard<std::mutex> lock(mutex_); body]: the mutex is released
    when the scope is left, by a return or by an exception. *)
Definition lock_guard {A} (m : Z) (body : M A) : M A := fun s =>
  match lock m s with
  | (Ret _, s1) =>
      match body s1 with
      | (Fault, s2) => (Fault, s2)
      | (r, s2) => (r, snd (unlock m s2))
      end
  | (Throw e, s1) => (Throw e, s1)
  | (Fault, s1) => (Fault, s1)
  end.

(** The store once [lock p] has returned, and once [unlock p] has. *)
Definition locked (p : Z) (s : World) : World :=
  mkWorld (heap s) (next s) (p :: held s) (trace s ++ [Acquire p]) (files s).

Definition unlocked (p : Z) (s : World) : World := snd (unlock p s).

(** The store [s] with [evs] appended to its trace and nothing else
    changed. *)
Definition logged (evs : list event) (s : World) : World :=
  mkWorld (heap s) (next s) (held s) (trace s ++ evs) (files s).

(** The store [s] with [h] for its heap. *)
Definition with_heap (h : gmap Z Obj) (s : World) : World :=
  mkWorld h (next s) (held s) (trace s) (files s).

(** The events [m] adds to the trace when it runs from [s]. *)
Definition events_of {A} (m : M A) (s : World) : list event :=
  skipn (length (trace s)) (trace (snd (m s))).

Definition read_file (name : string) : M (option (list Byte.byte)) := fun s =>
  (Ret (files s !! name), s).

Definition write_file (name : string) (data : list Byte.byte) : M unit := fun s =>
  (Ret tt, mkWorld (heap s) (next s) (held s) (trace s) (<[name := data]> (files s))).

End Runtime.
Arguments World Obj : clear implicits.
Arguments M Obj A : clear implicits.
Arguments locked {Obj} p s : simpl never.
Arguments unlocked {Obj} p s : simpl never.
Arguments logged {Obj} evs s : simpl never.
Arguments with_heap {Obj} h s : simpl never.

Notation "'let*' x ':=' m 'in' k" := (bind m (fun x => k))
  (at level 10, x name, m at level 100, k at level 200).
Notation "m '>>>' k" := (bind m (fun _ => k))
  (at level 100, k at level 200, right associativity).

(** [v.data()] of a [std::vector]: a vector that never allocated (it was
    built from an empty range, or is still as default-constructed) has a
    null [data()] in libstdc++, libc++ and the MSVC library. *)
Definition vector_data {A} (v : list A) : option (list A) :=
  match v with
  | [] => None
  | _ => Some v
  end.

(** [v.resize(n)] on an empty [std::vector<T>], [n] already converted to
    [size_t]: [n] value-initialised elements, or [std::length_error] past
    [max_size()].  In libstdc++, whose message this is, [max_size()] is
    [PTRDIFF_MAX / sizeof(T)]: 2^61 - 1 for [float], 2^60 - 1 for
    [int64_t].  Memory is not otherwise bounded here. *)
Definition sizeof_float : Z := 4.
Definition sizeof_int64_t : Z := 8.

Definition max_size (sizeof : Z) : Z := (2 ^ 63 - 1) / sizeof.

Definition resize {Obj A} (sizeof : Z) (zero : A) (n : Z) : M Obj (list A) :=
  if max_size sizeof <? n then throw (Exn std_length_error "vector::_M_default_append")
  else ret (repeat zero (Z.to_nat n)).

(** Writing [src] through a pointer to the first element of [dst]: the
    size of [dst] does not change. *)
Definition blit {A} (src dst : list A) : list A :=
  firstn (length dst) (src ++ skipn (length src) dst).

(* ================================================================== *)
(** * The FAISS library, as an interface *)

Module Faiss.

(** [METRIC_INNER_PRODUCT = 0], [METRIC_L2 = 1] (faiss/MetricType.h). *)
Definition METRIC_INNER_PRODUCT : Z := 0.
Definition METRIC_L2 : Z := 1.

(** What the wrapper uses of [faiss::Index] and of the library's free
    functions.  [I] is the state of one index object.  A member that can
    throw returns the [what()] of its exception: a mutating one as
    [Some what] next to the state it leaves behind, a [const] one as
    [inl what].

    - [d], [ntotal], [is_trained]: the public fields ([ntotal] is an
      [idx_t], 64 bits signed).
    - [add n x], [train n x], [reset]: the virtual members.
    - [search nq x k]: distances and labels, [nq * k] of each.
    - [range_search nq x radius]: the [lims], [distances] and [labels]
      of the [RangeSearchResult].
    - [merge_from other]: takes [other] by non-const reference, so it
      returns the state of both objects.
    - [is_ivf]: whether [dynamic_cast<faiss::IndexIVF*>] succeeds;
      [set_nprobe]: the assignment to [nprobe], a [size_t], of such an
      index.
    - [index_factory d description metric], [write_index] to a
      [VectorIOWriter], [read_index] from a [VectorIOReader] or from the
      content of a file.
    - [write_index_file i fname], the library's [write_index(index,
      fname)], which opens the file and serializes into it: the [what()]
      of the exception it throws, if any (the file does not open, a write
      fails, the index cannot be serialized), and the content the file is
      left with once it has been opened for writing ([None] when it was
      not). *)
Class Index (I : Type) : Type := {
  d : I -> Z;
  ntotal : I -> Z;
  is_trained : I -> bool;
  add : Z -> list float32 -> I -> option string * I;
  train : Z -> list float32 -> I -> option string * I;
  reset : I -> option string * I;
  search : Z -> list float32 -> Z -> I -> string + (list float32 * list Z);
  range_search : Z -> list float32 -> float32 -> I ->
                 string + (list Z * list float32 * list Z);
  merge_from : I -> I -> option string * (I * I);
  is_ivf : I -> bool;
  set_nprobe : Z -> I -> I;
  index_factory : Z -> string -> Z -> string + I;
  write_index : I -> string + list Byte.byte;
  write_index_file : I -> string -> option string * option (list Byte.byte);
  read_index : list Byte.byte -> string + I
}.

End Faiss.

(* ================================================================== *)
(** * class FaissIndexWrapper (faiss_index.h, faiss_index.cpp) *)

Module FaissIndexWrapper.
Section Methods.
Context {I : Type} {faiss : Faiss.Index I}.

(** The private members; [mutex_] is the mutex of the object's address.
    [index_] is [None] for a null [unique_ptr]. *)
Record t : Type := mk {
  index_ : option I;
  dims_ : Z;
  disposed_ : bool
}.

Definition set_index (i : option I) (w : t) : t := mk i (dims_ w) (disposed_ w).

(** [index_->...]: dereferencing the [unique_ptr]. *)
Definition deref (w : t) : M t I :=
  match index_ w with
  | Some i => ret i
  | None => fault
  end.

Definition rethrow (o : option string) : M t unit :=
  match o with
  | Some msg => throw (Exn faiss_FaissException msg)
  | None => ret tt
  end.

Definition disposed_error : exn := Exn std_runtime_error "Index has been disposed".

(** [FaissIndexWrapper(int dims, const std::string&, int metric)], as
    [std::make_unique<FaissIndexWrapper>] runs it: the address of the new
    object. *)
Definition make_unique (dims : Z) (indexDescription : string) (metric : Z) : M t Z :=
  if dims <=? 0 then throw (Exn std_invalid_argument "Dimensions must be positive")
  else
    match Faiss.index_factory dims indexDescription metric with
    | inl msg => throw (Exn faiss_FaissException msg)
    | inr i => alloc (mk (Some i) dims false)
    end.

(** [explicit FaissIndexWrapper(int dims)]. *)
Definition make_unique_flat (dims : Z) : M t Z := make_unique dims "Flat" 1.

Definition IsDisposed (this : Z) : M t bool :=
  lock_guard this (let* w := load this in ret (disposed_ w)).

Definition Dispose (this : Z) : M t unit :=
  lock_guard this (
    let* w := load this in
    if disposed_ w then ret tt
    else store this (mk None (dims_ w) true)).

(** [~FaissIndexWrapper()], followed by the release of the object. *)
Definition destroy (this : Z) : M t unit :=
  let* w := load this in
  (if disposed_ w then ret tt else Dispose this) >>> free this.

Definition Add (this : Z) (vectors : option (list float32)) (n : Z) : M t unit :=
  lock_guard this (
    let* w := load this in
    if disposed_ w then throw disposed_error
    else
      match vectors with
      | None => throw (Exn std_invalid_argument "Vectors pointer cannot be null")
      | Some x =>
          if n =? 0 then ret tt
          else
            let* i := deref w in
            emit (Backend this "add") >>>
            let (r, i') := Faiss.add n x i in
            store this (set_index (Some i') w) >>> rethrow r
      end).

(** [int actual_k = (k > static_cast<int>(ntotal)) ? static_cast<int>(ntotal) : k]. *)
Definition clamp_k (k ntotal : Z) : Z :=
  if to_int ntotal <? k then to_int ntotal else k.

(** The two output arrays are returned as the call leaves them. *)
Definition Search (this : Z) (query : option (list float32)) (k : Z)
    (distances : option (list float32)) (labels : option (list Z))
  : M t (list float32 * list Z) :=
  lock_guard this (
    let* w := load this in
    if disposed_ w then throw disposed_error
    else
      match query with
      | None => throw (Exn std_invalid_argument "Query pointer cannot be null")
      | Some q =>
          match distances, labels with
          | Some ds, Some ls =>
              if k <=? 0 then throw (Exn std_invalid_argument "k must be positive")
              else
                let* i := deref w in
                emit (Backend this "ntotal") >>>
                let ntotal := to_size_t (Faiss.ntotal i) in
                if ntotal =? 0 then throw (Exn std_runtime_error "Cannot search empty index")
                else
                  let actual_k := clamp_k k ntotal in
                  emit (Backend this "search") >>>
                  match Faiss.search 1 q actual_k i with
                  | inl msg => throw (Exn faiss_FaissException msg)
                  | inr (rd, rl) => ret (blit rd ds, blit rl ls)
                  end
          | _, _ => throw (Exn std_invalid_argument "Output arrays cannot be null")
          end
      end).

Definition SearchBatch (this : Z) (queries : option (list float32)) (nq k : Z)
    (distances : option (list float32)) (labels : option (list Z))
  : M t (list float32 * list Z) :=
  lock_guard this (
    let* w := load this in
    if disposed_ w then throw disposed_error
    else
      match queries with
      | None => throw (Exn std_invalid_argument "Queries pointer cannot be null")
      | Some q =>
          match distances, labels with
          | Some ds, Some ls =>
              if nq =? 0 then
                throw (Exn std_invalid_argument "Number of queries must be positive")
              else if k <=? 0 then throw (Exn std_invalid_argument "k must be positive")
              else
                let* i := deref w in
                emit (Backend this "ntotal") >>>
                let ntotal := to_size_t (Faiss.ntotal i) in
                if ntotal =? 0 then throw (Exn std_runtime_error "Cannot search empty index")
                else
                  let actual_k := clamp_k k ntotal in
                  emit (Backend this "search") >>>
                  match Faiss.search nq q actual_k i with
                  | inl msg => throw (Exn faiss_FaissException msg)
                  | inr (rd, rl) => ret (blit rd ds, blit rl ls)
                  end
          | _, _ => throw (Exn std_invalid_argument "Output arrays cannot be null")
          end
      end).

Definition GetTotalVectors (this : Z) : M t Z :=
  lock_guard this (
    let* w := load this in
    if disposed_ w then ret 0
    else
      let* i := deref w in
      emit (Backend this "ntotal") >>> ret (to_size_t (Faiss.ntotal i))).

Definition GetDimensions (this : Z) : M t Z :=
  let* w := load this in ret (dims_ w).

Definition Train (this : Z) (vectors : option (list float32)) (n : Z) : M t unit :=
  lock_guard this (
    let* w := load this in
    if disposed_ w then throw disposed_error
    else
      match vectors with
      | None => throw (Exn std_invalid_argument "Vectors pointer cannot be null")
      | Some x =>
          if n =? 0 then
            throw (Exn std_invalid_argument "Number of training vectors must be positive")
          else
            let* i := deref w in
            emit (Backend this "train") >>>
            let (r, i') := Faiss.train n x i in
            store this (set_index (Some i') w) >>> rethrow r
      end).

(** [nprobe] is an [int]; the field [faiss::IndexIVF::nprobe] is a
    [size_t], so the assignment converts it. *)
Definition SetNprobe (this : Z) (nprobe : Z) : M t unit :=
  lock_guard this (
    let* w := load this in
    if disposed_ w then throw disposed_error
    else
      let* i := deref w in
      if Faiss.is_ivf i then
        emit (Backend this "nprobe") >>>
        store this (set_index (Some (Faiss.set_nprobe (to_size_t nprobe) i)) w)
      else ret tt).

Definition IsTrained (this : Z) : M t bool :=
  lock_guard this (
    let* w := load this in
    if disposed_ w then ret false
    else
      let* i := deref w in
      emit (Backend this "is_trained") >>> ret (Faiss.is_trained i)).

Definition Save (this : Z) (filename : string) : M t unit :=
  lock_guard this (
    let* w := load this in
    if disposed_ w then throw disposed_error
    else if String.eqb filename "" then
      throw (Exn std_invalid_argument "Filename cannot be empty")
    else
      try_catch
        (let* i := deref w in
         emit (Backend this "write_index") >>>
         let (r, written) := Faiss.write_index_file i filename in
         (match written with
          | Some data => write_file filename data
          | None => ret tt
          end) >>>
         rethrow r)
        (fun e => throw (Exn std_runtime_error ("Failed to save index: " +:+ what e)))).

(** The common end of [Load] and [FromBuffer]: a flat wrapper of the loaded
    dimension is made, and its index is replaced by the loaded one. *)
Definition adopt (loaded_index : I) : M t Z :=
  let* wrapper := make_unique_flat (Faiss.d loaded_index) in
  let* w := load wrapper in
  store wrapper (mk (Some loaded_index) (Faiss.d loaded_index) (disposed_ w)) >>>
  ret wrapper.

Definition Load (filename : string) : M t Z :=
  if String.eqb filename "" then throw (Exn std_invalid_argument "Filename cannot be empty")
  else
    try_catch
      (let* content := read_file filename in
       match content with
       | None =>
           throw (Exn faiss_FaissException ("could not open " +:+ filename +:+ " for reading"))
       | Some data =>
           match Faiss.read_index data with
           | inl msg => throw (Exn faiss_FaissException msg)
           | inr loaded_index => adopt loaded_index
           end
       end)
      (fun e => throw (Exn std_runtime_error ("Failed to load index: " +:+ what e))).

Definition ToBuffer (this : Z) : M t (list Byte.byte) :=
  lock_guard this (
    let* w := load this in
    if disposed_ w then throw disposed_error
    else
      try_catch
        (let* i := deref w in
         emit (Backend this "write_index") >>>
         match Faiss.write_index i with
         | inl msg => throw (Exn faiss_FaissException msg)
         | inr data => ret data
         end)
        (fun e => throw (Exn std_runtime_error ("Failed to serialize index: " +:+ what e)))).

(** [data] is the pointer ([None] when null), [length] the byte count. *)
Definition FromBuffer (data : option (list Byte.byte)) (length : Z) : M t Z :=
  match data with
  | None => throw (Exn std_invalid_argument "Invalid buffer data")
  | Some bytes =>
      if length =? 0 then throw (Exn std_invalid_argument "Invalid buffer data")
      else
        try_catch
          (match Faiss.read_index (firstn (Z.to_nat length) bytes) with
           | inl msg => throw (Exn faiss_FaissException msg)
           | inr loaded_index => adopt loaded_index
           end)
          (fun e =>
             throw (Exn std_runtime_error ("Failed to deserialize index: " +:+ what e)))
  end.

(** [lock1] is taken on [this], then [lock2] on [other]. *)
Definition MergeFrom (this other : Z) : M t unit :=
  lock_guard this (
    lock_guard other (
      let* w := load this in
      let* o := load other in
      if disposed_ w then throw disposed_error
      else if disposed_ o then
        throw (Exn std_runtime_error "Cannot merge from disposed index")
      else if negb (dims_ o =? dims_ w) then
        throw (Exn std_invalid_argument "Merging index must have the same dimensions")
      else
        try_catch
          (let* i := deref w in
           let* j := deref o in
           emit (Backend this "merge_from") >>>
           emit (Backend other "merge_from") >>>
           let '(r, (i', j')) := Faiss.merge_from i j in
           store this (set_index (Some i') w) >>>
           store other (set_index (Some j') o) >>>
           rethrow r)
          (fun e => throw (Exn std_runtime_error ("Failed to merge index: " +:+ what e))))).

Definition Reset (this : Z) : M t unit :=
  lock_guard this (
    let* w := load this in
    if disposed_ w then throw disposed_error
    else
      try_catch
        (let* i := deref w in
         emit (Backend this "reset") >>>
         let (r, i') := Faiss.reset i in
         store this (set_index (Some i') w) >>> rethrow r)
        (fun e => throw (Exn std_runtime_error ("Failed to reset index: " +:+ what e)))).

(** The three output vectors are returned with the count: [total],
    [distances], [labels], [lims]. *)
Definition RangeSearch (this : Z) (query : option (list float32)) (radius : float32)
  : M t (Z * list float32 * list Z * list Z) :=
  lock_guard this (
    let* w := load this in
    if disposed_ w then throw disposed_error
    else
      match query with
      | None => throw (Exn std_invalid_argument "Query pointer cannot be null")
      | Some q =>
          if f32_lt0 radius then
            throw (Exn std_invalid_argument "Radius must be non-negative")
          else
            let* i := deref w in
            emit (Backend this "ntotal") >>>
            let ntotal := to_size_t (Faiss.ntotal i) in
            if ntotal =? 0 then throw (Exn std_runtime_error "Cannot search empty index")
            else
              try_catch
                (emit (Backend this "range_search") >>>
                 match Faiss.range_search 1 q radius i with
                 | inl msg => throw (Exn faiss_FaissException msg)
                 | inr (rlims, rd, rl) =>
                     let total := nth 1 rlims 0 in
                     let* distances := resize sizeof_float 0 total in
                     let* labels := resize sizeof_int64_t 0 total in
                     ret (total, blit rd distances, blit rl labels, [0; total])
                 end)
                (fun e =>
                   throw (Exn std_runtime_error ("Failed to range search: " +:+ what e)))
      end).

End Methods.
Arguments t I : clear implicits.
End FaissIndexWrapper.

(* ================================================================== *)
(** * The async workers (napi_bindings.cpp) *)

(** Each worker is the record of what its constructor captures; [Execute]
    returns [inl message] when it called [SetError message], and otherwise
    the members [OnOK] reads.  All exception classes of this file derive
    from [std::exception], so the [catch] of [Execute] takes every one. *)

Definition SetError_of (e : exn) : string := "FAISS error: " +:+ what e.

(** The JavaScript values the workers resolve their promises with. *)
Module Js.

Inductive Settled : Type :=
| Undefined
| SearchResult (distances : list float32) (labels : list Z)
| RangeSearchResult (distances : list float32) (labels : list Z) (nq : Z) (lims : list Z)
| SearchBatchResult (distances : list float32) (labels : list Z) (nq k : Z)
| Buffer (data : list Byte.byte).

Definition labels_of (v : Settled) : list Z :=
  match v with
  | SearchResult _ l | RangeSearchResult _ l _ _ | SearchBatchResult _ l _ _ => l
  | _ => []
  end.

Definition distances_of (v : Settled) : list float32 :=
  match v with
  | SearchResult x _ | RangeSearchResult x _ _ _ | SearchBatchResult x _ _ _ => x
  | _ => []
  end.

End Js.

Module AddWorker.
Section Worker.
Context {I : Type} {faiss : Faiss.Index I}.

Record t : Type := mk { wrapper_ : Z; vectors_ : list float32; n_ : Z }.

(** [vectors_(vectors, vectors + n * dims)]. *)
Definition new (wrapper : Z) (vectors : list float32) (n dims : Z) : t :=
  mk wrapper (firstn (Z.to_nat (to_size_t (n * to_size_t dims))) vectors) n.

Definition Execute (w : t) : M (FaissIndexWrapper.t I) (string + unit) :=
  try_catch
    (let* disposed := FaissIndexWrapper.IsDisposed (wrapper_ w) in
     if disposed then ret (inl "Index has been disposed")
     else
       FaissIndexWrapper.Add (wrapper_ w) (vector_data (vectors_ w)) (n_ w) >>>
       ret (inr tt))
    (fun e => ret (inl (SetError_of e))).

Definition OnOK (_ : unit) : Js.Settled := Js.Undefined.

End Worker.
End AddWorker.

Module TrainWorker.
Section Worker.
Context {I : Type} {faiss : Faiss.Index I}.

Record t : Type := mk { wrapper_ : Z; vectors_ : list float32; n_ : Z }.

Definition new (wrapper : Z) (vectors : list float32) (n dims : Z) : t :=
  mk wrapper (firstn (Z.to_nat (to_size_t (n * to_size_t dims))) vectors) n.

Definition Execute (w : t) : M (FaissIndexWrapper.t I) (string + unit) :=
  try_catch
    (let* disposed := FaissIndexWrapper.IsDisposed (wrapper_ w) in
     if disposed then ret (inl "Index has been disposed")
     else
       FaissIndexWrapper.Train (wrapper_ w) (vector_data (vectors_ w)) (n_ w) >>>
       ret (inr tt))
    (fun e => ret (inl (SetError_of e))).

Definition OnOK (_ : unit) : Js.Settled := Js.Undefined.

End Worker.
End TrainWorker.

Module SearchWorker.
Section Worker.
Context {I : Type} {faiss : Faiss.Index I}.

Record t : Type := mk { wrapper_ : Z; query_ : list float32; k_ : Z }.

(** [query_(query, query + wrapper->GetDimensions())]. *)
Definition new (wrapper : Z) (query : list float32) (k : Z)
  : M (FaissIndexWrapper.t I) t :=
  let* dims := FaissIndexWrapper.GetDimensions wrapper in
  ret (mk wrapper (firstn (Z.to_nat dims) query) k).

(** On success: [distances_] and [labels_]. *)
Definition Execute (w : t) : M (FaissIndexWrapper.t I) (string + (list float32 * list Z)) :=
  try_catch
    (let* disposed := FaissIndexWrapper.IsDisposed (wrapper_ w) in
     if disposed then ret (inl "Index has been disposed")
     else
       let* ntotal := FaissIndexWrapper.GetTotalVectors (wrapper_ w) in
       if ntotal =? 0 then ret (inl "Cannot search empty index")
       else
         let actual_k := FaissIndexWrapper.clamp_k (k_ w) ntotal in
         let* distances_ := resize sizeof_float 0 (to_size_t actual_k) in
         let* labels_ := resize sizeof_int64_t 0 (to_size_t actual_k) in
         let* r := FaissIndexWrapper.Search (wrapper_ w) (vector_data (query_ w)) actual_k
                     (vector_data distances_) (vector_data labels_) in
         ret (inr r))
    (fun e => ret (inl (SetError_of e))).

Definition OnOK (r : list float32 * list Z) : Js.Settled :=
  Js.SearchResult (fst r) (map to_int32 (snd r)).

End Worker.
End SearchWorker.

Module RangeSearchWorker.
Section Worker.
Context {I : Type} {faiss : Faiss.Index I}.

Record t : Type := mk { wrapper_ : Z; query_ : list float32; radius_ : float32 }.

Definition new (wrapper : Z) (query : list float32) (radius : float32)
  : M (FaissIndexWrapper.t I) t :=
  let* dims := FaissIndexWrapper.GetDimensions wrapper in
  ret (mk wrapper (firstn (Z.to_nat dims) query) radius).

(** On success: [distances_], [labels_] and [lims_]. *)
Definition Execute (w : t)
  : M (FaissIndexWrapper.t I) (string + (list float32 * list Z * list Z)) :=
  try_catch
    (let* disposed := FaissIndexWrapper.IsDisposed (wrapper_ w) in
     if disposed then ret (inl "Index has been disposed")
     else
       let* ntotal := FaissIndexWrapper.GetTotalVectors (wrapper_ w) in
       if ntotal =? 0 then ret (inl "Cannot search empty index")
       else
         let* r := FaissIndexWrapper.RangeSearch (wrapper_ w) (vector_data (query_ w))
                     (radius_ w) in
         let '(_, distances_, labels_, lims_) := r in
         ret (inr (distances_, labels_, lims_)))
    (fun e => ret (inl (SetError_of e))).

Definition OnOK (r : list float32 * list Z * list Z) : Js.Settled :=
  let '(distances_, labels_, lims_) := r in
  Js.RangeSearchResult distances_ (map to_int32 labels_) 1 (map to_uint32 lims_).

End Worker.
End RangeSearchWorker.

Module SearchBatchWorker.
Section Worker.
Context {I : Type} {faiss : Faiss.Index I}.

Record t : Type := mk { wrapper_ : Z; queries_ : list float32; nq_ : Z; k_ : Z }.

(** [queries_(queries, queries + nq * wrapper->GetDimensions())]. *)
Definition new (wrapper : Z) (queries : list float32) (nq k : Z)
  : M (FaissIndexWrapper.t I) t :=
  let* dims := FaissIndexWrapper.GetDimensions wrapper in
  ret (mk wrapper (firstn (Z.to_nat (to_size_t (nq * to_size_t dims))) queries) nq k).

Definition Execute (w : t) : M (FaissIndexWrapper.t I) (string + (list float32 * list Z)) :=
  try_catch
    (let* disposed := FaissIndexWrapper.IsDisposed (wrapper_ w) in
     if disposed then ret (inl "Index has been disposed")
     else
       let* ntotal := FaissIndexWrapper.GetTotalVectors (wrapper_ w) in
       if ntotal =? 0 then ret (inl "Cannot search empty index")
       else
         let actual_k := FaissIndexWrapper.clamp_k (k_ w) ntotal in
         let* distances_ := resize sizeof_float 0 (to_size_t (nq_ w * to_size_t actual_k)) in
         let* labels_ := resize sizeof_int64_t 0 (to_size_t (nq_ w * to_size_t actual_k)) in
         let* r := FaissIndexWrapper.SearchBatch (wrapper_ w) (vector_data (queries_ w))
                     (nq_ w) actual_k (vector_data distances_) (vector_data labels_) in
         ret (inr r))
    (fun e => ret (inl (SetError_of e))).

(** ["k"] is [static_cast<int>(distances_.size() / nq_)]. *)
Definition OnOK (w : t) (r : list float32 * list Z) : Js.Settled :=
  Js.SearchBatchResult (fst r) (map to_int32 (snd r)) (nq_ w)
    (to_int (Z.of_nat (length (fst r)) / nq_ w)).

End Worker.
End SearchBatchWorker.

Module SaveWorker.
Section Worker.
Context {I : Type} {faiss : Faiss.Index I}.

Record t : Type := mk { wrapper_ : Z; filename_ : string }.

Definition Execute (w : t) : M (FaissIndexWrapper.t I) (string + unit) :=
  try_catch
    (let* disposed := FaissIndexWrapper.IsDisposed (wrapper_ w) in
     if disposed then ret (inl "Index has been disposed")
     else FaissIndexWrapper.Save (wrapper_ w) (filename_ w) >>> ret (inr tt))
    (fun e => ret (inl (SetError_of e))).

Definition OnOK (_ : unit) : Js.Settled := Js.Undefined.

End Worker.
End SaveWorker.

Module ToBufferWorker.
Section Worker.
Context {I : Type} {faiss : Faiss.Index I}.

Record t : Type := mk { wrapper_ : Z }.

(** On success: [buffer_]. *)
Definition Execute (w : t) : M (FaissIndexWrapper.t I) (string + list Byte.byte) :=
  try_catch
    (let* disposed := FaissIndexWrapper.IsDisposed (wrapper_ w) in
     if disposed then ret (inl "Index has been disposed")
     else
       let* buffer_ := FaissIndexWrapper.ToBuffer (wrapper_ w) in
       ret (inr buffer_))
    (fun e => ret (inl (SetError_of e))).

Definition OnOK (buffer_ : list Byte.byte) : Js.Settled := Js.Buffer buffer_.

End Worker.
End ToBufferWorker.

Module MergeFromWorker.
Section Worker.
Context {I : Type} {faiss : Faiss.Index I}.

Record t : Type := mk { target_ : Z; source_ : Z }.

Definition Execute (w : t) : M (FaissIndexWrapper.t I) (string + unit) :=
  try_catch
    (let* target_disposed := FaissIndexWrapper.IsDisposed (target_ w) in
     if target_disposed then ret (inl "Target index has been disposed")
     else
       let* source_disposed := FaissIndexWrapper.IsDisposed (source_ w) in
       if source_disposed then ret (inl "Source index has been disposed")
       else FaissIndexWrapper.MergeFrom (target_ w) (source_ w) >>> ret (inr tt))
    (fun e => ret (inl (SetError_of e))).

Definition OnOK (_ : unit) : Js.Settled := Js.Undefined.

End Worker.
End MergeFromWorker.

(** A queued worker, and what [Napi::AsyncWorker] does with it once a pool
    thread picks it up: [Execute], then [OnOK] (the promise is resolved) or
    [OnError] (it is rejected with the message given to [SetError]). *)
Module AsyncWorker.
Section Queue.
Context {I : Type} {faiss : Faiss.Index I}.

Inductive t : Type :=
| Add (w : AddWorker.t)
| Train (w : TrainWorker.t)
| Search (w : SearchWorker.t)
| RangeSearch (w : RangeSearchWorker.t)
| SearchBatch (w : SearchBatchWorker.t)
| Save (w : SaveWorker.t)
| ToBuffer (w : ToBufferWorker.t)
| MergeFrom (w : MergeFromWorker.t).

Inductive completion : Type :=
| Resolve (value : Js.Settled)
| Reject (message : string).

Definition settle {A} (on_ok : A -> Js.Settled) (r : string + A) : completion :=
  match r with
  | inl message => Reject message
  | inr a => Resolve (on_ok a)
  end.

Definition run (w : t) : M (FaissIndexWrapper.t I) completion :=
  match w with
  | Add w => let* r := AddWorker.Execute w in ret (settle AddWorker.OnOK r)
  | Train w => let* r := TrainWorker.Execute w in ret (settle TrainWorker.OnOK r)
  | Search w => let* r := SearchWorker.Execute w in ret (settle SearchWorker.OnOK r)
  | RangeSearch w =>
      let* r := RangeSearchWorker.Execute w in ret (settle RangeSearchWorker.OnOK r)
  | SearchBatch w =>
      let* r := SearchBatchWorker.Execute w in ret (settle (SearchBatchWorker.OnOK w) r)
  | Save w => let* r := SaveWorker.Execute w in ret (settle SaveWorker.OnOK r)
  | ToBuffer w => let* r := ToBufferWorker.Execute w in ret (settle ToBufferWorker.OnOK r)
  | MergeFrom w => let* r := MergeFromWorker.Execute w in ret (settle MergeFromWorker.OnOK r)
  end.


End Queue.
End AsyncWorker.

(* ================================================================== *)
(** * class FaissIndexWrapperJS (napi_bindings.cpp) *)

Module Napi.

(** The arguments a JavaScript caller can pass.  A number is given by the
    two conversions the bindings apply to one, [Int32Value()] and
    [FloatValue()]; [TypedArray] is a typed array that is neither a
    [Float32Array] nor a [Buffer], given by the bytes it views; [Instance]
    is an object that wraps a [FaissIndexWrapperJS], given by that
    object's two members. *)
#[warnings="-register-all"]
Inductive Value : Type :=
| Undefined
| Number (Int32Value : Z) (FloatValue : float32)
| String (Utf8Value : string)
| Float32Array (elements : list float32)
| TypedArray (bytes : list Byte.byte)
| Buffer (data : list Byte.byte)
| Object (properties : list (string * Value))
| Instance (wrapper_ : option Z) (dims_ : Z).

Definition IsObject (v : Value) : bool :=
  match v with
  | Float32Array _ | TypedArray _ | Buffer _ | Object _ | Instance _ _ => true
  | _ => false
  end.

Definition IsNumber (v : Value) : bool :=
  match v with Number _ _ => true | _ => false end.

Definition IsString (v : Value) : bool :=
  match v with String _ => true | _ => false end.

(** A [Buffer] is a [Uint8Array], hence a typed array. *)
Definition IsTypedArray (v : Value) : bool :=
  match v with Float32Array _ | TypedArray _ | Buffer _ => true | _ => false end.

(** [napi_is_buffer]: in Node.js it answers true for a [Buffer] and for
    every other view of an [ArrayBuffer], so for every typed array. *)
Definition IsBuffer (v : Value) : bool :=
  match v with Float32Array _ | TypedArray _ | Buffer _ => true | _ => false end.

(** The four bytes of a [float] in memory, on a little-endian host. *)
Definition float_bytes (x : float32) : list Byte.byte :=
  map (fun j => default Byte.x00 (Byte.of_N (Z.to_N (Z.shiftr x (8 * j) mod 256))))
      [0; 1; 2; 3].

(** [Napi::Buffer<uint8_t>::Data()] and [Length()] on a value for which
    [IsBuffer()] holds: the bytes the view covers. *)
Definition buffer_data (v : Value) : list Byte.byte :=
  match v with
  | Buffer data => data
  | TypedArray bytes => bytes
  | Float32Array elements => flat_map float_bytes elements
  | _ => []
  end.

Fixpoint lookup (key : string) (properties : list (string * Value)) : option Value :=
  match properties with
  | [] => None
  | (k, v) :: rest => if String.eqb k key then Some v else lookup key rest
  end.

Definition Get (v : Value) (key : string) : Value :=
  match v with
  | Object properties => default Undefined (lookup key properties)
  | _ => Undefined
  end.

Definition Has (v : Value) (key : string) : bool :=
  match v with
  | Object properties =>
      match lookup key properties with Some _ => true | None => false end
  | _ => false
  end.

(** [info[i]] of a [CallbackInfo]: [undefined] past the arguments. *)
Definition arg (i : nat) (info : list Value) : Value := nth i info Undefined.

(** [info.Length()]. *)
Definition Length (info : list Value) : Z := Z.of_nat (length info).

Definition TypeError {Obj A} (message : string) : M Obj A :=
  throw (Exn napi_TypeError message).
Definition RangeError {Obj A} (message : string) : M Obj A :=
  throw (Exn napi_RangeError message).
Definition Error {Obj A} (message : string) : M Obj A :=
  throw (Exn napi_Error message).

(** The [catch] clauses every method ends with: a [Napi::Error] is thrown
    again as it is, any other [std::exception] becomes a [Napi::Error]. *)
Definition guarded {Obj A} (body : M Obj A) : M Obj A :=
  try_catch body (fun e =>
    if is_napi e then throw e else Error ("FAISS error: " +:+ what e)).

End Napi.

Module FaissIndexWrapperJS.
Section Methods.
Context {I : Type} {faiss : Faiss.Index I}.

Abbreviation M := (M (FaissIndexWrapper.t I)).

(** The members; [wrapper_] is [None] for a null [unique_ptr]. *)
Record t : Type := mk { wrapper_ : option Z; dims_ : Z }.

(** What a method returns to JavaScript. *)
Inductive Returned : Type :=
| Undefined
| Stats (ntotal dims : Z) (isTrained : bool) (type : string)
| Promise (queued : AsyncWorker.t)
| Instance (obj : t).

(** [Napi::ObjectWrap<FaissIndexWrapperJS>::Unwrap]; on an object that
    wraps nothing, node-addon-api throws the error of [napi_unwrap]. *)
Definition Unwrap (v : Napi.Value) : M t :=
  match v with
  | Napi.Instance w dims => ret (mk w dims)
  | _ => Napi.Error "Invalid argument"
  end.

(** [wrapper_.get()], dereferenced by the caller. *)
Definition get (this : t) : M Z :=
  match wrapper_ this with
  | Some p => ret p
  | None => fault
  end.

Definition ValidateNotDisposed (this : t) : M unit :=
  match wrapper_ this with
  | None => Napi.Error "Index has been disposed"
  | Some p =>
      let* disposed := FaissIndexWrapper.IsDisposed p in
      if disposed then Napi.Error "Index has been disposed" else ret tt
  end.

(** The index description and metric the constructor derives from
    [config.type]. *)
Definition describe (config : Napi.Value) : M (string * Z) :=
  if Napi.Has config "type" && Napi.IsString (Napi.Get config "type") then
    match Napi.Get config "type" with
    | Napi.String type =>
        if String.eqb type "FLAT_L2" then ret ("Flat", 1)
        else if String.eqb type "FLAT_IP" then ret ("Flat", 0)
        else if String.eqb type "IVF_FLAT" then
          let nlist :=
            if Napi.Has config "nlist" && Napi.IsNumber (Napi.Get config "nlist") then
              match Napi.Get config "nlist" with Napi.Number n _ => n | _ => 100 end
            else 100 in
          ret ("IVF" +:+ to_string nlist +:+ ",Flat", 1)
        else if String.eqb type "HNSW" then
          let M :=
            if Napi.Has config "M" && Napi.IsNumber (Napi.Get config "M") then
              match Napi.Get config "M" with Napi.Number n _ => n | _ => 16 end
            else 16 in
          ret ("HNSW" +:+ to_string M, 1)
        else
          Napi.TypeError ("Unsupported index type: " +:+ type +:+
                          ". Supported: FLAT_L2, FLAT_IP, IVF_FLAT, HNSW")
    | _ => ret ("Flat", 1)
    end
  else ret ("Flat", 1).

(** [FaissIndexWrapperJS(const Napi::CallbackInfo& info)]. *)
Definition construct (info : list Napi.Value) : M t :=
  Napi.guarded (
    if Napi.Length info <? 1 then Napi.TypeError "Expected 1 argument: { dims: number }"
    else
      let config := Napi.arg 0 info in
      if negb (Napi.IsObject config) then
        Napi.TypeError "Expected object with 'dims' property"
      else
        match Napi.Get config "dims" with
        | Napi.Number dims _ =>
            if negb (Napi.Has config "dims") then
              Napi.TypeError "Config must have 'dims' as a number"
            else if dims <=? 0 then Napi.RangeError "Dimensions must be positive"
            else
              let* dm := describe config in
              let* p := FaissIndexWrapper.make_unique dims (fst dm) (snd dm) in
              (if Napi.Has config "nprobe" && Napi.IsNumber (Napi.Get config "nprobe") then
                 match Napi.Get config "nprobe" with
                 | Napi.Number nprobe _ => FaissIndexWrapper.SetNprobe p nprobe
                 | _ => ret tt
                 end
               else ret tt) >>>
              ret (mk (Some p) dims)
        | _ => Napi.TypeError "Config must have 'dims' as a number"
        end).

(** [~FaissIndexWrapperJS()]: the explicit [Dispose], then the destructor
    of the [unique_ptr] member. *)
Definition destroy (this : t) : M unit :=
  match wrapper_ this with
  | None => ret tt
  | Some p =>
      let* disposed := FaissIndexWrapper.IsDisposed p in
      (if disposed then ret tt else FaissIndexWrapper.Dispose p) >>>
      FaissIndexWrapper.destroy p
  end.

Definition not_multiple (what_ : string) (length dims : Z) : string :=
  what_ +:+ "Got " +:+ to_string length +:+ ", expected multiple of " +:+ to_string dims.

Definition not_match (length dims : Z) : string :=
  "Query vector length must match index dimensions. Got " +:+ to_string length +:+
  ", expected " +:+ to_string dims.

(** [length % dims_] and [length / dims_] are computed in [size_t]; a zero
    divisor is undefined behaviour. *)
Definition Add (this : t) (info : list Napi.Value) : M Returned :=
  Napi.guarded (
    ValidateNotDisposed this >>>
    if Napi.Length info <? 1 then
      Napi.TypeError "Expected at least 1 argument: vectors (Float32Array)"
    else
      match Napi.arg 0 info with
      | Napi.Float32Array elements =>
          let length := Z.of_nat (length elements) in
          if to_size_t (dims_ this) =? 0 then fault
          else if negb (length mod to_size_t (dims_ this) =? 0) then
            Napi.RangeError
              (not_multiple "Vector length must be a multiple of dimensions. " length (dims_ this))
          else
            let n := length / to_size_t (dims_ this) in
            let* p := get this in
            ret (Promise (AsyncWorker.Add (AddWorker.new p elements n (dims_ this))))
      | _ => Napi.TypeError "Expected Float32Array"
      end).

Definition Train (this : t) (info : list Napi.Value) : M Returned :=
  Napi.guarded (
    ValidateNotDisposed this >>>
    if Napi.Length info <? 1 then
      Napi.TypeError "Expected 1 argument: vectors (Float32Array)"
    else
      match Napi.arg 0 info with
      | Napi.Float32Array elements =>
          let length := Z.of_nat (length elements) in
          if to_size_t (dims_ this) =? 0 then fault
          else if negb (length mod to_size_t (dims_ this) =? 0) then
            Napi.RangeError
              (not_multiple "Vector length must be a multiple of dimensions. " length (dims_ this))
          else
            let n := length / to_size_t (dims_ this) in
            let* p := get this in
            ret (Promise (AsyncWorker.Train (TrainWorker.new p elements n (dims_ this))))
      | _ => Napi.TypeError "Expected Float32Array"
      end).

Definition SetNprobe (this : t) (info : list Napi.Value) : M Returned :=
  Napi.guarded (
    ValidateNotDisposed this >>>
    if Napi.Length info <? 1 then Napi.TypeError "Expected 1 argument: nprobe (number)"
    else
      match Napi.arg 0 info with
      | Napi.Number nprobe _ =>
          if nprobe <=? 0 then Napi.RangeError "nprobe must be positive"
          else
            let* p := get this in
            FaissIndexWrapper.SetNprobe p nprobe >>> ret Undefined
      | _ => Napi.TypeError "Expected number for nprobe"
      end).

(** The length test is [static_cast<int>(queryArr.ElementLength()) != dims_]. *)
Definition Search (this : t) (info : list Napi.Value) : M Returned :=
  Napi.guarded (
    ValidateNotDisposed this >>>
    if Napi.Length info <? 2 then
      Napi.TypeError "Expected 2 arguments: query (Float32Array), k (number)"
    else if negb (Napi.IsTypedArray (Napi.arg 0 info)) then
      Napi.TypeError "Expected Float32Array for query"
    else
      match Napi.arg 1 info with
      | Napi.Number k _ =>
          match Napi.arg 0 info with
          | Napi.Float32Array elements =>
              let length := Z.of_nat (length elements) in
              if negb (to_int length =? dims_ this) then
                Napi.RangeError (not_match length (dims_ this))
              else if k <=? 0 then Napi.RangeError "k must be positive"
              else
                let* p := get this in
                let* w := SearchWorker.new p elements k in
                ret (Promise (AsyncWorker.Search w))
          | _ => Napi.TypeError "Expected Float32Array for query"
          end
      | _ => Napi.TypeError "Expected number for k"
      end).

Definition SearchBatch (this : t) (info : list Napi.Value) : M Returned :=
  Napi.guarded (
    ValidateNotDisposed this >>>
    if Napi.Length info <? 2 then
      Napi.TypeError "Expected 2 arguments: queries (Float32Array), k (number)"
    else if negb (Napi.IsTypedArray (Napi.arg 0 info)) then
      Napi.TypeError "Expected Float32Array for queries"
    else
      match Napi.arg 1 info with
      | Napi.Number k _ =>
          match Napi.arg 0 info with
          | Napi.Float32Array elements =>
              let totalElements := Z.of_nat (length elements) in
              if totalElements =? 0 then Napi.RangeError "Queries array cannot be empty"
              else if to_size_t (dims_ this) =? 0 then fault
              else if negb (totalElements mod to_size_t (dims_ this) =? 0) then
                Napi.RangeError
                  (not_multiple "Queries array length must be a multiple of index dimensions. "
                     totalElements (dims_ this))
              else
                let nq := totalElements / to_size_t (dims_ this) in
                if k <=? 0 then Napi.RangeError "k must be positive"
                else
                  let* p := get this in
                  let* w := SearchBatchWorker.new p elements nq k in
                  ret (Promise (AsyncWorker.SearchBatch w))
          | _ => Napi.TypeError "Expected Float32Array for queries"
          end
      | _ => Napi.TypeError "Expected number for k"
      end).

Definition RangeSearch (this : t) (info : list Napi.Value) : M Returned :=
  Napi.guarded (
    ValidateNotDisposed this >>>
    if Napi.Length info <? 2 then
      Napi.TypeError "Expected 2 arguments: query (Float32Array), radius (number)"
    else if negb (Napi.IsTypedArray (Napi.arg 0 info)) then
      Napi.TypeError "Expected Float32Array for query"
    else
      match Napi.arg 1 info with
      | Napi.Number _ radius =>
          match Napi.arg 0 info with
          | Napi.Float32Array elements =>
              let length := Z.of_nat (length elements) in
              if negb (to_int length =? dims_ this) then
                Napi.RangeError (not_match length (dims_ this))
              else if f32_lt0 radius then Napi.RangeError "Radius must be non-negative"
              else
                let* p := get this in
                let* w := RangeSearchWorker.new p elements radius in
                ret (Promise (AsyncWorker.RangeSearch w))
          | _ => Napi.TypeError "Expected Float32Array for query"
          end
      | _ => Napi.TypeError "Expected number for radius"
      end).

(** [Napi::Number::New] takes a [double]: the [size_t] count is
    converted, the [int] dimension is exact. *)
Definition GetStats (this : t) (info : list Napi.Value) : M Returned :=
  Napi.guarded (
    ValidateNotDisposed this >>>
    let* p := get this in
    let* ntotal := FaissIndexWrapper.GetTotalVectors p in
    let* dims := FaissIndexWrapper.GetDimensions p in
    let* isTrained := FaissIndexWrapper.IsTrained p in
    ret (Stats (to_double ntotal) dims isTrained "FLAT_L2")).

Definition Dispose (this : t) (info : list Napi.Value) : M Returned :=
  match wrapper_ this with
  | None => ret Undefined
  | Some p =>
      let* disposed := FaissIndexWrapper.IsDisposed p in
      (if disposed then ret tt else FaissIndexWrapper.Dispose p) >>> ret Undefined
  end.

Definition Reset (this : t) (info : list Napi.Value) : M Returned :=
  Napi.guarded (
    ValidateNotDisposed this >>>
    let* p := get this in
    FaissIndexWrapper.Reset p >>> ret Undefined).

(** The helper the class declares for label arrays. *)
Definition CreateInt32Array (length : Z) (data : list Z) : list Z :=
  map to_int32 (firstn (Z.to_nat length) data).

Definition Save (this : t) (info : list Napi.Value) : M Returned :=
  Napi.guarded (
    ValidateNotDisposed this >>>
    if Napi.Length info <? 1 then Napi.TypeError "Expected 1 argument: filename (string)"
    else
      match Napi.arg 0 info with
      | Napi.String filename =>
          let* p := get this in
          ret (Promise (AsyncWorker.Save (SaveWorker.mk p filename)))
      | _ => Napi.TypeError "Expected string for filename"
      end).

Definition ToBuffer (this : t) (info : list Napi.Value) : M Returned :=
  Napi.guarded (
    ValidateNotDisposed this >>>
    let* p := get this in
    ret (Promise (AsyncWorker.ToBuffer (ToBufferWorker.mk p)))).

Definition MergeFrom (this : t) (info : list Napi.Value) : M Returned :=
  Napi.guarded (
    ValidateNotDisposed this >>>
    if Napi.Length info <? 1 then
      Napi.TypeError "Expected 1 argument: otherIndex (FaissIndex)"
    else if negb (Napi.IsObject (Napi.arg 0 info)) then
      Napi.TypeError "Expected FaissIndex object"
    else
      let* otherInstance := Unwrap (Napi.arg 0 info) in
      match wrapper_ otherInstance with
      | None => Napi.Error "Invalid index object"
      | Some q =>
          let* disposed := FaissIndexWrapper.IsDisposed q in
          if disposed then Napi.Error "Cannot merge from disposed index"
          else
            let* p := get this in
            ret (Promise (AsyncWorker.MergeFrom (MergeFromWorker.mk p q)))
      end).

(** The common end of the static [Load] and [FromBuffer]: a new instance
    is constructed from [{ dims }], and its wrapper is replaced by the
    loaded one.  When the constructor throws, the loaded wrapper is
    destroyed with the [unique_ptr] that owns it. *)
Definition wrap_loaded (loaded_wrapper : Z) : M Returned :=
  let* dims := FaissIndexWrapper.GetDimensions loaded_wrapper in
  let* instance :=
    try_catch (construct [Napi.Object [("dims", Napi.Number (to_int32 dims) 0)]])
      (fun e => FaissIndexWrapper.destroy loaded_wrapper >>> throw e) in
  (match wrapper_ instance with
   | Some old => FaissIndexWrapper.destroy old
   | None => ret tt
   end) >>>
  ret (Instance (mk (Some loaded_wrapper) dims)).

Definition Load (info : list Napi.Value) : M Returned :=
  Napi.guarded (
    if Napi.Length info <? 1 then Napi.TypeError "Expected 1 argument: filename (string)"
    else
      match Napi.arg 0 info with
      | Napi.String filename =>
          let* loaded_wrapper := FaissIndexWrapper.Load filename in
          wrap_loaded loaded_wrapper
      | _ => Napi.TypeError "Expected string for filename"
      end).

Definition FromBuffer (info : list Napi.Value) : M Returned :=
  Napi.guarded (
    if Napi.Length info <? 1 then Napi.TypeError "Expected 1 argument: buffer (Buffer)"
    else if negb (Napi.IsBuffer (Napi.arg 0 info)) then Napi.TypeError "Expected Buffer"
    else
      let data := Napi.buffer_data (Napi.arg 0 info) in
      let* loaded_wrapper :=
        FaissIndexWrapper.FromBuffer (Some data) (Z.of_nat (length data)) in
      wrap_loaded loaded_wrapper).

(** The instance methods [DefineClass] registers, by JavaScript name. *)
Inductive method : Type :=
| add | train | search | searchBatch | rangeSearch | getStats | dispose
| save | toBuffer | mergeFrom | setNprobe | reset.

Definition call (m : method) (this : t) (info : list Napi.Value) : M Returned :=
  match m with
  | add => Add this info
  | train => Train this info
  | search => Search this info
  | searchBatch => SearchBatch this info
  | rangeSearch => RangeSearch this info
  | getStats => GetStats this info
  | dispose => Dispose this info
  | save => Save this info
  | toBuffer => ToBuffer this info
  | mergeFrom => MergeFrom this info
  | setNprobe => SetNprobe this info
  | reset => Reset this info
  end.

(** A caller making the given calls on [this] one after the other: what
    each call returned or threw, and the store at the end. *)
Fixpoint call_all (this : t) (calls : list (method * list Napi.Value))
    (s : World (FaissIndexWrapper.t I))
  : list (outcome Returned) * World (FaissIndexWrapper.t I) :=
  match calls with
  | [] => ([], s)
  | (m, info) :: rest =>
      let (r, s') := call m this info s in
      let (rs, s'') := call_all this rest s' in
      (r :: rs, s'')
  end.

End Methods.
End FaissIndexWrapperJS.

(* ================================================================== *)
(** * A stand-in for the library *)

(** An instance of [Faiss.Index] on which the code above can be run.  It
    keeps the scalar fields of an index and nothing of the vectors: every
    stored vector is taken to be at distance [+0.0] of every query, so a
    search reports the first labels and a range search all of them.  How
    [ntotal] moves follows the library: [add] adds [n], [reset] clears,
    and [merge_from] is as faiss/Index.h documents it ("moves the entries
    from another dataset to self. On output, other is empty") and as
    [IndexFlatCodes::merge_from] does it, ending in [other->reset()]. *)
Module StubIndex.

Inductive variant : Type := Flat | IVF | HNSW.

Record t : Type := mk {
  kind : variant;
  d : Z;
  metric_type : Z;
  is_trained : bool;
  ntotal : Z;
  nprobe : Z
}.

Definition with_ntotal (n : Z) (i : t) : t :=
  mk (kind i) (d i) (metric_type i) (is_trained i) n (nprobe i).

Definition add (n : Z) (x : list float32) (i : t) : option string * t :=
  if is_trained i then (None, with_ntotal (ntotal i + n) i)
  else (Some "Error: 'is_trained' failed", i).

Definition train (n : Z) (x : list float32) (i : t) : option string * t :=
  (None, mk (kind i) (d i) (metric_type i) true (ntotal i) (nprobe i)).

Definition reset (i : t) : option string * t := (None, with_ntotal 0 i).

(** Labels [0 .. k-1] of one query, [-1] where the index has fewer. *)
Definition first_labels (k : Z) (i : t) : list Z :=
  map (fun j => let j := Z.of_nat j in if j <? ntotal i then j else -1)
      (seq 0 (Z.to_nat k)).

Definition search (nq : Z) (x : list float32) (k : Z) (i : t)
  : string + (list float32 * list Z) :=
  inr (repeat 0 (Z.to_nat (nq * k)),
       concat (repeat (first_labels k i) (Z.to_nat nq))).

Definition range_search (nq : Z) (x : list float32) (radius : float32) (i : t)
  : string + (list Z * list float32 * list Z) :=
  inr ([0; ntotal i], repeat 0 (Z.to_nat (ntotal i)), first_labels (ntotal i) i).

Definition merge_from (i other : t) : option string * (t * t) :=
  match kind i with
  | HNSW => (Some "merge_from() not implemented", (i, other))
  | _ =>
      if d i =? d other then
        (None, (with_ntotal (ntotal i + ntotal other) i, with_ntotal 0 other))
      else (Some "Error: 'd == other.d' failed", (i, other))
  end.

Definition is_ivf (i : t) : bool :=
  match kind i with IVF => true | _ => false end.

Definition set_nprobe (n : Z) (i : t) : t :=
  mk (kind i) (d i) (metric_type i) (is_trained i) (ntotal i) n.

Definition index_factory (dims : Z) (description : string) (metric : Z) : string + t :=
  if String.eqb description "Flat" then inr (mk Flat dims metric true 0 1)
  else if String.prefix "IVF" description then inr (mk IVF dims metric false 0 1)
  else if String.prefix "HNSW" description then inr (mk HNSW dims metric true 0 1)
  else inl ("could not parse index string " +:+ description).

Definition byte_of (z : Z) : Byte.byte :=
  default Byte.x00 (Byte.of_N (Z.to_N (z mod 256))).

Definition of_byte (b : Byte.byte) : Z := Z.of_N (Byte.to_N b).

(** Eight bytes, least significant first. *)
Definition le64 (z : Z) : list Byte.byte :=
  map (fun j => byte_of (Z.shiftr z (8 * Z.of_nat j))) (seq 0 8).

Definition of_le64 (bytes : list Byte.byte) : Z :=
  fold_right (fun b acc => of_byte b + 256 * acc) 0 bytes.

Definition tag (k : variant) : Z :=
  match k with Flat => 0 | IVF => 1 | HNSW => 2 end.

Definition write_index (i : t) : string + list Byte.byte :=
  inr (byte_of (tag (kind i)) :: byte_of (if is_trained i then 1 else 0) ::
       le64 (d i) ++ le64 (metric_type i) ++ le64 (ntotal i) ++ le64 (nprobe i)).

(** Writing to a file: nothing under the directory "/nonexistent" can be
    opened; any other file is opened, emptied, and then written. *)
Definition write_index_file (i : t) (fname : string)
  : option string * option (list Byte.byte) :=
  if String.prefix "/nonexistent/" fname then
    (Some ("could not open " +:+ fname +:+ " for writing: No such file or directory"), None)
  else
    match write_index i with
    | inr data => (None, Some data)
    | inl msg => (Some msg, Some [])
    end.

Definition read_index (bytes : list Byte.byte) : string + t :=
  match bytes with
  | k :: tr :: rest =>
      if negb (Z.of_nat (length rest) =? 32) then inl "read error"
      else
        let field n := of_le64 (firstn 8 (skipn (8 * n) rest)) in
        let trained := negb (of_byte tr =? 0) in
        match of_byte k with
        | 0 => inr (mk Flat (field 0%nat) (field 1%nat) trained (field 2%nat) (field 3%nat))
        | 1 => inr (mk IVF (field 0%nat) (field 1%nat) trained (field 2%nat) (field 3%nat))
        | 2 => inr (mk HNSW (field 0%nat) (field 1%nat) trained (field 2%nat) (field 3%nat))
        | _ => inl "Index type not recognized"
        end
  | _ => inl "read error"
  end.

#[global] Instance faiss : Faiss.Index t := {|
  Faiss.d := d;
  Faiss.ntotal := ntotal;
  Faiss.is_trained := is_trained;
  Faiss.add := add;
  Faiss.train := train;
  Faiss.reset := reset;
  Faiss.search := search;
  Faiss.range_search := range_search;
  Faiss.merge_from := merge_from;
  Faiss.is_ivf := is_ivf;
  Faiss.set_nprobe := set_nprobe;
  Faiss.index_factory := index_factory;
  Faiss.write_index := write_index;
  Faiss.write_index_file := write_index_file;
  Faiss.read_index := read_index
|}.

(** A store with nothing in it. *)
Definition empty_world : World (FaissIndexWrapper.t t) := mkWorld ∅ 1 [] [] ∅.

(** A store with the given wrappers at addresses 1, 2, ... *)
Definition world_of (objects : list (FaissIndexWrapper.t t)) : World (FaissIndexWrapper.t t) :=
  mkWorld (list_to_map (zip (map Z.of_nat (seq 1 (length objects))) objects))
          (Z.of_nat (length objects) + 1) [] [] ∅.

(** A live flat L2 wrapper of dimension [dims] holding [n] vectors. *)
Definition flat (dims n : Z) : FaissIndexWrapper.t t :=
  FaissIndexWrapper.mk (Some (mk Flat dims 1 true n 1)) dims false.

End StubIndex.

(* ================================================================== *)
(** * A stand-in that reports ids of the caller's choice *)

(** A second instance of [Faiss.Index]: an index that reports its vectors
    under ids given when they were added, as [faiss::IndexIDMap] does;
    here the ids are [first_id], [first_id + 1], ...  The constructor of
    the bindings never builds such an index; [load] and [fromBuffer]
    adopt whatever index the library reads.  Serialized, it is the index
    it wraps followed by [first_id]. *)
Module StubIdMap.

Record t : Type := mk { index : StubIndex.t; first_id : Z }.

(** The id of the vector at position [l]; [-1] stays the mark of a missing
    neighbour. *)
Definition relabel (i : t) (l : Z) : Z := if l <? 0 then l else first_id i + l.

Definition lift (f : StubIndex.t -> option string * StubIndex.t) (i : t)
  : option string * t :=
  let (r, b) := f (index i) in (r, mk b (first_id i)).

Definition search (nq : Z) (x : list float32) (k : Z) (i : t)
  : string + (list float32 * list Z) :=
  match StubIndex.search nq x k (index i) with
  | inl msg => inl msg
  | inr (distances, labels) => inr (distances, map (relabel i) labels)
  end.

Definition range_search (nq : Z) (x : list float32) (radius : float32) (i : t)
  : string + (list Z * list float32 * list Z) :=
  match StubIndex.range_search nq x radius (index i) with
  | inl msg => inl msg
  | inr (lims, distances, labels) => inr (lims, distances, map (relabel i) labels)
  end.

Definition merge_from (i other : t) : option string * (t * t) :=
  let '(r, (a, b)) := StubIndex.merge_from (index i) (index other) in
  (r, (mk a (first_id i), mk b (first_id other))).

Definition index_factory (dims : Z) (description : string) (metric : Z) : string + t :=
  match StubIndex.index_factory dims description metric with
  | inl msg => inl msg
  | inr b => inr (mk b 0)
  end.

Definition write_index (i : t) : string + list Byte.byte :=
  match StubIndex.write_index (index i) with
  | inl msg => inl msg
  | inr data => inr (data ++ StubIndex.le64 (first_id i))
  end.

Definition write_index_file (i : t) (fname : string)
  : option string * option (list Byte.byte) :=
  if String.prefix "/nonexistent/" fname then
    (Some ("could not open " +:+ fname +:+ " for writing: No such file or directory"), None)
  else
    match write_index i with
    | inr data => (None, Some data)
    | inl msg => (Some msg, Some [])
    end.

Definition read_index (bytes : list Byte.byte) : string + t :=
  let n := (length bytes - 8)%nat in
  match StubIndex.read_index (firstn n bytes) with
  | inl msg => inl msg
  | inr b => inr (mk b (StubIndex.of_le64 (skipn n bytes)))
  end.

#[global] Instance faiss : Faiss.Index t := {|
  Faiss.d i := StubIndex.d (index i);
  Faiss.ntotal i := StubIndex.ntotal (index i);
  Faiss.is_trained i := StubIndex.is_trained (index i);
  Faiss.add n x := lift (StubIndex.add n x);
  Faiss.train n x := lift (StubIndex.train n x);
  Faiss.reset := lift StubIndex.reset;
  Faiss.search := search;
  Faiss.range_search := range_search;
  Faiss.merge_from := merge_from;
  Faiss.is_ivf i := StubIndex.is_ivf (index i);
  Faiss.set_nprobe n i := mk (StubIndex.set_nprobe n (index i)) (first_id i);
  Faiss.index_factory := index_factory;
  Faiss.write_index := write_index;
  Faiss.write_index_file := write_index_file;
  Faiss.read_index := read_index
|}.

(** A store with one live wrapper, at address 1, of a flat index of
    dimension [dims] that holds [n] vectors under the ids [first],
    [first + 1], ... *)
Definition world_of (dims n first : Z) : World (FaissIndexWrapper.t t) :=
  mkWorld {[ 1 := FaissIndexWrapper.mk
                    (Some (mk (StubIndex.mk StubIndex.Flat dims 1 true n 1) first)) dims false ]}
          2 [] [] ∅.

End StubIdMap.

(* ================================================================== *)
(** * The error taxonomy of the specification *)

(** The five kinds of failure the specification names (section 7), read
    off the exceptions of the code: the class decides for the argument
    errors, the message for the rest. *)
Module Taxonomy.

Inductive kind : Type :=
| InvalidArgument
| Disposed
| EmptyIndex
| DimensionMismatch
| BackendError.

Definition of_message (message : string) : kind :=
  if existsb (String.eqb message)
       ["Index has been disposed"; "Cannot merge from disposed index";
        "Target index has been disposed"; "Source index has been disposed"]
  then Disposed
  else if String.eqb message "Cannot search empty index" then EmptyIndex
  else BackendError.

Definition of_exn (e : exn) : kind :=
  match cls e with
  | std_invalid_argument =>
      if String.eqb (what e) "Merging index must have the same dimensions"
      then DimensionMismatch else InvalidArgument
  | napi_TypeError | napi_RangeError => InvalidArgument
  | std_runtime_error | napi_Error => of_message (what e)
  | std_length_error | faiss_FaissException => BackendError
  end.

(** [r] is a failure of kind [k]. *)
Definition fails {A} (k : kind) (r : outcome A) : Prop :=
  match r with
  | Throw e => of_exn e = k
  | _ => False
  end.

End Taxonomy.

(* ================================================================== *)
(** * Two threads and their mutexes *)

(** The interleavings of threads that each run a fixed sequence of
    events: an [Acquire] can be taken only while the mutex is free, every
    other event is always possible. *)
Module Threads.

Record state : Type := mk {
  owner : gmap Z nat;
  pending : list (list event)
}.

Definition start (scripts : list (list event)) : state := mk ∅ scripts.

(** Whether thread [i] can take its next event. *)
Definition enabled (st : state) (i : nat) : bool :=
  match pending st !! i with
  | Some (Acquire m :: _) =>
      match owner st !! m with None => true | Some _ => false end
  | Some (_ :: _) => true
  | _ => false
  end.

(** Thread [i] takes its next event. *)
Definition step (i : nat) (st : state) : option state :=
  if enabled st i then
    match pending st !! i with
    | Some (Acquire m :: rest) => Some (mk (<[m := i]> (owner st)) (<[i := rest]> (pending st)))
    | Some (Release m :: rest) => Some (mk (delete m (owner st)) (<[i := rest]> (pending st)))
    | Some (_ :: rest) => Some (mk (owner st) (<[i := rest]> (pending st)))
    | _ => None
    end
  else None.

Fixpoint run (schedule : list nat) (st : state) : option state :=
  match schedule with
  | [] => Some st
  | i :: rest =>
      match step i st with
      | Some st' => run rest st'
      | None => None
      end
  end.

Definition finished (st : state) : bool :=
  forallb (fun script => match script with [] => true | _ => false end) (pending st).

(** Some thread still has events to take and none can take its next one. *)
Definition deadlocked (st : state) : bool :=
  negb (finished st) &&
  forallb (fun i => negb (enabled st i)) (seq 0 (length (pending st))).

End Threads.

(* ================================================================== *)
(** * What a call leaves as it found it *)

(** [m] leaves the part [f] of the store as it found it whenever it
    returns or throws; nothing is said of a run that ends in undefined
    behaviour. *)
Definition preserves {Obj A X} (f : World Obj -> X) (m : M Obj A) : Prop :=
  forall s, match m s with
            | (Fault, _) => True
            | (_, s') => f s' = f s
            end.

(** [m] returns or runs into undefined behaviour: no exception leaves it. *)
Definition noexcept {Obj A} (m : M Obj A) : Prop :=
  forall s, match m s with
            | (Throw _, _) => False
            | _ => True
            end.

(** The strong exception guarantee: when [m] throws, the store is as it
    was before the call. *)
Definition strong_guarantee {Obj A} (m : M Obj A) : Prop :=
  forall s, match m s with
            | (Throw _, s') => s' = s
            | _ => True
            end.

(** Every exception that leaves [m] is of a class derived from
    [Napi::Error]. *)
Definition throws_napi_only {Obj A} (m : M Obj A) : Prop :=
  forall s, match m s with
            | (Throw e, _) => is_napi e = true
            | _ => True
            end.




(* ================================================================== *)
(** * Integer conversions *)


Lemma wrap_signed_fits (z : Z) : - 2 ^ 31 <= z < 2 ^ 31 -> wrap_signed 32 z = z.
Proof.
  intros Hz. unfold wrap_signed. change (2 ^ (32 - 1)) with (2 ^ 31).
  rewrite Z.mod_small; lia.
Qed.


Lemma to_int_fits (z : Z) : INT_MIN <= z <= INT_MAX -> to_int z = z.
Proof. unfold INT_MIN, INT_MAX, to_int. intros. apply wrap_signed_fits. lia. Qed.

Lemma to_size_t_fits (z : Z) : 0 <= z < 2 ^ 64 -> to_size_t z = z.
Proof. intros. unfold to_size_t. apply Z.mod_small. lia. Qed.

Lemma to_double_exact (z : Z) : z < 2 ^ 53 -> to_double z = z.
Proof. intros H. unfold to_double. destruct (Z.ltb_spec z (2 ^ 53)); [reflexivity|lia]. Qed.

(* ================================================================== *)
(** * The monad and the mutex *)

Section RuntimeFacts.
Context {Obj : Type}.
Implicit Types (s : World Obj) (p : Z).

Lemma filter_released p (l : list Z) :
  holds p l = false -> List.filter (fun x => negb (x =? p)) (p :: l) = l.
Proof.
  intros H. simpl. rewrite Z.eqb_refl. simpl.
  induction l as [|a l IH]; [reflexivity|].
  simpl in *. apply orb_false_iff in H as [Ha Hl].
  rewrite Z.eqb_sym, Ha. simpl. f_equal. auto.
Qed.

Lemma world_ext s s' :
  heap s = heap s' -> next s = next s' -> held s = held s' ->
  trace s = trace s' -> files s = files s' -> s = s'.
Proof. destruct s, s'. cbn. intros. subst. reflexivity. Qed.

Lemma heap_locked p s : heap (locked p s) = heap s.
Proof. reflexivity. Qed.

Lemma lock_guard_run {A} s p o (body : M Obj A) :
  heap s !! p = Some o -> holds p (held s) = false ->
  lock_guard p body s =
    match body (locked p s) with
    | (Fault, s2) => (Fault, s2)
    | (r, s2) => (r, unlocked p s2)
    end.
Proof. intros Hp Hh. unfold lock_guard, lock. rewrite Hp, Hh. reflexivity. Qed.

Lemma unlocked_logged p s evs :
  holds p (held s) = false ->
  unlocked p (logged evs (locked p s)) = logged (Acquire p :: evs ++ [Release p]) s.
Proof.
  intros Hh. unfold unlocked, unlock, logged, locked. simpl.
  rewrite Z.eqb_refl. simpl.
  pose proof (filter_released p (held s) Hh) as Hf. simpl in Hf.
  rewrite Z.eqb_refl in Hf. simpl in Hf. rewrite Hf.
  f_equal. rewrite <- !app_assoc. reflexivity.
Qed.

Lemma unlocked_locked p s :
  holds p (held s) = false ->
  unlocked p (locked p s) = logged [Acquire p; Release p] s.
Proof.
  intros Hh. pose proof (unlocked_logged p s [] Hh) as H. simpl in H.
  rewrite <- H. f_equal. unfold logged, locked. simpl. rewrite app_nil_r.
  reflexivity.
Qed.

Lemma logged_logged s evs evs' : logged evs' (logged evs s) = logged (evs ++ evs') s.
Proof. unfold logged. simpl. rewrite <- app_assoc. reflexivity. Qed.

Lemma events_of_logged {A} (m : M Obj A) s evs :
  snd (m s) = logged evs s -> events_of m s = evs.
Proof.
  intros H. unfold events_of. rewrite H. simpl.
  rewrite skipn_app, skipn_all, Nat.sub_diag. reflexivity.
Qed.

End RuntimeFacts.

(** Entering a method body under its [lock_guard], with [this] loaded,
    and leaving it. *)
Ltac enter Hp Hh :=
  rewrite (lock_guard_run _ _ _ _ Hp Hh);
  unfold bind at 1, load at 1; rewrite heap_locked, Hp.

Ltac leave Hh :=
  unfold throw, ret; rewrite ?(unlocked_locked _ _ Hh); try reflexivity.

(** Two results are the same: the same outcome, and stores that agree
    field by field once every mutex is released. *)
Ltac same_world Hh :=
  unfold unlocked, unlock, logged, locked, with_heap; cbn;
  rewrite ?Z.eqb_refl, ?Hh; cbn;
  repeat match goal with |- (_, _) = (_, _) => f_equal end;
  try reflexivity;
  try (apply world_ext; cbn; rewrite <- ?app_assoc; reflexivity).

Ltac head_of t :=
  lazymatch t with
  | ?f _ => head_of f
  | _ => t
  end.

(* ================================================================== *)
(** * Facts about the wrapper's methods *)

Section FacadeFacts.
Context {I : Type} {faiss : Faiss.Index I}.
Implicit Types (s : World (FaissIndexWrapper.t I)) (p : Z) (w : FaissIndexWrapper.t I).

Lemma bind_run_ret {A B} (m : M (FaissIndexWrapper.t I) A) (k : A -> M _ B) s a s' :
  m s = (Ret a, s') -> bind m k s = k a s'.
Proof. intros H. unfold bind. rewrite H. reflexivity. Qed.

Lemma bind_run_throw {A B} (m : M (FaissIndexWrapper.t I) A) (k : A -> M _ B) s e s' :
  m s = (Throw e, s') -> bind m k s = (Throw e, s').
Proof. intros H. unfold bind. rewrite H. reflexivity. Qed.

Lemma guarded_run_ret {A} (m : M (FaissIndexWrapper.t I) A) s a s' :
  m s = (Ret a, s') -> Napi.guarded m s = (Ret a, s').
Proof. intros H. unfold Napi.guarded, try_catch. rewrite H. reflexivity. Qed.

Lemma guarded_run_throw {A} (m : M (FaissIndexWrapper.t I) A) s e s' :
  m s = (Throw e, s') -> is_napi e = true -> Napi.guarded m s = (Throw e, s').
Proof.
  intros H Hn. unfold Napi.guarded, try_catch. rewrite H, Hn. reflexivity.
Qed.

Lemma IsDisposed_run s p w :
  heap s !! p = Some w -> holds p (held s) = false ->
  FaissIndexWrapper.IsDisposed p s
  = (Ret (FaissIndexWrapper.disposed_ w), logged [Acquire p; Release p] s).
Proof. intros Hp Hh. unfold FaissIndexWrapper.IsDisposed. enter Hp Hh. leave Hh. Qed.

Lemma holds_nil p : holds p [] = false.
Proof. reflexivity. Qed.

Lemma quiet s p : held s = [] -> holds p (held s) = false.
Proof. intros ->. reflexivity. Qed.

(** On a disposed wrapper, every method of the facade that checks the
    flag throws the same [std::runtime_error] and changes nothing. *)
Lemma disposed_methods s p w :
  heap s !! p = Some w -> holds p (held s) = false ->
  FaissIndexWrapper.disposed_ w = true ->
  let failed {A} : outcome A * World _ :=
    (Throw FaissIndexWrapper.disposed_error, logged [Acquire p; Release p] s) in
  (forall v n, FaissIndexWrapper.Add p v n s = failed) /\
  (forall v n, FaissIndexWrapper.Train p v n s = failed) /\
  (forall q k ds ls, FaissIndexWrapper.Search p q k ds ls s = failed) /\
  (forall q nq k ds ls, FaissIndexWrapper.SearchBatch p q nq k ds ls s = failed) /\
  (forall q r, FaissIndexWrapper.RangeSearch p q r s = failed) /\
  (forall f, FaissIndexWrapper.Save p f s = failed) /\
  FaissIndexWrapper.ToBuffer p s = failed /\
  FaissIndexWrapper.Reset p s = failed /\
  (forall n, FaissIndexWrapper.SetNprobe p n s = failed).
Proof.
  intros Hp Hh Hd failed. subst failed.
  repeat split; intros;
    match goal with
    | |- ?f = _ => let h := head_of f in unfold h
    end; enter Hp Hh; rewrite Hd; leave Hh.
Qed.

Lemma Dispose_run s p w :
  heap s !! p = Some w -> holds p (held s) = false ->
  FaissIndexWrapper.Dispose p s
  = (Ret tt,
     logged [Acquire p; Release p]
       (if FaissIndexWrapper.disposed_ w then s
        else with_heap (<[p := FaissIndexWrapper.mk None (FaissIndexWrapper.dims_ w) true]>
                          (heap s)) s)).
Proof.
  intros Hp Hh. unfold FaissIndexWrapper.Dispose. enter Hp Hh.
  destruct (FaissIndexWrapper.disposed_ w); [leave Hh|].
  unfold store. rewrite heap_locked, Hp.
  f_equal. unfold unlocked, unlock, logged, with_heap, locked. cbn.
  rewrite Z.eqb_refl. cbn.
  pose proof (filter_released p (held s) Hh) as Hf. cbn in Hf.
  rewrite Z.eqb_refl in Hf. cbn in Hf. rewrite Hf.
  rewrite <- app_assoc. reflexivity.
Qed.

End FacadeFacts.

(* ================================================================== *)
(** * Disposal *)

Section Disposal.
Context {I : Type} {faiss : Faiss.Index I}.
Implicit Types (s : World (FaissIndexWrapper.t I)) (p : Z) (w : FaissIndexWrapper.t I).

Lemma ValidateNotDisposed_run s p dims w :
  heap s !! p = Some w -> holds p (held s) = false ->
  FaissIndexWrapperJS.ValidateNotDisposed (FaissIndexWrapperJS.mk (Some p) dims) s
  = (if FaissIndexWrapper.disposed_ w
     then Throw (Exn napi_Error "Index has been disposed") else Ret tt,
     logged [Acquire p; Release p] s).
Proof.
  intros Hp Hh. unfold FaissIndexWrapperJS.ValidateNotDisposed. cbn.
  rewrite (bind_run_ret _ _ _ _ _ (IsDisposed_run s p w Hp Hh)).
  destruct (FaissIndexWrapper.disposed_ w); reflexivity.
Qed.

(** A method that starts with [ValidateNotDisposed] throws its error on a
    disposed handle, whatever follows the check. *)
Lemma validated_throws {A} s p dims w (rest : M (FaissIndexWrapper.t I) A) :
  heap s !! p = Some w -> holds p (held s) = false ->
  FaissIndexWrapper.disposed_ w = true ->
  Napi.guarded
    (FaissIndexWrapperJS.ValidateNotDisposed (FaissIndexWrapperJS.mk (Some p) dims) >>> rest) s
  = (Throw (Exn napi_Error "Index has been disposed"), logged [Acquire p; Release p] s).
Proof.
  intros Hp Hh Hd. apply guarded_run_throw; [|reflexivity].
  apply bind_run_throw. rewrite (ValidateNotDisposed_run s p dims w Hp Hh), Hd.
  reflexivity.
Qed.

Lemma js_Dispose_run s p dims w info :
  heap s !! p = Some w -> holds p (held s) = false ->
  FaissIndexWrapperJS.Dispose (FaissIndexWrapperJS.mk (Some p) dims) info s
  = (Ret FaissIndexWrapperJS.Undefined,
     if FaissIndexWrapper.disposed_ w then logged [Acquire p; Release p] s
     else logged [Acquire p; Release p; Acquire p; Release p]
            (with_heap (<[p := FaissIndexWrapper.mk None (FaissIndexWrapper.dims_ w) true]>
                          (heap s)) s)).
Proof.
  intros Hp Hh. unfold FaissIndexWrapperJS.Dispose. cbn.
  rewrite (bind_run_ret _ _ _ _ _ (IsDisposed_run s p w Hp Hh)). cbv beta.
  destruct (FaissIndexWrapper.disposed_ w) eqn:Hd; [reflexivity|].
  assert (Hp' : heap (logged [Acquire p; Release p] s) !! p = Some w) by exact Hp.
  assert (Hh' : holds p (held (logged [Acquire p; Release p] s)) = false) by exact Hh.
  rewrite (bind_run_ret _ _ _ _ _ (Dispose_run _ p w Hp' Hh')), Hd.
  unfold ret. f_equal. unfold logged, with_heap. cbn.
  rewrite <- app_assoc. reflexivity.
Qed.

Lemma call_on_disposed s p dims w m info :
  heap s !! p = Some w -> held s = [] -> FaissIndexWrapper.disposed_ w = true ->
  FaissIndexWrapperJS.call m (FaissIndexWrapperJS.mk (Some p) dims) info s
  = (match m with
     | FaissIndexWrapperJS.dispose => Ret FaissIndexWrapperJS.Undefined
     | _ => Throw (Exn napi_Error "Index has been disposed")
     end, logged [Acquire p; Release p] s).
Proof.
  intros Hp Hh Hd. pose proof (quiet s p Hh) as Hq.
  destruct m; cbn [FaissIndexWrapperJS.call];
    try (match goal with
         | |- ?f = _ => let h := head_of f in unfold h
         end; apply (validated_throws s p dims w _ Hp Hq Hd)).
  rewrite (js_Dispose_run s p dims w info Hp Hq), Hd. reflexivity.
Qed.

Lemma call_all_on_disposed s p dims w calls :
  heap s !! p = Some w -> held s = [] -> FaissIndexWrapper.disposed_ w = true ->
  fst (FaissIndexWrapperJS.call_all (FaissIndexWrapperJS.mk (Some p) dims) calls s)
  = map (fun c => match fst c with
                  | FaissIndexWrapperJS.dispose => Ret FaissIndexWrapperJS.Undefined
                  | _ => Throw (Exn napi_Error "Index has been disposed")
                  end) calls /\
  heap (snd (FaissIndexWrapperJS.call_all (FaissIndexWrapperJS.mk (Some p) dims) calls s))
  = heap s.
Proof.
  revert s. induction calls as [|[m info] calls IH]; intros s Hp Hh Hd.
  - split; reflexivity.
  - cbn [FaissIndexWrapperJS.call_all map fst].
    rewrite (call_on_disposed s p dims w m info Hp Hh Hd).
    specialize (IH (logged [Acquire p; Release p] s) Hp Hh Hd).
    destruct (FaissIndexWrapperJS.call_all _ calls (logged _ s)) as [rs s''].
    cbn [fst snd] in *. destruct IH as [-> ->]. split; reflexivity.
Qed.

(** C2 (disposal is final).  Once [dispose()] has been called on a handle,
    whatever calls follow on that handle, in any number and order and with
    any arguments: each call of [add], [train], [search], [searchBatch],
    [rangeSearch], [save], [toBuffer], [mergeFrom], [reset], [setNprobe]
    or [getStats] throws the error "Index has been disposed" (kind
    [Disposed]), each further [dispose()] returns [undefined], and none of
    them changes any object.  The wrapper is marked disposed, and its
    index is released if it was live. *)
Theorem dispose_is_final s p dims w info calls :
  heap s !! p = Some w -> held s = [] ->
  let this := FaissIndexWrapperJS.mk (Some p) dims in
  let first := FaissIndexWrapperJS.call FaissIndexWrapperJS.dispose this info s in
  let later := FaissIndexWrapperJS.call_all this calls (snd first) in
  fst first = Ret FaissIndexWrapperJS.Undefined /\
  (exists w', heap (snd first) !! p = Some w' /\
              FaissIndexWrapper.disposed_ w' = true /\
              (FaissIndexWrapper.disposed_ w = false -> FaissIndexWrapper.index_ w' = None)) /\
  fst later
  = map (fun c => match fst c with
                  | FaissIndexWrapperJS.dispose => Ret FaissIndexWrapperJS.Undefined
                  | _ => Throw (Exn napi_Error "Index has been disposed")
                  end) calls /\
  Taxonomy.of_exn (Exn napi_Error "Index has been disposed") = Taxonomy.Disposed /\
  heap (snd later) = heap (snd first).
Proof.
  intros Hp Hh this first later. subst this first later.
  cbn [FaissIndexWrapperJS.call].
  rewrite (js_Dispose_run s p dims w info Hp (quiet s p Hh)). cbn [fst snd].
  split; [reflexivity|].
  destruct (FaissIndexWrapper.disposed_ w) eqn:Hd.
  - split; [exists w; repeat split; [exact Hp|exact Hd|discriminate]|].
    pose proof (call_all_on_disposed (logged [Acquire p; Release p] s) p dims w calls
                  Hp Hh Hd) as [H1 H2].
    repeat split; assumption.
  - set (w' := FaissIndexWrapper.mk None (FaissIndexWrapper.dims_ w) true).
    set (s1 := logged _ _).
    assert (Hp1 : heap s1 !! p = Some w') by (subst s1; cbn; apply lookup_insert_eq).
    split; [exists w'; repeat split; exact Hp1|].
    pose proof (call_all_on_disposed s1 p dims w' calls Hp1 Hh eq_refl) as [H1 H2].
    repeat split; assumption.
Qed.

End Disposal.

(* ================================================================== *)
(** * Validation *)

Section Validation.
Context {I : Type} {faiss : Faiss.Index I}.
Implicit Types (s : World (FaissIndexWrapper.t I)) (p : Z) (w : FaissIndexWrapper.t I).

Lemma validated_continues {A} s p dims w (rest : M (FaissIndexWrapper.t I) A) :
  heap s !! p = Some w -> holds p (held s) = false ->
  FaissIndexWrapper.disposed_ w = false ->
  (FaissIndexWrapperJS.ValidateNotDisposed (FaissIndexWrapperJS.mk (Some p) dims) >>> rest) s
  = rest (logged [Acquire p; Release p] s).
Proof.
  intros Hp Hh Hd.
  pose proof (ValidateNotDisposed_run s p dims w Hp Hh) as Hv. rewrite Hd in Hv.
  rewrite (bind_run_ret _ _ _ _ _ Hv). reflexivity.
Qed.

(** C7 (empty-index guard).  On a live handle whose index holds no vector,
    [Search] with a non-null query, non-null output arrays and [k > 0], and
    [RangeSearch] with a non-null query and a radius that is not below
    zero, throw "Cannot search empty index" (kind [EmptyIndex]); the
    promises of [search()] and [rangeSearch()] are rejected with the same
    message.  No object changes. *)
Theorem empty_index_is_refused s p i dims :
  heap s !! p = Some (FaissIndexWrapper.mk (Some i) dims false) -> held s = [] ->
  Faiss.ntotal i = 0 ->
  let refused := Exn std_runtime_error "Cannot search empty index" in
  (forall q k ds ls, 0 < k ->
     FaissIndexWrapper.Search p (Some q) k (Some ds) (Some ls) s
     = (Throw refused, logged [Acquire p; Backend p "ntotal"; Release p] s)) /\
  (forall q radius, f32_lt0 radius = false ->
     FaissIndexWrapper.RangeSearch p (Some q) radius s
     = (Throw refused, logged [Acquire p; Backend p "ntotal"; Release p] s)) /\
  (forall q k,
     AsyncWorker.run (AsyncWorker.Search (SearchWorker.mk p q k)) s
     = (Ret (AsyncWorker.Reject "Cannot search empty index"),
        logged [Acquire p; Release p; Acquire p; Backend p "ntotal"; Release p] s)) /\
  (forall q radius,
     AsyncWorker.run (AsyncWorker.RangeSearch (RangeSearchWorker.mk p q radius)) s
     = (Ret (AsyncWorker.Reject "Cannot search empty index"),
        logged [Acquire p; Release p; Acquire p; Backend p "ntotal"; Release p] s)) /\
  Taxonomy.of_exn refused = Taxonomy.EmptyIndex /\
  Taxonomy.of_message "Cannot search empty index" = Taxonomy.EmptyIndex.
Proof.
  intros Hp Hh Hn refused. subst refused. pose proof (quiet s p Hh) as Hq.
  assert (Hsearch : forall q k ds ls, 0 < k ->
     FaissIndexWrapper.Search p (Some q) k (Some ds) (Some ls) s
     = (Throw (Exn std_runtime_error "Cannot search empty index"),
        logged [Acquire p; Backend p "ntotal"; Release p] s)).
  { intros q k ds ls Hk. unfold FaissIndexWrapper.Search. enter Hp Hq. cbn.
    destruct (Z.leb_spec k 0) as [?|_]; [lia|].
    unfold bind, emit, throw. cbn. rewrite Hn. cbn.
    f_equal. apply (unlocked_logged p s [Backend p "ntotal"] Hq). }
  assert (Htotal :
     FaissIndexWrapper.GetTotalVectors p (logged [Acquire p; Release p] s)
     = (Ret 0, logged [Acquire p; Release p; Acquire p; Backend p "ntotal"; Release p] s)).
  { unfold FaissIndexWrapper.GetTotalVectors.
    assert (Hp' : heap (logged [Acquire p; Release p] s) !! p
                  = Some (FaissIndexWrapper.mk (Some i) dims false)) by exact Hp.
    assert (Hq' : holds p (held (logged [Acquire p; Release p] s)) = false) by exact Hq.
    enter Hp' Hq'. cbn. unfold bind, emit, ret. cbn. rewrite Hn.
    same_world Hh. }
  repeat split.
  - exact Hsearch.
  - intros q radius Hr. unfold FaissIndexWrapper.RangeSearch. enter Hp Hq. cbn.
    rewrite Hr. unfold bind, emit, throw. cbn. rewrite Hn. cbn.
    f_equal. apply (unlocked_logged p s [Backend p "ntotal"] Hq).
  - intros q k. cbn [AsyncWorker.run]. unfold bind at 1.
    unfold SearchWorker.Execute, try_catch. cbn [SearchWorker.wrapper_].
    rewrite (bind_run_ret _ _ _ _ _ (IsDisposed_run s p _ Hp Hq)).
    cbn [FaissIndexWrapper.disposed_].
    rewrite (bind_run_ret _ _ _ _ _ Htotal). reflexivity.
  - intros q radius. cbn [AsyncWorker.run]. unfold bind at 1.
    unfold RangeSearchWorker.Execute, try_catch. cbn [RangeSearchWorker.wrapper_].
    rewrite (bind_run_ret _ _ _ _ _ (IsDisposed_run s p _ Hp Hq)).
    cbn [FaissIndexWrapper.disposed_].
    rewrite (bind_run_ret _ _ _ _ _ Htotal). reflexivity.
Qed.

End Validation.

Section DimensionGate.
Context {I : Type} {faiss : Faiss.Index I}.
Implicit Types (s : World (FaissIndexWrapper.t I)) (p : Z) (w : FaissIndexWrapper.t I).

Lemma Length_cons (v : Napi.Value) (info : list Napi.Value) :
  Napi.Length (v :: info) = Napi.Length info + 1.
Proof. unfold Napi.Length. cbn [length]. lia. Qed.

Lemma Length_nonneg (info : list Napi.Value) : 0 <= Napi.Length info.
Proof. unfold Napi.Length. lia. Qed.

(** C5, as the code has it.  On a live handle of dimension [dims], [add]
    and [train] with a [Float32Array] whose length is not a multiple of
    [dims], and [search] with a query whose length fits an [int] and is not
    [dims], throw a [RangeError] (kind [InvalidArgument]) from the call
    itself: no worker is queued and the index is not touched.  The only
    events are those of the disposed check before the validation, which
    acquires and releases the handle's mutex; no object changes. *)
Theorem dimension_gate s p w dims elements rest :
  heap s !! p = Some w -> held s = [] -> FaissIndexWrapper.disposed_ w = false ->
  0 < dims <= INT_MAX ->
  let this := FaissIndexWrapperJS.mk (Some p) dims in
  let len := Z.of_nat (length elements) in
  let unchanged := logged [Acquire p; Release p] s in
  (len mod dims <> 0 ->
     let e := Exn napi_RangeError
                (FaissIndexWrapperJS.not_multiple
                   "Vector length must be a multiple of dimensions. " len dims) in
     FaissIndexWrapperJS.Add this (Napi.Float32Array elements :: rest) s
     = (Throw e, unchanged) /\
     FaissIndexWrapperJS.Train this (Napi.Float32Array elements :: rest) s
     = (Throw e, unchanged) /\
     Taxonomy.of_exn e = Taxonomy.InvalidArgument) /\
  (len <> dims -> len <= INT_MAX -> forall k f,
     let e := Exn napi_RangeError (FaissIndexWrapperJS.not_match len dims) in
     FaissIndexWrapperJS.Search this (Napi.Float32Array elements :: Napi.Number k f :: rest) s
     = (Throw e, unchanged) /\
     Taxonomy.of_exn e = Taxonomy.InvalidArgument).
Proof.
  intros Hp Hh Hd Hdims this len unchanged. subst this unchanged.
  pose proof (quiet s p Hh) as Hq.
  assert (Hsz : to_size_t dims = dims).
  { apply to_size_t_fits. unfold INT_MAX in Hdims. lia. }
  split.
  - intros Hmod e. subst e. split; [|split; [|reflexivity]].
    + unfold FaissIndexWrapperJS.Add. apply guarded_run_throw; [|reflexivity].
      rewrite (validated_continues s p dims w _ Hp Hq Hd).
      rewrite Length_cons.
      destruct (Z.ltb_spec (Napi.Length rest + 1) 1) as [Hl|_];
        [pose proof (Length_nonneg rest); lia|].
      cbn [Napi.arg nth FaissIndexWrapperJS.dims_]. rewrite Hsz.
      destruct (Z.eqb_spec dims 0) as [?|_]; [lia|].
      fold len. destruct (Z.eqb_spec (len mod dims) 0) as [?|_]; [contradiction|].
      reflexivity.
    + unfold FaissIndexWrapperJS.Train. apply guarded_run_throw; [|reflexivity].
      rewrite (validated_continues s p dims w _ Hp Hq Hd).
      rewrite Length_cons.
      destruct (Z.ltb_spec (Napi.Length rest + 1) 1) as [Hl|_];
        [pose proof (Length_nonneg rest); lia|].
      cbn [Napi.arg nth FaissIndexWrapperJS.dims_]. rewrite Hsz.
      destruct (Z.eqb_spec dims 0) as [?|_]; [lia|].
      fold len. destruct (Z.eqb_spec (len mod dims) 0) as [?|_]; [contradiction|].
      reflexivity.
  - intros Hne Hfit k f e. subst e. split; [|reflexivity].
    unfold FaissIndexWrapperJS.Search. apply guarded_run_throw; [|reflexivity].
    rewrite (validated_continues s p dims w _ Hp Hq Hd).
    rewrite !Length_cons.
    destruct (Z.ltb_spec (Napi.Length rest + 1 + 1) 2) as [Hl|_];
      [pose proof (Length_nonneg rest); lia|].
    cbn [Napi.arg nth Napi.IsTypedArray negb FaissIndexWrapperJS.dims_].
    fold len. rewrite (to_int_fits len) by (unfold INT_MIN; subst len; lia).
    destruct (Z.eqb_spec len dims) as [?|_]; [contradiction|].
    reflexivity.
Qed.

End DimensionGate.

(* ================================================================== *)
(** * Adding or training with no vector *)

Section Nothing.
Context {I : Type} {faiss : Faiss.Index I}.
Implicit Types (s : World (FaissIndexWrapper.t I)) (p : Z) (w : FaissIndexWrapper.t I).

(** C6, where the code departs from it.  [add(new Float32Array(0))] on a
    live handle is accepted by the bound method, which queues a worker for
    [n = 0] vectors; the worker's copy of no elements is a vector that
    never allocated, its [data()] is null, and [Add] tests the pointer
    before it tests [n]: the promise is rejected with "FAISS error:
    Vectors pointer cannot be null", for every index and every library.
    [train(new Float32Array(0))] is rejected in the same way.  The
    no-op that [Add] has for [n == 0] is behind the null test: it is
    reached only with a pointer that is not null, which no caller in the
    bindings passes together with [n == 0]. *)
Theorem add_of_nothing_is_rejected s p w dims rest :
  heap s !! p = Some w -> held s = [] -> FaissIndexWrapper.disposed_ w = false ->
  0 < dims <= INT_MAX ->
  let this := FaissIndexWrapperJS.mk (Some p) dims in
  let s1 := logged [Acquire p; Release p] s in
  let s3 := logged [Acquire p; Release p; Acquire p; Release p] s1 in
  let rejected := AsyncWorker.Reject "FAISS error: Vectors pointer cannot be null" in
  FaissIndexWrapperJS.Add this (Napi.Float32Array [] :: rest) s
  = (Ret (FaissIndexWrapperJS.Promise (AsyncWorker.Add (AddWorker.mk p [] 0))), s1) /\
  AsyncWorker.run (AsyncWorker.Add (AddWorker.mk p [] 0)) s1 = (Ret rejected, s3) /\
  FaissIndexWrapperJS.Train this (Napi.Float32Array [] :: rest) s
  = (Ret (FaissIndexWrapperJS.Promise (AsyncWorker.Train (TrainWorker.mk p [] 0))), s1) /\
  AsyncWorker.run (AsyncWorker.Train (TrainWorker.mk p [] 0)) s1 = (Ret rejected, s3) /\
  (forall n, FaissIndexWrapper.Add p None n s
             = (Throw (Exn std_invalid_argument "Vectors pointer cannot be null"), s1)) /\
  (forall x, FaissIndexWrapper.Add p (Some x) 0 s = (Ret tt, s1)) /\
  (forall vectors, exists e,
     FaissIndexWrapper.Train p vectors 0 s = (Throw e, s1) /\
     cls e = std_invalid_argument /\ Taxonomy.of_exn e = Taxonomy.InvalidArgument).
Proof.
  intros Hp Hh Hd Hdims this s1 s3 rejected. subst this rejected.
  pose proof (quiet s p Hh) as Hq.
  assert (Hsz : to_size_t dims = dims).
  { apply to_size_t_fits. unfold INT_MAX in Hdims. lia. }
  assert (Hp1 : heap s1 !! p = Some w) by exact Hp.
  assert (Hq1 : holds p (held s1) = false) by exact Hq.
  set (s2 := logged [Acquire p; Release p] s1).
  assert (Hp2 : heap s2 !! p = Some w) by exact Hp.
  assert (Hq2 : holds p (held s2) = false) by exact Hq.
  assert (H3 : logged [Acquire p; Release p] s2 = s3).
  { subst s2 s3. rewrite logged_logged. reflexivity. }
  assert (Hnull : forall s0 n, heap s0 !! p = Some w -> holds p (held s0) = false ->
            FaissIndexWrapper.Add p None n s0
            = (Throw (Exn std_invalid_argument "Vectors pointer cannot be null"),
               logged [Acquire p; Release p] s0)).
  { intros s0 n Hp0 Hq0. unfold FaissIndexWrapper.Add. enter Hp0 Hq0. rewrite Hd.
    leave Hq0. }
  assert (Hnull' : forall s0 n, heap s0 !! p = Some w -> holds p (held s0) = false ->
            FaissIndexWrapper.Train p None n s0
            = (Throw (Exn std_invalid_argument "Vectors pointer cannot be null"),
               logged [Acquire p; Release p] s0)).
  { intros s0 n Hp0 Hq0. unfold FaissIndexWrapper.Train. enter Hp0 Hq0. rewrite Hd.
    leave Hq0. }
  assert (Hlen : (Napi.Length (Napi.Float32Array [] :: rest) <? 1) = false).
  { rewrite Length_cons.
    destruct (Z.ltb_spec (Napi.Length rest + 1) 1) as [Hl|_];
      [pose proof (Length_nonneg rest); lia|reflexivity]. }
  assert (Hz : (dims =? 0) = false) by (apply Z.eqb_neq; lia).
  assert (Hm : (0 mod dims =? 0) = true) by (rewrite Z.mod_0_l by lia; reflexivity).
  assert (Hn : 0 / dims = 0) by (apply Z.div_0_l; lia).
  split; [|split; [|split; [|split; [|split; [|split]]]]].
  - unfold FaissIndexWrapperJS.Add. apply guarded_run_ret.
    rewrite (validated_continues s p dims w _ Hp Hq Hd). fold s1. rewrite Hlen.
    cbn [Napi.arg nth FaissIndexWrapperJS.dims_ length].
    change (Z.of_nat 0) with 0. rewrite Hsz, Hz, Hm, Hn. cbn [negb].
    unfold FaissIndexWrapperJS.get. cbn [FaissIndexWrapperJS.wrapper_].
    unfold bind, ret, AddWorker.new. rewrite firstn_nil. reflexivity.
  - cbn [AsyncWorker.run]. unfold bind at 1. unfold AddWorker.Execute, try_catch.
    cbn [AddWorker.wrapper_ AddWorker.vectors_ AddWorker.n_ vector_data].
    rewrite (bind_run_ret _ _ _ _ _ (IsDisposed_run s1 p w Hp1 Hq1)), Hd. fold s2.
    unfold bind at 1. rewrite (Hnull s2 0 Hp2 Hq2), H3. reflexivity.
  - unfold FaissIndexWrapperJS.Train. apply guarded_run_ret.
    rewrite (validated_continues s p dims w _ Hp Hq Hd). fold s1. rewrite Hlen.
    cbn [Napi.arg nth FaissIndexWrapperJS.dims_ length].
    change (Z.of_nat 0) with 0. rewrite Hsz, Hz, Hm, Hn. cbn [negb].
    unfold FaissIndexWrapperJS.get. cbn [FaissIndexWrapperJS.wrapper_].
    unfold bind, ret, TrainWorker.new. rewrite firstn_nil. reflexivity.
  - cbn [AsyncWorker.run]. unfold bind at 1. unfold TrainWorker.Execute, try_catch.
    cbn [TrainWorker.wrapper_ TrainWorker.vectors_ TrainWorker.n_ vector_data].
    rewrite (bind_run_ret _ _ _ _ _ (IsDisposed_run s1 p w Hp1 Hq1)), Hd. fold s2.
    unfold bind at 1. rewrite (Hnull' s2 0 Hp2 Hq2), H3. reflexivity.
  - intros n. exact (Hnull s n Hp Hq).
  - intros x. unfold FaissIndexWrapper.Add. enter Hp Hq. rewrite Hd. cbn. leave Hq.
  - intros [x|].
    + exists (Exn std_invalid_argument "Number of training vectors must be positive").
      split; [|split; reflexivity].
      unfold FaissIndexWrapper.Train. enter Hp Hq. rewrite Hd. cbn. leave Hq.
    + exists (Exn std_invalid_argument "Vectors pointer cannot be null").
      split; [|split; reflexivity]. exact (Hnull' s 0 Hp Hq).
Qed.

End Nothing.

(* ================================================================== *)
(** * Statistics *)

Section Statistics.
Context {I : Type} {faiss : Faiss.Index I}.
Implicit Types (s : World (FaissIndexWrapper.t I)) (p : Z) (w : FaissIndexWrapper.t I).

Lemma GetTotalVectors_run s p i wdims :
  heap s !! p = Some (FaissIndexWrapper.mk (Some i) wdims false) -> held s = [] ->
  FaissIndexWrapper.GetTotalVectors p s
  = (Ret (to_size_t (Faiss.ntotal i)),
     logged [Acquire p; Backend p "ntotal"; Release p] s).
Proof.
  intros Hp Hh. pose proof (quiet s p Hh) as Hq.
  unfold FaissIndexWrapper.GetTotalVectors. enter Hp Hq. cbn.
  unfold bind, emit, ret. same_world Hh.
Qed.

Lemma IsTrained_run s p i wdims :
  heap s !! p = Some (FaissIndexWrapper.mk (Some i) wdims false) -> held s = [] ->
  FaissIndexWrapper.IsTrained p s
  = (Ret (Faiss.is_trained i),
     logged [Acquire p; Backend p "is_trained"; Release p] s).
Proof.
  intros Hp Hh. pose proof (quiet s p Hh) as Hq.
  unfold FaissIndexWrapper.IsTrained. enter Hp Hq. cbn.
  unfold bind, emit, ret. same_world Hh.
Qed.

Lemma GetDimensions_run s p w :
  heap s !! p = Some w ->
  FaissIndexWrapper.GetDimensions p s = (Ret (FaissIndexWrapper.dims_ w), s).
Proof.
  intros Hp. unfold FaissIndexWrapper.GetDimensions, bind, load. rewrite Hp.
  reflexivity.
Qed.

(** C10 (the reported type).  On every live handle, whatever the index
    behind it (of any kind the library can build or read back) and
    whatever its contents, [getStats()] returns an object whose [type] is
    the string "FLAT_L2", next to the [ntotal] (as the nearest [double]),
    [dims] and [isTrained] of the wrapper. *)
Theorem getStats_type_is_FLAT_L2 s p i wdims dims info :
  heap s !! p = Some (FaissIndexWrapper.mk (Some i) wdims false) -> held s = [] ->
  FaissIndexWrapperJS.GetStats (FaissIndexWrapperJS.mk (Some p) dims) info s
  = (Ret (FaissIndexWrapperJS.Stats (to_double (to_size_t (Faiss.ntotal i))) wdims
            (Faiss.is_trained i) "FLAT_L2"),
     logged [Acquire p; Release p;
             Acquire p; Backend p "ntotal"; Release p;
             Acquire p; Backend p "is_trained"; Release p] s).
Proof.
  intros Hp Hh. pose proof (quiet s p Hh) as Hq.
  unfold FaissIndexWrapperJS.GetStats. apply guarded_run_ret.
  rewrite (validated_continues s p dims _ _ Hp Hq eq_refl).
  unfold FaissIndexWrapperJS.get. cbn [FaissIndexWrapperJS.wrapper_].
  unfold bind at 1. unfold ret at 1.
  set (s1 := logged [Acquire p; Release p] s).
  assert (Hp1 : heap s1 !! p = Some (FaissIndexWrapper.mk (Some i) wdims false)) by exact Hp.
  assert (Hh1 : held s1 = []) by exact Hh.
  rewrite (bind_run_ret _ _ _ _ _ (GetTotalVectors_run s1 p i wdims Hp1 Hh1)).
  set (s2 := logged _ s1).
  assert (Hp2 : heap s2 !! p = Some (FaissIndexWrapper.mk (Some i) wdims false)) by exact Hp.
  assert (Hh2 : held s2 = []) by exact Hh.
  rewrite (bind_run_ret _ _ _ _ _ (GetDimensions_run s2 p _ Hp2)).
  rewrite (bind_run_ret _ _ _ _ _ (IsTrained_run s2 p i wdims Hp2 Hh2)).
  unfold ret. cbn [FaissIndexWrapper.dims_]. f_equal.
  subst s2 s1. rewrite !logged_logged. reflexivity.
Qed.

End Statistics.

(* ================================================================== *)
(** * Searching *)

Lemma blit_length {A} (src dst : list A) : length (blit src dst) = length dst.
Proof.
  unfold blit. rewrite length_firstn, length_app, length_skipn. lia.
Qed.

Lemma clamp_k_idempotent (k ntotal : Z) :
  FaissIndexWrapper.clamp_k (FaissIndexWrapper.clamp_k k ntotal) ntotal
  = FaissIndexWrapper.clamp_k k ntotal.
Proof.
  unfold FaissIndexWrapper.clamp_k.
  destruct (Z.ltb_spec (to_int ntotal) k) as [H|H].
  - rewrite Z.ltb_irrefl. reflexivity.
  - destruct (Z.ltb_spec (to_int ntotal) k); [lia|reflexivity].
Qed.

(** Within the range of [int], the clamp is the minimum. *)
Lemma clamp_k_min (k ntotal : Z) :
  0 <= ntotal <= INT_MAX -> FaissIndexWrapper.clamp_k k ntotal = Z.min k ntotal.
Proof.
  intros H. unfold FaissIndexWrapper.clamp_k.
  rewrite to_int_fits by (unfold INT_MIN, INT_MAX in *; lia).
  destruct (Z.ltb_spec ntotal k); lia.
Qed.

Lemma vector_data_repeat {A} (x : A) (n : nat) :
  (0 < n)%nat -> vector_data (repeat x n) = Some (repeat x n).
Proof. destruct n; [lia|reflexivity]. Qed.

Lemma max_size_float : max_size sizeof_float = 2 ^ 61 - 1.
Proof. reflexivity. Qed.

Lemma max_size_int64_t : max_size sizeof_int64_t = 2 ^ 60 - 1.
Proof. reflexivity. Qed.

Lemma resize_run {Obj A} (sizeof : Z) (zero : A) (n : Z) (s : World Obj) :
  n <= max_size sizeof ->
  resize sizeof zero n s = (Ret (repeat zero (Z.to_nat n)), s).
Proof.
  intros H. unfold resize. destruct (Z.ltb_spec (max_size sizeof) n); [lia|reflexivity].
Qed.

Lemma resize_throws {Obj A} (sizeof : Z) (zero : A) (n : Z) (s : World Obj) :
  max_size sizeof < n ->
  resize sizeof zero n s = (Throw (Exn std_length_error "vector::_M_default_append"), s).
Proof.
  intros H. unfold resize. destruct (Z.ltb_spec (max_size sizeof) n); [reflexivity|lia].
Qed.

Section Searching.
Context {I : Type} {faiss : Faiss.Index I}.
Implicit Types (s : World (FaissIndexWrapper.t I)) (p : Z) (w : FaissIndexWrapper.t I).

Lemma Search_run s p i wdims q k ds ls rd rl :
  heap s !! p = Some (FaissIndexWrapper.mk (Some i) wdims false) -> held s = [] ->
  0 < k -> to_size_t (Faiss.ntotal i) <> 0 ->
  Faiss.search 1 q (FaissIndexWrapper.clamp_k k (to_size_t (Faiss.ntotal i))) i
  = inr (rd, rl) ->
  FaissIndexWrapper.Search p (Some q) k (Some ds) (Some ls) s
  = (Ret (blit rd ds, blit rl ls),
     logged [Acquire p; Backend p "ntotal"; Backend p "search"; Release p] s).
Proof.
  intros Hp Hh Hk Hn Hs. pose proof (quiet s p Hh) as Hq.
  unfold FaissIndexWrapper.Search. enter Hp Hq. cbn.
  destruct (Z.leb_spec k 0) as [?|_]; [lia|].
  unfold bind, emit. cbn.
  destruct (Z.eqb_spec (to_size_t (Faiss.ntotal i)) 0) as [?|_]; [contradiction|].
  rewrite Hs. unfold ret. same_world Hh.
Qed.

(** What [SearchWorker::Execute] leaves in [distances_] and [labels_] when
    the clamped [k] is positive and the library's search returns: both
    have exactly the clamped size. *)
Lemma SearchWorker_Execute_run s p i wdims q k rd rl :
  heap s !! p = Some (FaissIndexWrapper.mk (Some i) wdims false) -> held s = [] ->
  let ntotal := to_size_t (Faiss.ntotal i) in
  let actual_k := FaissIndexWrapper.clamp_k k ntotal in
  ntotal <> 0 -> 0 < actual_k <= INT_MAX -> q <> [] ->
  Faiss.search 1 q actual_k i = inr (rd, rl) ->
  SearchWorker.Execute (SearchWorker.mk p q k) s
  = (Ret (inr (blit rd (repeat 0 (Z.to_nat actual_k)),
               blit rl (repeat 0 (Z.to_nat actual_k)))),
     logged [Acquire p; Release p;
             Acquire p; Backend p "ntotal"; Release p;
             Acquire p; Backend p "ntotal"; Backend p "search"; Release p] s).
Proof.
  intros Hp Hh ntotal actual_k Hn Hk Hq0 Hs. pose proof (quiet s p Hh) as Hq.
  unfold SearchWorker.Execute, try_catch. cbn [SearchWorker.wrapper_ SearchWorker.k_ SearchWorker.query_].
  rewrite (bind_run_ret _ _ _ _ _ (IsDisposed_run s p _ Hp Hq)).
  cbn [FaissIndexWrapper.disposed_].
  set (s1 := logged [Acquire p; Release p] s).
  assert (Hp1 : heap s1 !! p = Some (FaissIndexWrapper.mk (Some i) wdims false)) by exact Hp.
  assert (Hh1 : held s1 = []) by exact Hh.
  rewrite (bind_run_ret _ _ _ _ _ (GetTotalVectors_run s1 p i wdims Hp1 Hh1)).
  fold ntotal. destruct (Z.eqb_spec ntotal 0) as [?|_]; [contradiction|].
  fold actual_k.
  assert (Hsz : to_size_t actual_k = actual_k).
  { apply to_size_t_fits. unfold INT_MAX in Hk. lia. }
  rewrite Hsz.
  assert (Hmax4 : actual_k <= max_size sizeof_float)
    by (rewrite max_size_float; unfold INT_MAX in *; lia).
  assert (Hmax8 : actual_k <= max_size sizeof_int64_t)
    by (rewrite max_size_int64_t; unfold INT_MAX in *; lia).
  set (s2 := logged _ s1).
  rewrite (bind_run_ret _ _ _ _ _ (resize_run sizeof_float 0 actual_k s2 Hmax4)).
  rewrite (bind_run_ret _ _ _ _ _ (resize_run sizeof_int64_t 0 actual_k s2 Hmax8)).
  rewrite !vector_data_repeat by lia.
  assert (Hvq : vector_data q = Some q) by (destruct q; [contradiction|reflexivity]).
  rewrite Hvq.
  assert (Hp2 : heap s2 !! p = Some (FaissIndexWrapper.mk (Some i) wdims false)) by exact Hp.
  assert (Hh2 : held s2 = []) by exact Hh.
  assert (Hs' : Faiss.search 1 q
                  (FaissIndexWrapper.clamp_k actual_k (to_size_t (Faiss.ntotal i))) i
                = inr (rd, rl)).
  { fold ntotal. unfold actual_k. rewrite clamp_k_idempotent. exact Hs. }
  rewrite (bind_run_ret _ _ _ _ _
             (Search_run s2 p i wdims q actual_k _ _ rd rl Hp2 Hh2 ltac:(lia) Hn Hs')).
  unfold ret. f_equal. subst s2 s1. rewrite !logged_logged. reflexivity.
Qed.

(** The clamp on a handle whose [ntotal] fits an [int]: [search(q, k)]
    resolves with exactly [min(k, ntotal)] distances and as many labels. *)
Lemma search_returns_min s p i wdims q k rd rl :
  heap s !! p = Some (FaissIndexWrapper.mk (Some i) wdims false) -> held s = [] ->
  0 < Faiss.ntotal i <= INT_MAX -> 0 < k <= INT_MAX -> q <> [] ->
  Faiss.search 1 q (Z.min k (Faiss.ntotal i)) i = inr (rd, rl) ->
  exists distances labels s',
    AsyncWorker.run (AsyncWorker.Search (SearchWorker.mk p q k)) s
    = (Ret (AsyncWorker.Resolve (Js.SearchResult distances labels)), s') /\
    Z.of_nat (length distances) = Z.min k (Faiss.ntotal i) /\
    Z.of_nat (length labels) = Z.min k (Faiss.ntotal i) /\
    heap s' = heap s.
Proof.
  intros Hp Hh Ht Hk Hq0 Hs.
  assert (Hsz : to_size_t (Faiss.ntotal i) = Faiss.ntotal i).
  { apply to_size_t_fits. unfold INT_MAX in Ht. lia. }
  assert (Hc : FaissIndexWrapper.clamp_k k (to_size_t (Faiss.ntotal i))
               = Z.min k (Faiss.ntotal i)).
  { rewrite Hsz. apply clamp_k_min. lia. }
  pose proof (SearchWorker_Execute_run s p i wdims q k rd rl Hp Hh) as Hrun.
  cbn zeta in Hrun. rewrite Hc, Hsz in Hrun.
  specialize (Hrun ltac:(lia) ltac:(lia) Hq0 Hs).
  eexists _, _, _. cbn [AsyncWorker.run].
  rewrite (bind_run_ret _ _ _ _ _ Hrun). cbn [AsyncWorker.settle SearchWorker.OnOK fst snd].
  split; [reflexivity|]. cbn [fst snd].
  rewrite length_map, !blit_length, !repeat_length.
  repeat split; lia.
Qed.

End Searching.

(* ================================================================== *)
(** * Merging *)

Section Merging.
Context {I : Type} {faiss : Faiss.Index I}.
Implicit Types (s : World (FaissIndexWrapper.t I)) (w : FaissIndexWrapper.t I).

Lemma holds_one (a b : Z) : a <> b -> holds b [a] = false.
Proof.
  intros H. cbn. destruct (Z.eqb_spec b a); [congruence|reflexivity].
Qed.

(** [MergeFrom] on two live wrappers of one dimension: both objects end
    in the state the library's [merge_from] left them in, and nothing else
    of them changes. *)
Lemma MergeFrom_run s a b i j dims :
  heap s !! a = Some (FaissIndexWrapper.mk (Some i) dims false) ->
  heap s !! b = Some (FaissIndexWrapper.mk (Some j) dims false) ->
  a <> b -> held s = [] ->
  FaissIndexWrapper.MergeFrom a b s
  = (match fst (Faiss.merge_from i j) with
     | None => Ret tt
     | Some msg => Throw (Exn std_runtime_error ("Failed to merge index: " +:+ msg))
     end,
     logged [Acquire a; Acquire b; Backend a "merge_from"; Backend b "merge_from";
             Release b; Release a]
       (with_heap
          (<[b := FaissIndexWrapper.mk (Some (snd (snd (Faiss.merge_from i j)))) dims false]>
             (<[a := FaissIndexWrapper.mk (Some (fst (snd (Faiss.merge_from i j)))) dims false]>
                (heap s))) s)).
Proof.
  intros Ha Hb Hab Hh. pose proof (quiet s a Hh) as Hqa.
  unfold FaissIndexWrapper.MergeFrom.
  rewrite (lock_guard_run s a _ _ Ha Hqa).
  assert (Hb1 : heap (locked a s) !! b
                = Some (FaissIndexWrapper.mk (Some j) dims false)) by exact Hb.
  assert (Hqb : holds b (held (locked a s)) = false).
  { unfold locked. cbn [held]. rewrite Hh. apply holds_one. exact Hab. }
  rewrite (lock_guard_run (locked a s) b _ _ Hb1 Hqb).
  unfold bind at 1, load at 1. rewrite !heap_locked, Ha.
  unfold bind at 1, load at 1. rewrite !heap_locked, Hb.
  cbn [FaissIndexWrapper.disposed_ FaissIndexWrapper.dims_]. rewrite Z.eqb_refl.
  cbn [negb]. unfold try_catch, bind, emit, store, FaissIndexWrapper.deref,
    FaissIndexWrapper.set_index, ret, locked. cbn.
  destruct (Faiss.merge_from i j) as [r [i' j']]. cbn.
  rewrite Ha. cbn. rewrite lookup_insert_ne by exact Hab. rewrite Hb. cbn.
  destruct r as [msg|]; cbn; unfold unlocked, unlock, logged, with_heap; cbn;
    rewrite Hh; cbn; rewrite !Z.eqb_refl; cbn;
    (destruct (Z.eqb_spec a b) as [?|_]; [contradiction|]); cbn;
    rewrite ?Z.eqb_refl; cbn;
    (f_equal; apply world_ext; cbn; rewrite <- ?app_assoc; reflexivity).
Qed.

(** C8, as the code has it.  [MergeFrom] on two distinct objects always
    takes the mutex of the target ([this]) first and the mutex of the
    source second, whichever way their addresses compare, and takes no
    other mutex. *)
Theorem MergeFrom_locks_target_then_source s a b wa wb :
  heap s !! a = Some wa -> heap s !! b = Some wb -> a <> b -> held s = [] ->
  exists rest,
    events_of (FaissIndexWrapper.MergeFrom a b) s = Acquire a :: Acquire b :: rest /\
    Forall (fun ev => match ev with Acquire _ => False | _ => True end) rest.
Proof.
  intros Ha Hb Hab Hh. pose proof (quiet s a Hh) as Hqa.
  unfold events_of, FaissIndexWrapper.MergeFrom.
  rewrite (lock_guard_run s a _ _ Ha Hqa).
  assert (Hb1 : heap (locked a s) !! b = Some wb) by exact Hb.
  assert (Hqb : holds b (held (locked a s)) = false).
  { unfold locked. cbn [held]. rewrite Hh. apply holds_one. exact Hab. }
  rewrite (lock_guard_run (locked a s) b _ _ Hb1 Hqb).
  unfold bind at 1, load at 1. rewrite !heap_locked, Ha.
  unfold bind at 1, load at 1. rewrite !heap_locked, Hb.
  assert (Hskip : forall evs : list event,
            skipn (length (trace s)) (trace s ++ evs) = evs).
  { intros evs. rewrite skipn_app, skipn_all, Nat.sub_diag. reflexivity. }
  destruct (FaissIndexWrapper.disposed_ wa).
  { eexists. unfold throw, unlocked, unlock, locked. cbn.
    rewrite <- !app_assoc. rewrite Hskip. cbn. split; [reflexivity|].
    repeat constructor. }
  destruct (FaissIndexWrapper.disposed_ wb).
  { eexists. unfold throw, unlocked, unlock, locked. cbn.
    rewrite <- !app_assoc. rewrite Hskip. cbn. split; [reflexivity|].
    repeat constructor. }
  destruct (negb (FaissIndexWrapper.dims_ wb =? FaissIndexWrapper.dims_ wa)).
  { eexists. unfold throw, unlocked, unlock, locked. cbn.
    rewrite <- !app_assoc. rewrite Hskip. cbn. split; [reflexivity|].
    repeat constructor. }
  unfold try_catch, bind, emit, store, FaissIndexWrapper.deref,
    FaissIndexWrapper.set_index, FaissIndexWrapper.rethrow, ret, fault, throw,
    unlocked, unlock, locked.
  destruct (FaissIndexWrapper.index_ wa) as [i|]; cbn.
  2:{ eexists. rewrite <- !app_assoc. rewrite Hskip. cbn. split; [reflexivity|].
      repeat constructor. }
  destruct (FaissIndexWrapper.index_ wb) as [j|]; cbn.
  2:{ eexists. rewrite <- !app_assoc. rewrite Hskip. cbn. split; [reflexivity|].
      repeat constructor. }
  destruct (Faiss.merge_from i j) as [r [i' j']]. cbn.
  rewrite Ha. cbn. rewrite lookup_insert_ne by exact Hab. rewrite Hb. cbn.
  destruct r as [msg|]; cbn;
    (eexists; rewrite <- !app_assoc; rewrite Hskip; cbn; split; [reflexivity|];
     repeat constructor).
Qed.

End Merging.

(* ================================================================== *)
(** * Serialization *)

Section Serialization.
Context {I : Type} {faiss : Faiss.Index I}.
Implicit Types (s : World (FaissIndexWrapper.t I)) (p : Z) (w : FaissIndexWrapper.t I).

Lemma ToBuffer_run s p i wdims bytes :
  heap s !! p = Some (FaissIndexWrapper.mk (Some i) wdims false) -> held s = [] ->
  Faiss.write_index i = inr bytes ->
  FaissIndexWrapper.ToBuffer p s
  = (Ret bytes, logged [Acquire p; Backend p "write_index"; Release p] s).
Proof.
  intros Hp Hh Hw. pose proof (quiet s p Hh) as Hq.
  unfold FaissIndexWrapper.ToBuffer. enter Hp Hq. cbn.
  unfold try_catch, bind, emit. cbn. rewrite Hw. unfold ret. same_world Hh.
Qed.

Lemma FromBuffer_run s bytes loaded tmp :
  bytes <> [] -> Faiss.read_index bytes = inr loaded -> 0 < Faiss.d loaded ->
  Faiss.index_factory (Faiss.d loaded) "Flat" 1 = inr tmp ->
  FaissIndexWrapper.FromBuffer (vector_data bytes) (Z.of_nat (length bytes)) s
  = (Ret (next s),
     mkWorld (<[next s := FaissIndexWrapper.mk (Some loaded) (Faiss.d loaded) false]> (heap s))
             (next s + 1) (held s) (trace s) (files s)).
Proof.
  intros Hne Hr Hd Hf. unfold FaissIndexWrapper.FromBuffer.
  assert (Hv : vector_data bytes = Some bytes) by (destruct bytes; [contradiction|reflexivity]).
  rewrite Hv.
  destruct (Z.eqb_spec (Z.of_nat (length bytes)) 0) as [H0|_].
  { destruct bytes; [contradiction|cbn in H0; lia]. }
  rewrite Nat2Z.id, firstn_all, Hr.
  unfold try_catch, FaissIndexWrapper.adopt, FaissIndexWrapper.make_unique_flat,
    FaissIndexWrapper.make_unique.
  destruct (Z.leb_spec (Faiss.d loaded) 0) as [?|_]; [lia|].
  rewrite Hf. unfold bind, alloc, load, store, ret. cbn.
  rewrite lookup_insert_eq. cbn. rewrite insert_insert_eq, lookup_insert_eq.
  reflexivity.
Qed.

(** What the reading methods return depends on the state of the wrapper
    they are called on, and on nothing else. *)
Lemma same_state_same_answers s s' p p' w :
  heap s !! p = Some w -> heap s' !! p' = Some w -> held s = [] -> held s' = [] ->
  fst (FaissIndexWrapper.GetTotalVectors p s) = fst (FaissIndexWrapper.GetTotalVectors p' s') /\
  fst (FaissIndexWrapper.GetDimensions p s) = fst (FaissIndexWrapper.GetDimensions p' s') /\
  fst (FaissIndexWrapper.IsTrained p s) = fst (FaissIndexWrapper.IsTrained p' s') /\
  fst (FaissIndexWrapper.ToBuffer p s) = fst (FaissIndexWrapper.ToBuffer p' s') /\
  (forall q k ds ls,
     fst (FaissIndexWrapper.Search p q k ds ls s)
     = fst (FaissIndexWrapper.Search p' q k ds ls s')) /\
  (forall q nq k ds ls,
     fst (FaissIndexWrapper.SearchBatch p q nq k ds ls s)
     = fst (FaissIndexWrapper.SearchBatch p' q nq k ds ls s')) /\
  (forall q radius,
     fst (FaissIndexWrapper.RangeSearch p q radius s)
     = fst (FaissIndexWrapper.RangeSearch p' q radius s')).
Proof.
  intros Hp Hp' Hh Hh'.
  pose proof (quiet s p Hh) as Hq. pose proof (quiet s' p' Hh') as Hq'.
  repeat split; intros;
    match goal with
    | |- fst ?f = fst ?g =>
        let h := head_of f in unfold h
    end;
    try (rewrite (lock_guard_run s p _ _ Hp Hq), (lock_guard_run s' p' _ _ Hp' Hq'));
    unfold bind, load, try_catch, emit, resize, throw, ret, fault,
      FaissIndexWrapper.deref, locked, unlocked, unlock;
    cbn; rewrite Hp, Hp'; cbn;
    destruct w as [[i|] wdims []]; cbn; try reflexivity;
    repeat (match goal with
            | |- context [Faiss.write_index ?i] => destruct (Faiss.write_index i)
            | |- context [Faiss.search ?a ?b ?c ?d] =>
                destruct (Faiss.search a b c d) as [?|[? ?]]
            | |- context [Faiss.range_search ?a ?b ?c ?d] =>
                destruct (Faiss.range_search a b c d) as [?|[[? ?] ?]]
            | |- context [match ?x with _ => _ end] => is_var x; destruct x
            | |- context [if ?b then _ else _] => destruct b
            end; cbn; try reflexivity).
Qed.

(** C4 (serialization round trip).  For a live handle whose index the
    library can write to a non-empty buffer and read back from it,
    [FromBuffer(ToBuffer(h))] succeeds and yields a new live wrapper, at a
    new address, in the same state as [h]: the same index behind it and the
    same dimension.  Hence [ntotal], the dimension, the trained flag, every
    [Search], [SearchBatch] and [RangeSearch], and a further [ToBuffer]
    answer on the copy as they do on [h].  [h] itself is unchanged. *)
Theorem buffer_round_trip s p i dims bytes tmp :
  heap s !! p = Some (FaissIndexWrapper.mk (Some i) dims false) -> held s = [] ->
  heap s !! next s = None ->
  Faiss.d i = dims -> 0 < dims ->
  Faiss.write_index i = inr bytes -> bytes <> [] -> Faiss.read_index bytes = inr i ->
  Faiss.index_factory dims "Flat" 1 = inr tmp ->
  exists s1 s2,
    FaissIndexWrapper.ToBuffer p s = (Ret bytes, s1) /\
    FaissIndexWrapper.FromBuffer (vector_data bytes) (Z.of_nat (length bytes)) s1
    = (Ret (next s), s2) /\
    next s <> p /\
    heap s2 !! next s = Some (FaissIndexWrapper.mk (Some i) dims false) /\
    heap s2 !! p = Some (FaissIndexWrapper.mk (Some i) dims false) /\
    fst (FaissIndexWrapper.GetTotalVectors (next s) s2)
    = fst (FaissIndexWrapper.GetTotalVectors p s2) /\
    fst (FaissIndexWrapper.GetDimensions (next s) s2)
    = fst (FaissIndexWrapper.GetDimensions p s2) /\
    fst (FaissIndexWrapper.IsTrained (next s) s2)
    = fst (FaissIndexWrapper.IsTrained p s2) /\
    fst (FaissIndexWrapper.ToBuffer (next s) s2) = fst (FaissIndexWrapper.ToBuffer p s2) /\
    (forall q k ds ls,
       fst (FaissIndexWrapper.Search (next s) q k ds ls s2)
       = fst (FaissIndexWrapper.Search p q k ds ls s2)) /\
    (forall q nq k ds ls,
       fst (FaissIndexWrapper.SearchBatch (next s) q nq k ds ls s2)
       = fst (FaissIndexWrapper.SearchBatch p q nq k ds ls s2)) /\
    (forall q radius,
       fst (FaissIndexWrapper.RangeSearch (next s) q radius s2)
       = fst (FaissIndexWrapper.RangeSearch p q radius s2)).
Proof.
  intros Hp Hh Hfresh Hd Hpos Hw Hne Hr Hf.
  assert (Hnp : next s <> p) by (intros Heq; rewrite Heq in Hfresh; congruence).
  set (s1 := logged [Acquire p; Backend p "write_index"; Release p] s).
  assert (Hd' : 0 < Faiss.d i) by lia.
  assert (Hf' : Faiss.index_factory (Faiss.d i) "Flat" 1 = inr tmp) by (rewrite Hd; exact Hf).
  pose proof (FromBuffer_run s1 bytes i tmp Hne Hr Hd' Hf') as Hfrom.
  rewrite Hd in Hfrom.
  set (s2 := mkWorld _ _ _ _ _) in Hfrom.
  assert (H2n : heap s2 !! next s = Some (FaissIndexWrapper.mk (Some i) dims false)).
  { subst s2. cbn. apply lookup_insert_eq. }
  assert (H2p : heap s2 !! p = Some (FaissIndexWrapper.mk (Some i) dims false)).
  { subst s2. cbn. rewrite lookup_insert_ne by exact Hnp. exact Hp. }
  assert (H2h : held s2 = []) by exact Hh.
  exists s1, s2.
  split; [exact (ToBuffer_run s p i dims bytes Hp Hh Hw)|].
  split; [exact Hfrom|].
  split; [exact Hnp|]. split; [exact H2n|]. split; [exact H2p|].
  exact (same_state_same_answers s2 s2 (next s) p _ H2n H2p H2h H2h).
Qed.

End Serialization.

Section Clamp.
Context {I : Type} {faiss : Faiss.Index I}.
Implicit Types (s : World (FaissIndexWrapper.t I)) (p : Z).

(** C3 where it breaks: an index of 2^32 + 1 vectors and k = 5.  The clamp
    compares k with [static_cast<int>(ntotal)], which is 1 here, so the
    library is asked for one neighbour and [search(q, 5)] resolves with
    one distance and one label, where the specification promises
    min(5, ntotal) = 5 of each. *)
Theorem search_clamp_truncates_ntotal s p i wdims q rd rl :
  heap s !! p = Some (FaissIndexWrapper.mk (Some i) wdims false) -> held s = [] ->
  Faiss.ntotal i = 2 ^ 32 + 1 -> q <> [] ->
  Faiss.search 1 q 1 i = inr (rd, rl) ->
  exists distances labels s',
    AsyncWorker.run (AsyncWorker.Search (SearchWorker.mk p q 5)) s
    = (Ret (AsyncWorker.Resolve (Js.SearchResult distances labels)), s') /\
    length distances = 1%nat /\ length labels = 1%nat /\
    FaissIndexWrapper.clamp_k 5 (Faiss.ntotal i) = 1 /\
    Z.min 5 (Faiss.ntotal i) = 5.
Proof.
  intros Hp Hh Hn Hq Hs.
  assert (Hsz : to_size_t (Faiss.ntotal i) = 2 ^ 32 + 1) by (rewrite Hn; reflexivity).
  assert (Hc : FaissIndexWrapper.clamp_k 5 (2 ^ 32 + 1) = 1) by reflexivity.
  pose proof (SearchWorker_Execute_run s p i wdims q 5 rd rl Hp Hh) as Hrun.
  cbn zeta in Hrun. rewrite Hsz, Hc in Hrun.
  specialize (Hrun ltac:(lia) ltac:(unfold INT_MAX; lia) Hq Hs).
  eexists _, _, _. cbn [AsyncWorker.run].
  rewrite (bind_run_ret _ _ _ _ _ Hrun).
  cbn [AsyncWorker.settle SearchWorker.OnOK fst snd].
  split; [reflexivity|]. cbn [fst snd].
  rewrite length_map, !blit_length, !repeat_length, Hn.
  repeat split; reflexivity.
Qed.

End Clamp.

Section DisposedSource.
Context {I : Type} {faiss : Faiss.Index I}.
Implicit Types (s : World (FaissIndexWrapper.t I)) (w : FaissIndexWrapper.t I).

(** [mergeFrom] with a disposed handle as its source, on a live target:
    the call throws "Cannot merge from disposed index" (kind [Disposed])
    and queues nothing. *)
Lemma mergeFrom_disposed_source s p q dims dims' w w' rest :
  heap s !! p = Some w -> heap s !! q = Some w' -> held s = [] ->
  FaissIndexWrapper.disposed_ w = false -> FaissIndexWrapper.disposed_ w' = true ->
  FaissIndexWrapperJS.MergeFrom (FaissIndexWrapperJS.mk (Some p) dims)
    (Napi.Instance (Some q) dims' :: rest) s
  = (Throw (Exn napi_Error "Cannot merge from disposed index"),
     logged [Acquire p; Release p; Acquire q; Release q] s) /\
  Taxonomy.of_exn (Exn napi_Error "Cannot merge from disposed index") = Taxonomy.Disposed.
Proof.
  intros Hp Hq Hh Hd Hd'. split; [|reflexivity].
  unfold FaissIndexWrapperJS.MergeFrom. apply guarded_run_throw; [|reflexivity].
  rewrite (validated_continues s p dims w _ Hp (quiet s p Hh) Hd).
  rewrite Length_cons.
  destruct (Z.ltb_spec (Napi.Length rest + 1) 1) as [Hl|_];
    [pose proof (Length_nonneg rest); lia|].
  cbn [Napi.arg nth Napi.IsObject negb FaissIndexWrapperJS.Unwrap].
  unfold bind at 1. unfold ret at 1. cbn [FaissIndexWrapperJS.wrapper_].
  set (s1 := logged [Acquire p; Release p] s).
  assert (Hq1 : heap s1 !! q = Some w') by exact Hq.
  assert (Hh1 : holds q (held s1) = false) by (apply quiet; exact Hh).
  rewrite (bind_run_ret _ _ _ _ _ (IsDisposed_run s1 q w' Hq1 Hh1)), Hd'.
  unfold Napi.Error, throw. subst s1. rewrite logged_logged. reflexivity.
Qed.

End DisposedSource.

(* ================================================================== *)
(** * The theorems at concrete inputs *)

(** Everything below runs on [StubIndex]: one handle of dimension 2
    holding three vectors at address 1, and where a second handle is
    needed, one at address 2. *)

Lemma dispose_is_final_witness :
  let s := StubIndex.world_of [StubIndex.flat 2 3] in
  let this := FaissIndexWrapperJS.mk (Some 1) 2 in
  heap s !! 1 = Some (StubIndex.flat 2 3) /\ held s = [] /\
  fst (FaissIndexWrapperJS.call_all this
         [(FaissIndexWrapperJS.add, [Napi.Float32Array [0; 0]]);
          (FaissIndexWrapperJS.dispose, []);
          (FaissIndexWrapperJS.getStats, [])]
         (snd (FaissIndexWrapperJS.call FaissIndexWrapperJS.dispose this [] s)))
  = [Throw (Exn napi_Error "Index has been disposed");
     Ret FaissIndexWrapperJS.Undefined;
     Throw (Exn napi_Error "Index has been disposed")].
Proof.
  cbv zeta. split; [reflexivity|]. split; [reflexivity|].
  exact (proj1 (proj2 (proj2
    (dispose_is_final (StubIndex.world_of [StubIndex.flat 2 3]) 1 2 (StubIndex.flat 2 3) []
       [(FaissIndexWrapperJS.add, [Napi.Float32Array [0; 0]]);
        (FaissIndexWrapperJS.dispose, []);
        (FaissIndexWrapperJS.getStats, [])]
       eq_refl eq_refl)))).
Defined.

(** C1 at a concrete input: a target with one vector, a source with two.
    [MergeFrom] succeeds, the target holds three vectors, and the source,
    which the specification leaves with its two, holds none: the library's
    [merge_from] moved them. *)
Lemma MergeFrom_empties_the_source :
  let s := StubIndex.world_of [StubIndex.flat 2 1; StubIndex.flat 2 2] in
  let s' := snd (FaissIndexWrapper.MergeFrom 1 2 s) in
  fst (FaissIndexWrapper.GetTotalVectors 1 s) = Ret 1 /\
  fst (FaissIndexWrapper.GetTotalVectors 2 s) = Ret 2 /\
  fst (FaissIndexWrapper.MergeFrom 1 2 s) = Ret tt /\
  fst (FaissIndexWrapper.GetTotalVectors 1 s') = Ret 3 /\
  fst (FaissIndexWrapper.GetTotalVectors 2 s') = Ret 0.
Proof. cbv zeta. repeat split; vm_compute; reflexivity. Qed.

Lemma search_clamp_truncates_ntotal_witness :
  let s := StubIndex.world_of [StubIndex.flat 1 (2 ^ 32 + 1)] in
  heap s !! 1 = Some (StubIndex.flat 1 (2 ^ 32 + 1)) /\ held s = [] /\
  Faiss.ntotal (StubIndex.mk StubIndex.Flat 1 1 true (2 ^ 32 + 1) 1) = 2 ^ 32 + 1 /\
  Faiss.search 1 [0] 1 (StubIndex.mk StubIndex.Flat 1 1 true (2 ^ 32 + 1) 1)
  = inr ([0], [0]) /\
  fst (AsyncWorker.run (AsyncWorker.Search (SearchWorker.mk 1 [0] 5)) s)
  = Ret (AsyncWorker.Resolve (Js.SearchResult [0] [0])) /\
  exists distances labels s',
    AsyncWorker.run (AsyncWorker.Search (SearchWorker.mk 1 [0] 5)) s
    = (Ret (AsyncWorker.Resolve (Js.SearchResult distances labels)), s') /\
    length distances = 1%nat /\ length labels = 1%nat /\
    FaissIndexWrapper.clamp_k 5 (2 ^ 32 + 1) = 1 /\ Z.min 5 (2 ^ 32 + 1) = 5.
Proof.
  cbv zeta.
  assert (Hq : [0] <> @nil float32) by discriminate.
  split; [reflexivity|]. split; [reflexivity|]. split; [reflexivity|].
  split; [reflexivity|]. split; [vm_compute; reflexivity|].
  exact (search_clamp_truncates_ntotal
           (StubIndex.world_of [StubIndex.flat 1 (2 ^ 32 + 1)]) 1
           (StubIndex.mk StubIndex.Flat 1 1 true (2 ^ 32 + 1) 1) 1 [0] [0] [0]
           eq_refl eq_refl eq_refl Hq eq_refl).
Defined.

Lemma buffer_round_trip_witness :
  let s := StubIndex.world_of [StubIndex.flat 2 3] in
  heap s !! 1 = Some (StubIndex.flat 2 3) /\ held s = [] /\ heap s !! next s = None /\
  exists bytes s1 s2,
    Faiss.write_index (StubIndex.mk StubIndex.Flat 2 1 true 3 1) = inr bytes /\
    bytes <> [] /\
    Faiss.read_index bytes = inr (StubIndex.mk StubIndex.Flat 2 1 true 3 1) /\
    FaissIndexWrapper.ToBuffer 1 s = (Ret bytes, s1) /\
    FaissIndexWrapper.FromBuffer (vector_data bytes) (Z.of_nat (length bytes)) s1
    = (Ret 2, s2) /\
    heap s2 !! 2 = heap s2 !! 1.
Proof.
  cbv zeta. split; [reflexivity|]. split; [reflexivity|]. split; [reflexivity|].
  pose (i := StubIndex.mk StubIndex.Flat 2 1 true 3 1).
  pose (bytes := match Faiss.write_index i with inr b => b | inl _ => [] end).
  assert (Hw : Faiss.write_index i = inr bytes) by reflexivity.
  assert (Hne : bytes <> []) by discriminate.
  assert (Hr : Faiss.read_index bytes = inr i) by (vm_compute; reflexivity).
  assert (Hp : heap (StubIndex.world_of [StubIndex.flat 2 3]) !! 1
               = Some (FaissIndexWrapper.mk (Some i) 2 false)) by reflexivity.
  assert (Hd : Faiss.d i = 2) by reflexivity.
  assert (Hpos : 0 < 2) by reflexivity.
  assert (Hf : Faiss.index_factory 2 "Flat" 1
               = inr (StubIndex.mk StubIndex.Flat 2 1 true 0 1)) by reflexivity.
  destruct (buffer_round_trip (StubIndex.world_of [StubIndex.flat 2 3]) 1 i 2 bytes
              (StubIndex.mk StubIndex.Flat 2 1 true 0 1)
              Hp eq_refl eq_refl Hd Hpos Hw Hne Hr Hf)
    as (s1 & s2 & Hto & Hfrom & _ & H2 & H1 & _).
  exists bytes, s1, s2. repeat split; try assumption.
  rewrite H1. exact H2.
Defined.

(** C5 at a concrete input: three floats offered to a handle of dimension
    2.  The call throws, and its trace shows the mutex of the handle
    acquired and released on the way, where the specification has no lock
    taken. *)
Lemma validation_takes_the_lock :
  let s := StubIndex.world_of [StubIndex.flat 2 3] in
  let this := FaissIndexWrapperJS.mk (Some 1) 2 in
  fst (FaissIndexWrapperJS.Add this [Napi.Float32Array [0; 0; 0]] s)
  = Throw (Exn napi_RangeError
             "Vector length must be a multiple of dimensions. Got 3, expected multiple of 2") /\
  events_of (FaissIndexWrapperJS.Add this [Napi.Float32Array [0; 0; 0]]) s
  = [Acquire 1; Release 1].
Proof. cbv zeta. split; vm_compute; reflexivity. Qed.

Lemma dimension_gate_witness :
  let s := StubIndex.world_of [StubIndex.flat 2 3] in
  let this := FaissIndexWrapperJS.mk (Some 1) 2 in
  heap s !! 1 = Some (StubIndex.flat 2 3) /\ held s = [] /\ 0 < 2 <= INT_MAX /\
  3 mod 2 <> 0 /\
  FaissIndexWrapperJS.Train this [Napi.Float32Array [0; 0; 0]] s
  = (Throw (Exn napi_RangeError
              "Vector length must be a multiple of dimensions. Got 3, expected multiple of 2"),
     logged [Acquire 1; Release 1] s) /\
  FaissIndexWrapperJS.Search this [Napi.Float32Array [0; 0; 0]; Napi.Number 1 0] s
  = (Throw (Exn napi_RangeError
              "Query vector length must match index dimensions. Got 3, expected 2"),
     logged [Acquire 1; Release 1] s).
Proof.
  cbv zeta.
  assert (Hd : 0 < 2 <= INT_MAX) by (unfold INT_MAX; lia).
  assert (Hm : 3 mod 2 <> 0) by discriminate.
  split; [reflexivity|]. split; [reflexivity|]. split; [exact Hd|]. split; [exact Hm|].
  pose proof (dimension_gate (StubIndex.world_of [StubIndex.flat 2 3]) 1 (StubIndex.flat 2 3)
                2 [0; 0; 0] [] eq_refl eq_refl eq_refl Hd) as [Hadd Hsearch].
  split.
  - exact (proj1 (proj2 (Hadd Hm))).
  - refine (proj1 (Hsearch _ _ 1 0)); [discriminate|unfold INT_MAX; cbn; lia].
Defined.

(** C6 at a concrete input: [add(new Float32Array(0))] on a live flat
    handle of dimension 2 that holds three vectors.  The promise is
    rejected where the specification has it resolved, and the index still
    holds its three vectors. *)
Lemma add_of_nothing_is_rejected_witness :
  let s := StubIndex.world_of [StubIndex.flat 2 3] in
  let this := FaissIndexWrapperJS.mk (Some 1) 2 in
  let s1 := logged [Acquire 1; Release 1] s in
  let s3 := logged [Acquire 1; Release 1; Acquire 1; Release 1] s1 in
  heap s !! 1 = Some (StubIndex.flat 2 3) /\ held s = [] /\
  FaissIndexWrapperJS.Add this [Napi.Float32Array []] s
  = (Ret (FaissIndexWrapperJS.Promise (AsyncWorker.Add (AddWorker.mk 1 [] 0))), s1) /\
  AsyncWorker.run (AsyncWorker.Add (AddWorker.mk 1 [] 0)) s1
  = (Ret (AsyncWorker.Reject "FAISS error: Vectors pointer cannot be null"), s3) /\
  heap s3 !! 1 = Some (StubIndex.flat 2 3).
Proof.
  cbv zeta. split; [reflexivity|]. split; [reflexivity|].
  assert (Hd : 0 < 2 <= INT_MAX) by (unfold INT_MAX; lia).
  pose proof (add_of_nothing_is_rejected
                (StubIndex.world_of [StubIndex.flat 2 3]) 1 (StubIndex.flat 2 3) 2 []
                eq_refl eq_refl eq_refl Hd) as H.
  cbv zeta in H. destruct H as (Hcall & Hrun & _).
  split; [exact Hcall|]. split; [exact Hrun|reflexivity].
Defined.

Lemma empty_index_is_refused_witness :
  let s := StubIndex.world_of [StubIndex.flat 2 0] in
  heap s !! 1 = Some (StubIndex.flat 2 0) /\ held s = [] /\
  FaissIndexWrapper.Search 1 (Some [0; 0]) 1 (Some [0]) (Some [0]) s
  = (Throw (Exn std_runtime_error "Cannot search empty index"),
     logged [Acquire 1; Backend 1 "ntotal"; Release 1] s) /\
  FaissIndexWrapper.RangeSearch 1 (Some [0; 0]) 0 s
  = (Throw (Exn std_runtime_error "Cannot search empty index"),
     logged [Acquire 1; Backend 1 "ntotal"; Release 1] s).
Proof.
  cbv zeta. split; [reflexivity|]. split; [reflexivity|].
  pose proof (empty_index_is_refused (StubIndex.world_of [StubIndex.flat 2 0]) 1
                (StubIndex.mk StubIndex.Flat 2 1 true 0 1) 2 eq_refl eq_refl eq_refl)
    as (Hsearch & Hrange & _).
  split.
  - apply Hsearch. reflexivity.
  - apply Hrange. reflexivity.
Defined.

(** C8 at a concrete input: two handles at addresses 1 and 2.  Merging 1
    into 2 takes the mutex of 2 first, the larger address; and when one
    thread merges 2 into 1 while another merges 1 into 2, the schedule in
    which each takes its first mutex leaves both waiting for the other. *)
Lemma opposite_merges_can_deadlock :
  let s := StubIndex.world_of [StubIndex.flat 2 1; StubIndex.flat 2 2] in
  let into_1 := events_of (FaissIndexWrapper.MergeFrom 1 2) s in
  let into_2 := events_of (FaissIndexWrapper.MergeFrom 2 1) s in
  firstn 2 into_1 = [Acquire 1; Acquire 2] /\
  firstn 2 into_2 = [Acquire 2; Acquire 1] /\
  exists st,
    Threads.run [0%nat; 1%nat] (Threads.start [into_1; into_2]) = Some st /\
    Threads.deadlocked st = true.
Proof.
  cbv zeta. split; [vm_compute; reflexivity|]. split; [vm_compute; reflexivity|].
  eexists. split; vm_compute; reflexivity.
Qed.

Lemma MergeFrom_locks_target_then_source_witness :
  let s := StubIndex.world_of [StubIndex.flat 2 1; StubIndex.flat 2 2] in
  heap s !! 2 = Some (StubIndex.flat 2 2) /\ heap s !! 1 = Some (StubIndex.flat 2 1) /\
  2 <> 1 /\ held s = [] /\
  exists rest,
    events_of (FaissIndexWrapper.MergeFrom 2 1) s = Acquire 2 :: Acquire 1 :: rest /\
    Forall (fun ev => match ev with Acquire _ => False | _ => True end) rest.
Proof.
  cbv zeta.
  assert (Hne : 2 <> 1) by discriminate.
  split; [reflexivity|]. split; [reflexivity|]. split; [exact Hne|]. split; [reflexivity|].
  exact (MergeFrom_locks_target_then_source
           (StubIndex.world_of [StubIndex.flat 2 1; StubIndex.flat 2 2]) 2 1
           (StubIndex.flat 2 2) (StubIndex.flat 2 1) eq_refl eq_refl Hne eq_refl).
Defined.

Lemma getStats_type_is_FLAT_L2_witness :
  let s := StubIndex.world_of
             [FaissIndexWrapper.mk (Some (StubIndex.mk StubIndex.HNSW 4 1 true 7 1)) 4 false] in
  heap s !! 1
  = Some (FaissIndexWrapper.mk (Some (StubIndex.mk StubIndex.HNSW 4 1 true 7 1)) 4 false) /\
  held s = [] /\
  fst (FaissIndexWrapperJS.GetStats (FaissIndexWrapperJS.mk (Some 1) 4) [] s)
  = Ret (FaissIndexWrapperJS.Stats 7 4 true "FLAT_L2").
Proof.
  cbv zeta. split; [reflexivity|]. split; [reflexivity|].
  rewrite (getStats_type_is_FLAT_L2
             (StubIndex.world_of
                [FaissIndexWrapper.mk (Some (StubIndex.mk StubIndex.HNSW 4 1 true 7 1)) 4 false])
             1 (StubIndex.mk StubIndex.HNSW 4 1 true 7 1) 4 4 [] eq_refl eq_refl).
  reflexivity.
Defined.

(** [getStats()] on handles built by the constructor for each of the four
    types, and on one rebuilt by [fromBuffer]: the [type] is "FLAT_L2"
    every time, also where the index is an inner-product, an IVF or an
    HNSW one. *)
Example getStats_after_construct :
  let stats_of (config : list (string * Napi.Value)) :=
    match FaissIndexWrapperJS.construct [Napi.Object config] StubIndex.empty_world with
    | (Ret this, s) => fst (FaissIndexWrapperJS.GetStats this [] s)
    | _ => Fault
    end in
  let dims := ("dims", Napi.Number 4 0) in
  stats_of [dims; ("type", Napi.String "FLAT_L2")]
  = Ret (FaissIndexWrapperJS.Stats 0 4 true "FLAT_L2") /\
  stats_of [dims; ("type", Napi.String "FLAT_IP")]
  = Ret (FaissIndexWrapperJS.Stats 0 4 true "FLAT_L2") /\
  stats_of [dims; ("type", Napi.String "IVF_FLAT"); ("nlist", Napi.Number 8 0)]
  = Ret (FaissIndexWrapperJS.Stats 0 4 false "FLAT_L2") /\
  stats_of [dims; ("type", Napi.String "HNSW")]
  = Ret (FaissIndexWrapperJS.Stats 0 4 true "FLAT_L2") /\
  match FaissIndexWrapper.ToBuffer 1
          (StubIndex.world_of
             [FaissIndexWrapper.mk (Some (StubIndex.mk StubIndex.IVF 4 1 true 9 3)) 4 false])
  with
  | (Ret bytes, s) =>
      match FaissIndexWrapperJS.FromBuffer [Napi.Buffer bytes] s with
      | (Ret (FaissIndexWrapperJS.Instance this), s') =>
          fst (FaissIndexWrapperJS.GetStats this [] s')
      | _ => Fault
      end
  | _ => Fault
  end = Ret (FaissIndexWrapperJS.Stats 9 4 true "FLAT_L2").
Proof. cbv zeta. repeat split; vm_compute; reflexivity. Qed.

(** [search_returns_min] on three stored vectors: k = 5 gives three
    results, k = 2 gives two. *)
Lemma search_returns_min_witness :
  let s := StubIndex.world_of [StubIndex.flat 2 3] in
  heap s !! 1 = Some (StubIndex.flat 2 3) /\ held s = [] /\
  (exists distances labels s',
     AsyncWorker.run (AsyncWorker.Search (SearchWorker.mk 1 [0; 0] 5)) s
     = (Ret (AsyncWorker.Resolve (Js.SearchResult distances labels)), s') /\
     Z.of_nat (length distances) = 3 /\ Z.of_nat (length labels) = 3 /\ heap s' = heap s) /\
  (exists distances labels s',
     AsyncWorker.run (AsyncWorker.Search (SearchWorker.mk 1 [0; 0] 2)) s
     = (Ret (AsyncWorker.Resolve (Js.SearchResult distances labels)), s') /\
     Z.of_nat (length distances) = 2 /\ Z.of_nat (length labels) = 2 /\ heap s' = heap s).
Proof.
  cbv zeta. split; [reflexivity|]. split; [reflexivity|].
  assert (Hp : heap (StubIndex.world_of [StubIndex.flat 2 3]) !! 1
               = Some (FaissIndexWrapper.mk
                         (Some (StubIndex.mk StubIndex.Flat 2 1 true 3 1)) 2 false))
    by reflexivity.
  assert (Ht : 0 < Faiss.ntotal (StubIndex.mk StubIndex.Flat 2 1 true 3 1) <= INT_MAX)
    by (unfold INT_MAX; cbn; lia).
  assert (Hq : [0; 0] <> @nil float32) by discriminate.
  split.
  - refine (search_returns_min _ 1 _ 2 [0; 0] 5 _ _ Hp eq_refl Ht _ Hq eq_refl).
    unfold INT_MAX. lia.
  - refine (search_returns_min _ 1 _ 2 [0; 0] 2 _ _ Hp eq_refl Ht _ Hq eq_refl).
    unfold INT_MAX. lia.
Defined.

(** [MergeFrom_run] on a target of one vector and a source of two. *)
Lemma MergeFrom_run_witness :
  let s := StubIndex.world_of [StubIndex.flat 2 1; StubIndex.flat 2 2] in
  heap s !! 1 = Some (StubIndex.flat 2 1) /\ heap s !! 2 = Some (StubIndex.flat 2 2) /\
  1 <> 2 /\ held s = [] /\
  FaissIndexWrapper.MergeFrom 1 2 s
  = (Ret tt,
     logged [Acquire 1; Acquire 2; Backend 1 "merge_from"; Backend 2 "merge_from";
             Release 2; Release 1]
       (with_heap (<[2 := StubIndex.flat 2 0]> (<[1 := StubIndex.flat 2 3]> (heap s))) s)).
Proof.
  cbv zeta.
  assert (Hne : 1 <> 2) by discriminate.
  split; [reflexivity|]. split; [reflexivity|]. split; [exact Hne|]. split; [reflexivity|].
  exact (MergeFrom_run (StubIndex.world_of [StubIndex.flat 2 1; StubIndex.flat 2 2]) 1 2
           (StubIndex.mk StubIndex.Flat 2 1 true 1 1)
           (StubIndex.mk StubIndex.Flat 2 1 true 2 1) 2 eq_refl eq_refl Hne eq_refl).
Defined.

(* ================================================================== *)
(** * More of the facade *)

Section FacadeEdges.
Context {I : Type} {faiss : Faiss.Index I}.
Implicit Types (s : World (FaissIndexWrapper.t I)) (p : Z) (w : FaissIndexWrapper.t I).

(** The three getters do not throw on a disposed wrapper, unlike every
    other method: [GetTotalVectors] answers 0 and [IsTrained] answers
    [false] without looking at the index, [GetDimensions] still answers
    the dimension, and [IsDisposed] answers [true]. *)
Lemma getters_on_disposed s p w :
  heap s !! p = Some w -> held s = [] -> FaissIndexWrapper.disposed_ w = true ->
  FaissIndexWrapper.GetTotalVectors p s = (Ret 0, logged [Acquire p; Release p] s) /\
  FaissIndexWrapper.IsTrained p s = (Ret false, logged [Acquire p; Release p] s) /\
  FaissIndexWrapper.GetDimensions p s = (Ret (FaissIndexWrapper.dims_ w), s) /\
  FaissIndexWrapper.IsDisposed p s = (Ret true, logged [Acquire p; Release p] s).
Proof.
  intros Hp Hh Hd. pose proof (quiet s p Hh) as Hq. repeat split.
  - unfold FaissIndexWrapper.GetTotalVectors. enter Hp Hq. rewrite Hd. leave Hq.
  - unfold FaissIndexWrapper.IsTrained. enter Hp Hq. rewrite Hd. leave Hq.
  - apply GetDimensions_run. exact Hp.
  - rewrite (IsDisposed_run s p w Hp Hq), Hd. reflexivity.
Qed.

(** The three guards of [MergeFrom], in the order the code tests them: a
    disposed target, a disposed source, two different dimensions.  Each
    throws with both mutexes taken and released, the library is not
    called, and neither object changes. *)
Lemma MergeFrom_guards s a b wa wb :
  heap s !! a = Some wa -> heap s !! b = Some wb -> a <> b -> held s = [] ->
  let unchanged := logged [Acquire a; Acquire b; Release b; Release a] s in
  (FaissIndexWrapper.disposed_ wa = true ->
   FaissIndexWrapper.MergeFrom a b s
   = (Throw (Exn std_runtime_error "Index has been disposed"), unchanged)) /\
  (FaissIndexWrapper.disposed_ wa = false -> FaissIndexWrapper.disposed_ wb = true ->
   FaissIndexWrapper.MergeFrom a b s
   = (Throw (Exn std_runtime_error "Cannot merge from disposed index"), unchanged)) /\
  (FaissIndexWrapper.disposed_ wa = false -> FaissIndexWrapper.disposed_ wb = false ->
   FaissIndexWrapper.dims_ wb <> FaissIndexWrapper.dims_ wa ->
   FaissIndexWrapper.MergeFrom a b s
   = (Throw (Exn std_invalid_argument "Merging index must have the same dimensions"),
      unchanged)).
Proof.
  intros Ha Hb Hab Hh unchanged. subst unchanged. pose proof (quiet s a Hh) as Hqa.
  assert (Hb1 : heap (locked a s) !! b = Some wb) by exact Hb.
  assert (Hqb : holds b (held (locked a s)) = false).
  { unfold locked. cbn [held]. rewrite Hh. apply holds_one. exact Hab. }
  assert (Hend : unlocked a (unlocked b (locked b (locked a s)))
                 = logged [Acquire a; Acquire b; Release b; Release a] s).
  { unfold unlocked, unlock, locked, logged. cbn. rewrite Hh. cbn.
    rewrite !Z.eqb_refl. cbn.
    destruct (Z.eqb_spec a b) as [?|_]; [contradiction|]. cbn.
    rewrite Z.eqb_refl. cbn.
    apply world_ext; cbn; rewrite <- ?app_assoc; reflexivity. }
  unfold FaissIndexWrapper.MergeFrom.
  repeat split.
  - intros Hda.
    rewrite (lock_guard_run s a _ _ Ha Hqa), (lock_guard_run (locked a s) b _ _ Hb1 Hqb).
    unfold bind at 1, load at 1. rewrite !heap_locked, Ha.
    unfold bind at 1, load at 1. rewrite !heap_locked, Hb, Hda.
    unfold throw. rewrite Hend. reflexivity.
  - intros Hda Hdb.
    rewrite (lock_guard_run s a _ _ Ha Hqa), (lock_guard_run (locked a s) b _ _ Hb1 Hqb).
    unfold bind at 1, load at 1. rewrite !heap_locked, Ha.
    unfold bind at 1, load at 1. rewrite !heap_locked, Hb, Hda, Hdb.
    unfold throw. rewrite Hend. reflexivity.
  - intros Hda Hdb Hdims.
    rewrite (lock_guard_run s a _ _ Ha Hqa), (lock_guard_run (locked a s) b _ _ Hb1 Hqb).
    unfold bind at 1, load at 1. rewrite !heap_locked, Ha.
    unfold bind at 1, load at 1. rewrite !heap_locked, Hb, Hda, Hdb.
    destruct (Z.eqb_spec (FaissIndexWrapper.dims_ wb) (FaissIndexWrapper.dims_ wa));
      [contradiction|].
    cbn [negb]. unfold throw. rewrite Hend. reflexivity.
Qed.

(** Merging a wrapper into itself: [MergeFrom] locks [mutex_] and then
    [other.mutex_], which is the same [std::mutex], already owned by the
    thread.  That second lock is undefined behaviour; the checks that
    follow it are never reached. *)
Lemma MergeFrom_self s a w :
  heap s !! a = Some w -> held s = [] ->
  FaissIndexWrapper.MergeFrom a a s = (Fault, locked a s).
Proof.
  intros Ha Hh. unfold FaissIndexWrapper.MergeFrom.
  rewrite (lock_guard_run s a _ _ Ha (quiet s a Hh)).
  unfold lock_guard at 1, lock. rewrite heap_locked, Ha.
  unfold locked at 1. cbn [held holds existsb]. rewrite Z.eqb_refl. reflexivity.
Qed.

(** [SetNprobe] on a live wrapper: when the index is not an IVF index the
    [dynamic_cast] gives null and nothing changes, without an error;
    when it is one, the index gets the new [nprobe] and nothing else of
    the wrapper changes. *)
Lemma SetNprobe_run s p i wdims nprobe :
  heap s !! p = Some (FaissIndexWrapper.mk (Some i) wdims false) -> held s = [] ->
  FaissIndexWrapper.SetNprobe p nprobe s
  = (Ret tt,
     if Faiss.is_ivf i then
       logged [Acquire p; Backend p "nprobe"; Release p]
         (with_heap (<[p := FaissIndexWrapper.mk
                                (Some (Faiss.set_nprobe (to_size_t nprobe) i)) wdims false]>
                       (heap s)) s)
     else logged [Acquire p; Release p] s).
Proof.
  intros Hp Hh. pose proof (quiet s p Hh) as Hq.
  unfold FaissIndexWrapper.SetNprobe. enter Hp Hq. cbn.
  unfold bind, emit, store, FaissIndexWrapper.set_index, ret.
  destruct (Faiss.is_ivf i); cbn.
  - rewrite heap_locked, Hp. same_world Hh.
  - same_world Hh.
Qed.

(** [Reset] on a live wrapper: the index becomes what the library's
    [reset] leaves, the dimension and the live state stay; when the library
    throws, the exception is thrown again as "Failed to reset index: "
    followed by its message. *)
Lemma Reset_run s p i wdims :
  heap s !! p = Some (FaissIndexWrapper.mk (Some i) wdims false) -> held s = [] ->
  FaissIndexWrapper.Reset p s
  = (match fst (Faiss.reset i) with
     | None => Ret tt
     | Some msg => Throw (Exn std_runtime_error ("Failed to reset index: " +:+ msg))
     end,
     logged [Acquire p; Backend p "reset"; Release p]
       (with_heap (<[p := FaissIndexWrapper.mk (Some (snd (Faiss.reset i))) wdims false]>
                     (heap s)) s)).
Proof.
  intros Hp Hh. pose proof (quiet s p Hh) as Hq.
  unfold FaissIndexWrapper.Reset. enter Hp Hq. cbn.
  unfold try_catch, bind, emit, store, FaissIndexWrapper.set_index,
    FaissIndexWrapper.rethrow, ret, throw.
  destruct (Faiss.reset i) as [r i']. cbn. rewrite heap_locked, Hp.
  destruct r as [msg|]; cbn; same_world Hh.
Qed.

End FacadeEdges.

(* ================================================================== *)
(** * More of the workers *)

Section WorkerEdges.
Context {I : Type} {faiss : Faiss.Index I}.
Implicit Types (s : World (FaissIndexWrapper.t I)) (p : Z) (w : FaissIndexWrapper.t I).

(** A worker that runs after its handle was disposed, for instance one
    queued before [dispose()] was called: whatever it was queued for, its
    promise is rejected with "Index has been disposed" ("Target index has
    been disposed" for a merge), it asks the wrapper nothing else, and no
    object changes. *)
Lemma workers_on_disposed s p w :
  heap s !! p = Some w -> held s = [] -> FaissIndexWrapper.disposed_ w = true ->
  let rejected := (Ret (AsyncWorker.Reject "Index has been disposed"),
                   logged [Acquire p; Release p] s) in
  (forall v n, AsyncWorker.run (AsyncWorker.Add (AddWorker.mk p v n)) s = rejected) /\
  (forall v n, AsyncWorker.run (AsyncWorker.Train (TrainWorker.mk p v n)) s = rejected) /\
  (forall q k, AsyncWorker.run (AsyncWorker.Search (SearchWorker.mk p q k)) s = rejected) /\
  (forall q r,
     AsyncWorker.run (AsyncWorker.RangeSearch (RangeSearchWorker.mk p q r)) s = rejected) /\
  (forall q nq k,
     AsyncWorker.run (AsyncWorker.SearchBatch (SearchBatchWorker.mk p q nq k)) s = rejected) /\
  (forall f, AsyncWorker.run (AsyncWorker.Save (SaveWorker.mk p f)) s = rejected) /\
  AsyncWorker.run (AsyncWorker.ToBuffer (ToBufferWorker.mk p)) s = rejected /\
  (forall source,
     AsyncWorker.run (AsyncWorker.MergeFrom (MergeFromWorker.mk p source)) s
     = (Ret (AsyncWorker.Reject "Target index has been disposed"),
        logged [Acquire p; Release p] s)) /\
  Taxonomy.of_message "Index has been disposed" = Taxonomy.Disposed /\
  Taxonomy.of_message "Target index has been disposed" = Taxonomy.Disposed.
Proof.
  intros Hp Hh Hd rejected. subst rejected. pose proof (quiet s p Hh) as Hq.
  repeat split; intros; cbn [AsyncWorker.run]; unfold bind at 1;
    unfold AddWorker.Execute, TrainWorker.Execute, SearchWorker.Execute,
      RangeSearchWorker.Execute, SearchBatchWorker.Execute, SaveWorker.Execute,
      ToBufferWorker.Execute, MergeFromWorker.Execute, try_catch;
    cbn [AddWorker.wrapper_ TrainWorker.wrapper_ SearchWorker.wrapper_
         RangeSearchWorker.wrapper_ SearchBatchWorker.wrapper_ SaveWorker.wrapper_
         ToBufferWorker.wrapper_ MergeFromWorker.target_];
    rewrite (bind_run_ret _ _ _ _ _ (IsDisposed_run s p w Hp Hq)), Hd; reflexivity.
Qed.

(** A merge whose source was disposed after the worker was queued, on a
    live target: the promise is rejected with "Source index has been
    disposed", and [MergeFrom] is not called. *)
Lemma merge_worker_on_disposed_source s target source wt ws :
  heap s !! target = Some wt -> heap s !! source = Some ws -> held s = [] ->
  FaissIndexWrapper.disposed_ wt = false -> FaissIndexWrapper.disposed_ ws = true ->
  AsyncWorker.run (AsyncWorker.MergeFrom (MergeFromWorker.mk target source)) s
  = (Ret (AsyncWorker.Reject "Source index has been disposed"),
     logged [Acquire target; Release target; Acquire source; Release source] s).
Proof.
  intros Ht Hs Hh Hdt Hds.
  cbn [AsyncWorker.run]. unfold bind at 1. unfold MergeFromWorker.Execute, try_catch.
  cbn [MergeFromWorker.target_ MergeFromWorker.source_].
  rewrite (bind_run_ret _ _ _ _ _ (IsDisposed_run s target wt Ht (quiet s target Hh))), Hdt.
  set (s1 := logged [Acquire target; Release target] s).
  assert (Hs1 : heap s1 !! source = Some ws) by exact Hs.
  assert (Hq1 : holds source (held s1) = false) by (apply quiet; exact Hh).
  rewrite (bind_run_ret _ _ _ _ _ (IsDisposed_run s1 source ws Hs1 Hq1)), Hds.
  unfold ret. subst s1. rewrite logged_logged. reflexivity.
Qed.

Lemma Add_run s p i wdims x n :
  heap s !! p = Some (FaissIndexWrapper.mk (Some i) wdims false) -> held s = [] ->
  n <> 0 ->
  FaissIndexWrapper.Add p (Some x) n s
  = (match fst (Faiss.add n x i) with
     | None => Ret tt
     | Some msg => Throw (Exn faiss_FaissException msg)
     end,
     logged [Acquire p; Backend p "add"; Release p]
       (with_heap (<[p := FaissIndexWrapper.mk (Some (snd (Faiss.add n x i))) wdims false]>
                     (heap s)) s)).
Proof.
  intros Hp Hh Hn. pose proof (quiet s p Hh) as Hq.
  unfold FaissIndexWrapper.Add. enter Hp Hq. cbn.
  destruct (Z.eqb_spec n 0) as [?|_]; [contradiction|].
  unfold bind, emit, store, FaissIndexWrapper.set_index, FaissIndexWrapper.rethrow,
    ret, throw.
  destruct (Faiss.add n x i) as [r i']. cbn. rewrite heap_locked, Hp.
  destruct r as [msg|]; cbn; same_world Hh.
Qed.

Lemma Train_run s p i wdims x n :
  heap s !! p = Some (FaissIndexWrapper.mk (Some i) wdims false) -> held s = [] ->
  n <> 0 ->
  FaissIndexWrapper.Train p (Some x) n s
  = (match fst (Faiss.train n x i) with
     | None => Ret tt
     | Some msg => Throw (Exn faiss_FaissException msg)
     end,
     logged [Acquire p; Backend p "train"; Release p]
       (with_heap (<[p := FaissIndexWrapper.mk (Some (snd (Faiss.train n x i))) wdims false]>
                     (heap s)) s)).
Proof.
  intros Hp Hh Hn. pose proof (quiet s p Hh) as Hq.
  unfold FaissIndexWrapper.Train. enter Hp Hq. cbn.
  destruct (Z.eqb_spec n 0) as [?|_]; [contradiction|].
  unfold bind, emit, store, FaissIndexWrapper.set_index, FaissIndexWrapper.rethrow,
    ret, throw.
  destruct (Faiss.train n x i) as [r i']. cbn. rewrite heap_locked, Hp.
  destruct r as [msg|]; cbn; same_world Hh.
Qed.

(** The constructor of [AddWorker] and [TrainWorker] copies the whole
    array when its length is [n * dims]. *)
Lemma copy_all (elements : list float32) (n dims : Z) :
  0 < dims <= INT_MAX -> Z.of_nat (length elements) = n * dims ->
  Z.of_nat (length elements) < 2 ^ 64 ->
  firstn (Z.to_nat (to_size_t (n * to_size_t dims))) elements = elements.
Proof.
  intros Hd Hl Hb.
  rewrite (to_size_t_fits dims) by (unfold INT_MAX in Hd; lia).
  rewrite <- Hl, to_size_t_fits by lia.
  rewrite Nat2Z.id. apply firstn_all.
Qed.

(** [add(vectors)] end to end, on a live handle and a non-empty array
    whose length is a multiple of the dimension.  The call queues a worker
    holding a copy of the whole array and [n = length / dims]; the worker
    hands exactly these to the library's [add].  When the library returns
    the promise resolves with [undefined]; when it throws, the promise is
    rejected with "FAISS error: " and its message, and the index keeps
    whatever the library left in it: nothing is rolled back. *)
Theorem add_end_to_end s p i wdims dims elements rest :
  heap s !! p = Some (FaissIndexWrapper.mk (Some i) wdims false) -> held s = [] ->
  0 < dims <= INT_MAX -> elements <> [] ->
  Z.of_nat (length elements) mod dims = 0 -> Z.of_nat (length elements) < 2 ^ 64 ->
  let n := Z.of_nat (length elements) / dims in
  let worker := AsyncWorker.Add (AddWorker.mk p elements n) in
  let s1 := logged [Acquire p; Release p] s in
  FaissIndexWrapperJS.Add (FaissIndexWrapperJS.mk (Some p) dims)
    (Napi.Float32Array elements :: rest) s
  = (Ret (FaissIndexWrapperJS.Promise worker), s1) /\
  AsyncWorker.run worker s1
  = (Ret (match fst (Faiss.add n elements i) with
          | None => AsyncWorker.Resolve Js.Undefined
          | Some msg => AsyncWorker.Reject ("FAISS error: " +:+ msg)
          end),
     logged [Acquire p; Release p; Acquire p; Backend p "add"; Release p]
       (with_heap
          (<[p := FaissIndexWrapper.mk (Some (snd (Faiss.add n elements i))) wdims false]>
             (heap s)) s1)).
Proof.
  intros Hp Hh Hdims Hne Hmod Hb n worker s1. subst worker.
  pose proof (quiet s p Hh) as Hq.
  assert (Hsz : to_size_t dims = dims).
  { apply to_size_t_fits. unfold INT_MAX in Hdims. lia. }
  assert (Hlen : Z.of_nat (length elements) = n * dims).
  { subst n. pose proof (Z.div_mod (Z.of_nat (length elements)) dims ltac:(lia)). lia. }
  assert (Hpos : 0 < Z.of_nat (length elements)).
  { destruct elements; [contradiction|cbn [length]; lia]. }
  assert (Hn : n <> 0) by (intros H0; rewrite H0 in Hlen; lia).
  split.
  - unfold FaissIndexWrapperJS.Add. apply guarded_run_ret.
    rewrite (validated_continues s p dims _ _ Hp Hq eq_refl).
    rewrite Length_cons.
    destruct (Z.ltb_spec (Napi.Length rest + 1) 1) as [Hl|_];
      [pose proof (Length_nonneg rest); lia|].
    cbn [Napi.arg nth FaissIndexWrapperJS.dims_]. rewrite Hsz.
    destruct (Z.eqb_spec dims 0) as [?|_]; [lia|].
    destruct (Z.eqb_spec (Z.of_nat (length elements) mod dims) 0) as [_|?];
      [|contradiction].
    cbn [negb]. unfold FaissIndexWrapperJS.get. cbn [FaissIndexWrapperJS.wrapper_].
    unfold bind, ret. fold n. unfold AddWorker.new.
    rewrite (copy_all elements n dims Hdims Hlen Hb). reflexivity.
  - cbn [AsyncWorker.run]. unfold bind at 1. unfold AddWorker.Execute, try_catch.
    cbn [AddWorker.wrapper_ AddWorker.vectors_ AddWorker.n_].
    assert (Hp1 : heap s1 !! p = Some (FaissIndexWrapper.mk (Some i) wdims false)) by exact Hp.
    assert (Hh1 : held s1 = []) by exact Hh.
    rewrite (bind_run_ret _ _ _ _ _ (IsDisposed_run s1 p _ Hp1 (quiet s1 p Hh1))).
    cbn [FaissIndexWrapper.disposed_].
    assert (Hv : vector_data elements = Some elements)
      by (destruct elements; [contradiction|reflexivity]).
    rewrite Hv.
    set (s2 := logged [Acquire p; Release p] s1).
    assert (Hp2 : heap s2 !! p = Some (FaissIndexWrapper.mk (Some i) wdims false)) by exact Hp.
    assert (Hh2 : held s2 = []) by exact Hh.
    unfold bind at 1. rewrite (Add_run s2 p i wdims elements n Hp2 Hh2 Hn).
    destruct (Faiss.add n elements i) as [[msg|] i']; cbn [fst snd];
      unfold ret, AsyncWorker.settle, SetError_of, AddWorker.OnOK; cbn [what];
      (f_equal; subst s2; unfold logged, with_heap; cbn;
       apply world_ext; cbn; rewrite <- ?app_assoc; reflexivity).
Qed.

(** [train(vectors)] end to end: as [add], with the library's [train]. *)
Theorem train_end_to_end s p i wdims dims elements rest :
  heap s !! p = Some (FaissIndexWrapper.mk (Some i) wdims false) -> held s = [] ->
  0 < dims <= INT_MAX -> elements <> [] ->
  Z.of_nat (length elements) mod dims = 0 -> Z.of_nat (length elements) < 2 ^ 64 ->
  let n := Z.of_nat (length elements) / dims in
  let worker := AsyncWorker.Train (TrainWorker.mk p elements n) in
  let s1 := logged [Acquire p; Release p] s in
  FaissIndexWrapperJS.Train (FaissIndexWrapperJS.mk (Some p) dims)
    (Napi.Float32Array elements :: rest) s
  = (Ret (FaissIndexWrapperJS.Promise worker), s1) /\
  AsyncWorker.run worker s1
  = (Ret (match fst (Faiss.train n elements i) with
          | None => AsyncWorker.Resolve Js.Undefined
          | Some msg => AsyncWorker.Reject ("FAISS error: " +:+ msg)
          end),
     logged [Acquire p; Release p; Acquire p; Backend p "train"; Release p]
       (with_heap
          (<[p := FaissIndexWrapper.mk (Some (snd (Faiss.train n elements i))) wdims false]>
             (heap s)) s1)).
Proof.
  intros Hp Hh Hdims Hne Hmod Hb n worker s1. subst worker.
  pose proof (quiet s p Hh) as Hq.
  assert (Hsz : to_size_t dims = dims).
  { apply to_size_t_fits. unfold INT_MAX in Hdims. lia. }
  assert (Hlen : Z.of_nat (length elements) = n * dims).
  { subst n. pose proof (Z.div_mod (Z.of_nat (length elements)) dims ltac:(lia)). lia. }
  assert (Hpos : 0 < Z.of_nat (length elements)).
  { destruct elements; [contradiction|cbn [length]; lia]. }
  assert (Hn : n <> 0) by (intros H0; rewrite H0 in Hlen; lia).
  split.
  - unfold FaissIndexWrapperJS.Train. apply guarded_run_ret.
    rewrite (validated_continues s p dims _ _ Hp Hq eq_refl).
    rewrite Length_cons.
    destruct (Z.ltb_spec (Napi.Length rest + 1) 1) as [Hl|_];
      [pose proof (Length_nonneg rest); lia|].
    cbn [Napi.arg nth FaissIndexWrapperJS.dims_]. rewrite Hsz.
    destruct (Z.eqb_spec dims 0) as [?|_]; [lia|].
    destruct (Z.eqb_spec (Z.of_nat (length elements) mod dims) 0) as [_|?];
      [|contradiction].
    cbn [negb]. unfold FaissIndexWrapperJS.get. cbn [FaissIndexWrapperJS.wrapper_].
    unfold bind, ret. fold n. unfold TrainWorker.new.
    rewrite (copy_all elements n dims Hdims Hlen Hb). reflexivity.
  - cbn [AsyncWorker.run]. unfold bind at 1. unfold TrainWorker.Execute, try_catch.
    cbn [TrainWorker.wrapper_ TrainWorker.vectors_ TrainWorker.n_].
    assert (Hp1 : heap s1 !! p = Some (FaissIndexWrapper.mk (Some i) wdims false)) by exact Hp.
    assert (Hh1 : held s1 = []) by exact Hh.
    rewrite (bind_run_ret _ _ _ _ _ (IsDisposed_run s1 p _ Hp1 (quiet s1 p Hh1))).
    cbn [FaissIndexWrapper.disposed_].
    assert (Hv : vector_data elements = Some elements)
      by (destruct elements; [contradiction|reflexivity]).
    rewrite Hv.
    set (s2 := logged [Acquire p; Release p] s1).
    assert (Hp2 : heap s2 !! p = Some (FaissIndexWrapper.mk (Some i) wdims false)) by exact Hp.
    assert (Hh2 : held s2 = []) by exact Hh.
    unfold bind at 1. rewrite (Train_run s2 p i wdims elements n Hp2 Hh2 Hn).
    destruct (Faiss.train n elements i) as [[msg|] i']; cbn [fst snd];
      unfold ret, AsyncWorker.settle, SetError_of, TrainWorker.OnOK; cbn [what];
      (f_equal; subst s2; unfold logged, with_heap; cbn;
       apply world_ext; cbn; rewrite <- ?app_assoc; reflexivity).
Qed.

End WorkerEdges.

(* ================================================================== *)
(** * Batch and range search *)

Section BatchAndRange.
Context {I : Type} {faiss : Faiss.Index I}.
Implicit Types (s : World (FaissIndexWrapper.t I)) (p : Z) (w : FaissIndexWrapper.t I).

Lemma SearchBatch_run s p i wdims q nq k ds ls rd rl :
  heap s !! p = Some (FaissIndexWrapper.mk (Some i) wdims false) -> held s = [] ->
  nq <> 0 -> 0 < k -> to_size_t (Faiss.ntotal i) <> 0 ->
  Faiss.search nq q (FaissIndexWrapper.clamp_k k (to_size_t (Faiss.ntotal i))) i
  = inr (rd, rl) ->
  FaissIndexWrapper.SearchBatch p (Some q) nq k (Some ds) (Some ls) s
  = (Ret (blit rd ds, blit rl ls),
     logged [Acquire p; Backend p "ntotal"; Backend p "search"; Release p] s).
Proof.
  intros Hp Hh Hnq Hk Hn Hs. pose proof (quiet s p Hh) as Hq.
  unfold FaissIndexWrapper.SearchBatch. enter Hp Hq. cbn.
  destruct (Z.eqb_spec nq 0) as [?|_]; [contradiction|].
  destruct (Z.leb_spec k 0) as [?|_]; [lia|].
  unfold bind, emit. cbn.
  destruct (Z.eqb_spec (to_size_t (Faiss.ntotal i)) 0) as [?|_]; [contradiction|].
  rewrite Hs. unfold ret. same_world Hh.
Qed.

(** What [SearchBatchWorker::Execute] leaves in [distances_] and
    [labels_] when both vectors can be resized and the library's search
    returns: what the library wrote, in vectors of [nq] times the clamped
    [k] elements. *)
Lemma SearchBatchWorker_Execute_run s p i wdims q nq k rd rl :
  heap s !! p = Some (FaissIndexWrapper.mk (Some i) wdims false) -> held s = [] ->
  let ntotal := to_size_t (Faiss.ntotal i) in
  let actual_k := FaissIndexWrapper.clamp_k k ntotal in
  ntotal <> 0 -> 0 < actual_k <= INT_MAX -> 0 < nq ->
  nq * actual_k <= max_size sizeof_int64_t -> q <> [] ->
  Faiss.search nq q actual_k i = inr (rd, rl) ->
  SearchBatchWorker.Execute (SearchBatchWorker.mk p q nq k) s
  = (Ret (inr (blit rd (repeat 0 (Z.to_nat (nq * actual_k))),
               blit rl (repeat 0 (Z.to_nat (nq * actual_k))))),
     logged [Acquire p; Release p;
             Acquire p; Backend p "ntotal"; Release p;
             Acquire p; Backend p "ntotal"; Backend p "search"; Release p] s).
Proof.
  intros Hp Hh ntotal actual_k Hn Hk Hnq Hmax8 Hq0 Hs. pose proof (quiet s p Hh) as Hq.
  rewrite max_size_int64_t in Hmax8. unfold INT_MAX in Hk.
  assert (Hprod : 0 < nq * actual_k) by nia.
  assert (Hmax4 : nq * actual_k <= max_size sizeof_float) by (rewrite max_size_float; lia).
  assert (Hmax8' : nq * actual_k <= max_size sizeof_int64_t)
    by (rewrite max_size_int64_t; lia).
  assert (Hsz2 : to_size_t (nq * to_size_t actual_k) = nq * actual_k).
  { rewrite (to_size_t_fits actual_k) by lia. apply to_size_t_fits. lia. }
  unfold SearchBatchWorker.Execute, try_catch.
  cbn [SearchBatchWorker.wrapper_ SearchBatchWorker.k_ SearchBatchWorker.queries_
       SearchBatchWorker.nq_].
  rewrite (bind_run_ret _ _ _ _ _ (IsDisposed_run s p _ Hp Hq)).
  cbn [FaissIndexWrapper.disposed_].
  set (s1 := logged [Acquire p; Release p] s).
  assert (Hp1 : heap s1 !! p = Some (FaissIndexWrapper.mk (Some i) wdims false)) by exact Hp.
  assert (Hh1 : held s1 = []) by exact Hh.
  rewrite (bind_run_ret _ _ _ _ _ (GetTotalVectors_run s1 p i wdims Hp1 Hh1)).
  fold ntotal. destruct (Z.eqb_spec ntotal 0) as [?|_]; [contradiction|].
  fold actual_k. rewrite Hsz2.
  set (s2 := logged _ s1).
  rewrite (bind_run_ret _ _ _ _ _ (resize_run sizeof_float 0 (nq * actual_k) s2 Hmax4)).
  rewrite (bind_run_ret _ _ _ _ _ (resize_run sizeof_int64_t 0 (nq * actual_k) s2 Hmax8')).
  rewrite !vector_data_repeat by lia.
  assert (Hvq : vector_data q = Some q) by (destruct q; [contradiction|reflexivity]).
  rewrite Hvq.
  assert (Hp2 : heap s2 !! p = Some (FaissIndexWrapper.mk (Some i) wdims false)) by exact Hp.
  assert (Hh2 : held s2 = []) by exact Hh.
  assert (Hs' : Faiss.search nq q
                  (FaissIndexWrapper.clamp_k actual_k (to_size_t (Faiss.ntotal i))) i
                = inr (rd, rl)).
  { fold ntotal. unfold actual_k. rewrite clamp_k_idempotent. exact Hs. }
  rewrite (bind_run_ret _ _ _ _ _
             (SearchBatch_run s2 p i wdims q nq actual_k _ _ rd rl Hp2 Hh2
                ltac:(lia) ltac:(lia) Hn Hs')).
  unfold ret. f_equal. subst s2 s1. rewrite !logged_logged. reflexivity.
Qed.

(** When [nq] times the clamped [k] is more than a [std::vector<float>]
    can hold, [distances_.resize] throws and [Execute] reports it. *)
Lemma SearchBatchWorker_Execute_too_large s p i wdims q nq k :
  heap s !! p = Some (FaissIndexWrapper.mk (Some i) wdims false) -> held s = [] ->
  let ntotal := to_size_t (Faiss.ntotal i) in
  let actual_k := FaissIndexWrapper.clamp_k k ntotal in
  ntotal <> 0 -> 0 < actual_k <= INT_MAX ->
  max_size sizeof_float < nq * actual_k < 2 ^ 64 ->
  SearchBatchWorker.Execute (SearchBatchWorker.mk p q nq k) s
  = (Ret (inl "FAISS error: vector::_M_default_append"),
     logged [Acquire p; Release p; Acquire p; Backend p "ntotal"; Release p] s).
Proof.
  intros Hp Hh ntotal actual_k Hn Hk Hbig. pose proof (quiet s p Hh) as Hq.
  unfold INT_MAX in Hk.
  assert (Hsz2 : to_size_t (nq * to_size_t actual_k) = nq * actual_k).
  { rewrite (to_size_t_fits actual_k) by lia. apply to_size_t_fits.
    rewrite max_size_float in Hbig. lia. }
  unfold SearchBatchWorker.Execute, try_catch.
  cbn [SearchBatchWorker.wrapper_ SearchBatchWorker.k_ SearchBatchWorker.queries_
       SearchBatchWorker.nq_].
  rewrite (bind_run_ret _ _ _ _ _ (IsDisposed_run s p _ Hp Hq)).
  cbn [FaissIndexWrapper.disposed_].
  set (s1 := logged [Acquire p; Release p] s).
  assert (Hp1 : heap s1 !! p = Some (FaissIndexWrapper.mk (Some i) wdims false)) by exact Hp.
  assert (Hh1 : held s1 = []) by exact Hh.
  rewrite (bind_run_ret _ _ _ _ _ (GetTotalVectors_run s1 p i wdims Hp1 Hh1)).
  fold ntotal. destruct (Z.eqb_spec ntotal 0) as [?|_]; [contradiction|].
  fold actual_k. rewrite Hsz2.
  set (s2 := logged _ s1).
  rewrite (bind_run_throw _ _ _ _ _
             (resize_throws sizeof_float 0 (nq * actual_k) s2 (proj1 Hbig))).
  unfold ret, SetError_of. cbn [what]. f_equal.
  subst s2 s1. rewrite !logged_logged. reflexivity.
Qed.

(** [searchBatch] on a live handle whose [ntotal] fits an [int]; the
    clamp is computed once for all queries.  When [nq * min(k, ntotal)]
    fits an [int] and the library's search returns, the promise resolves
    with [nq * min(k, ntotal)] distances, as many labels, ["nq"] as given
    and ["k"] equal to [min(k, ntotal)].  When [nq * min(k, ntotal)] is
    more than a [std::vector<float>] can hold, the library is not asked:
    [resize] throws and the promise is rejected. *)
Theorem searchBatch_returns_nq_times_min s p i wdims q nq k :
  heap s !! p = Some (FaissIndexWrapper.mk (Some i) wdims false) -> held s = [] ->
  0 < Faiss.ntotal i <= INT_MAX -> 0 < k <= INT_MAX -> 0 < nq <= INT_MAX -> q <> [] ->
  let ak := Z.min k (Faiss.ntotal i) in
  (nq * ak <= INT_MAX ->
   forall rd rl, Faiss.search nq q ak i = inr (rd, rl) ->
   exists distances labels s',
     AsyncWorker.run (AsyncWorker.SearchBatch (SearchBatchWorker.mk p q nq k)) s
     = (Ret (AsyncWorker.Resolve (Js.SearchBatchResult distances labels nq ak)), s') /\
     Z.of_nat (length distances) = nq * ak /\
     Z.of_nat (length labels) = nq * ak /\
     heap s' = heap s) /\
  (max_size sizeof_float < nq * ak ->
   exists msg s',
     AsyncWorker.run (AsyncWorker.SearchBatch (SearchBatchWorker.mk p q nq k)) s
     = (Ret (AsyncWorker.Reject ("FAISS error: " +:+ msg)), s') /\
     heap s' = heap s).
Proof.
  intros Hp Hh Ht Hk Hnq Hq0 ak.
  assert (Hak : 0 < ak <= INT_MAX) by (subst ak; lia).
  assert (Hsz : to_size_t (Faiss.ntotal i) = Faiss.ntotal i).
  { apply to_size_t_fits. unfold INT_MAX in Ht. lia. }
  assert (Hc : FaissIndexWrapper.clamp_k k (to_size_t (Faiss.ntotal i)) = ak).
  { rewrite Hsz. apply clamp_k_min. lia. }
  assert (Hn : to_size_t (Faiss.ntotal i) <> 0) by (rewrite Hsz; lia).
  split.
  - intros Hfit rd rl Hs.
    assert (Hmax : nq * FaissIndexWrapper.clamp_k k (to_size_t (Faiss.ntotal i))
                   <= max_size sizeof_int64_t).
    { rewrite Hc, max_size_int64_t. unfold INT_MAX in Hfit. lia. }
    pose proof (SearchBatchWorker_Execute_run s p i wdims q nq k rd rl Hp Hh Hn
                  ltac:(rewrite Hc; exact Hak) (proj1 Hnq) Hmax Hq0
                  ltac:(rewrite Hc; exact Hs)) as He.
    rewrite Hc in He.
    assert (Hprod : 0 < nq * ak) by (unfold INT_MAX in *; nia).
    assert (Hlen : forall (A : Type) (src : list A) (z : A),
              Z.of_nat (length (blit src (repeat z (Z.to_nat (nq * ak))))) = nq * ak).
    { intros A src z. rewrite blit_length, repeat_length, Z2Nat.id; lia. }
    exists (blit rd (repeat 0 (Z.to_nat (nq * ak)))),
           (map to_int32 (blit rl (repeat 0 (Z.to_nat (nq * ak))))).
    eexists. split; [|split; [apply Hlen|split; [rewrite length_map; apply Hlen|]]].
    + cbn [AsyncWorker.run]. rewrite (bind_run_ret _ _ _ _ _ He).
      unfold ret, AsyncWorker.settle, SearchBatchWorker.OnOK.
      cbn [SearchBatchWorker.nq_ fst snd].
      rewrite Hlen, Z.mul_comm, Z.div_mul by lia.
      rewrite (to_int_fits ak) by (unfold INT_MIN, INT_MAX in *; lia).
      reflexivity.
    + reflexivity.
  - intros Hbig.
    assert (H64 : nq * ak < 2 ^ 64) by (unfold INT_MAX in *; nia).
    pose proof (SearchBatchWorker_Execute_too_large s p i wdims q nq k Hp Hh Hn
                  ltac:(rewrite Hc; exact Hak)
                  ltac:(rewrite Hc; split; [exact Hbig|exact H64])) as He.
    exists "vector::_M_default_append". eexists. split.
    + cbn [AsyncWorker.run]. rewrite (bind_run_ret _ _ _ _ _ He). reflexivity.
    + reflexivity.
Qed.

Lemma RangeSearch_run s p i wdims q radius rlims rd rl :
  heap s !! p = Some (FaissIndexWrapper.mk (Some i) wdims false) -> held s = [] ->
  f32_lt0 radius = false -> to_size_t (Faiss.ntotal i) <> 0 ->
  Faiss.range_search 1 q radius i = inr (rlims, rd, rl) ->
  nth 1 rlims 0 <= max_size sizeof_int64_t ->
  let total := nth 1 rlims 0 in
  FaissIndexWrapper.RangeSearch p (Some q) radius s
  = (Ret (total, blit rd (repeat 0 (Z.to_nat total)), blit rl (repeat 0 (Z.to_nat total)),
          [0; total]),
     logged [Acquire p; Backend p "ntotal"; Backend p "range_search"; Release p] s).
Proof.
  intros Hp Hh Hr Hn Hs Hmax total. pose proof (quiet s p Hh) as Hq.
  assert (Hmax4 : total <= max_size sizeof_float).
  { rewrite max_size_int64_t in Hmax. rewrite max_size_float. subst total. lia. }
  unfold FaissIndexWrapper.RangeSearch. enter Hp Hq. cbn. rewrite Hr.
  unfold bind at 1, emit at 1. cbn.
  destruct (Z.eqb_spec (to_size_t (Faiss.ntotal i)) 0) as [?|_]; [contradiction|].
  unfold try_catch, bind, emit. cbn. rewrite Hs. fold total.
  rewrite (resize_run sizeof_float 0 total _ Hmax4).
  rewrite (resize_run sizeof_int64_t 0 total _ Hmax). unfold ret. same_world Hh.
Qed.

(** The library reports more neighbours than a [std::vector<int64_t>] can
    hold: one of the two [resize] calls throws, inside the [try]. *)
Lemma RangeSearch_too_large s p i wdims q radius rlims rd rl :
  heap s !! p = Some (FaissIndexWrapper.mk (Some i) wdims false) -> held s = [] ->
  f32_lt0 radius = false -> to_size_t (Faiss.ntotal i) <> 0 ->
  Faiss.range_search 1 q radius i = inr (rlims, rd, rl) ->
  max_size sizeof_int64_t < nth 1 rlims 0 ->
  FaissIndexWrapper.RangeSearch p (Some q) radius s
  = (Throw (Exn std_runtime_error "Failed to range search: vector::_M_default_append"),
     logged [Acquire p; Backend p "ntotal"; Backend p "range_search"; Release p] s).
Proof.
  intros Hp Hh Hr Hn Hs Hbig. pose proof (quiet s p Hh) as Hq.
  unfold FaissIndexWrapper.RangeSearch. enter Hp Hq. cbn. rewrite Hr.
  unfold bind at 1, emit at 1. cbn.
  destruct (Z.eqb_spec (to_size_t (Faiss.ntotal i)) 0) as [?|_]; [contradiction|].
  unfold try_catch, bind, emit. cbn. rewrite Hs.
  destruct (Z.le_gt_cases (nth 1 rlims 0) (max_size sizeof_float)) as [Hle|Hgt].
  - rewrite (resize_run sizeof_float 0 _ _ Hle).
    rewrite (resize_throws sizeof_int64_t 0 _ _ Hbig). unfold throw. same_world Hh.
  - rewrite (resize_throws sizeof_float 0 _ _ Hgt). unfold throw. same_world Hh.
Qed.

Lemma RangeSearch_fails s p i wdims q radius msg :
  heap s !! p = Some (FaissIndexWrapper.mk (Some i) wdims false) -> held s = [] ->
  f32_lt0 radius = false -> to_size_t (Faiss.ntotal i) <> 0 ->
  Faiss.range_search 1 q radius i = inl msg ->
  FaissIndexWrapper.RangeSearch p (Some q) radius s
  = (Throw (Exn std_runtime_error ("Failed to range search: " +:+ msg)),
     logged [Acquire p; Backend p "ntotal"; Backend p "range_search"; Release p] s).
Proof.
  intros Hp Hh Hr Hn Hs. pose proof (quiet s p Hh) as Hq.
  unfold FaissIndexWrapper.RangeSearch. enter Hp Hq. cbn. rewrite Hr.
  unfold bind at 1, emit at 1. cbn.
  destruct (Z.eqb_spec (to_size_t (Faiss.ntotal i)) 0) as [?|_]; [contradiction|].
  unfold try_catch, bind, emit, throw. cbn. rewrite Hs. same_world Hh.
Qed.

(** [RangeSearchWorker::Execute] up to the call of [RangeSearch], on a
    live handle that is not empty. *)
Lemma RangeSearchWorker_Execute_steps s p i wdims q radius :
  heap s !! p = Some (FaissIndexWrapper.mk (Some i) wdims false) -> held s = [] ->
  to_size_t (Faiss.ntotal i) <> 0 -> q <> [] ->
  RangeSearchWorker.Execute (RangeSearchWorker.mk p q radius) s
  = match FaissIndexWrapper.RangeSearch p (Some q) radius
            (logged [Acquire p; Release p; Acquire p; Backend p "ntotal"; Release p] s) with
    | (Ret (_, distances_, labels_, lims_), s') => (Ret (inr (distances_, labels_, lims_)), s')
    | (Throw e, s') => (Ret (inl (SetError_of e)), s')
    | (Fault, s') => (Fault, s')
    end.
Proof.
  intros Hp Hh Hn Hq0. pose proof (quiet s p Hh) as Hq.
  assert (Hvq : vector_data q = Some q) by (destruct q; [contradiction|reflexivity]).
  set (s1 := logged [Acquire p; Release p] s).
  assert (Hp1 : heap s1 !! p = Some (FaissIndexWrapper.mk (Some i) wdims false)) by exact Hp.
  assert (Hh1 : held s1 = []) by exact Hh.
  unfold RangeSearchWorker.Execute, try_catch.
  cbn [RangeSearchWorker.wrapper_ RangeSearchWorker.query_ RangeSearchWorker.radius_].
  rewrite (bind_run_ret _ _ _ _ _ (IsDisposed_run s p _ Hp Hq)).
  cbn [FaissIndexWrapper.disposed_]. fold s1.
  rewrite (bind_run_ret _ _ _ _ _ (GetTotalVectors_run s1 p i wdims Hp1 Hh1)).
  destruct (Z.eqb_spec (to_size_t (Faiss.ntotal i)) 0) as [?|_]; [contradiction|].
  rewrite Hvq. unfold bind. subst s1. rewrite logged_logged. cbn [app].
  destruct (FaissIndexWrapper.RangeSearch p (Some q) radius _) as [[[[[t ds] ls] lm]|e|] s'];
    reflexivity.
Qed.

(** [rangeSearch] on a live, non-empty handle, for a radius that is not
    below zero.  For a library result of [total] neighbours that a
    [std::vector<int64_t>] can hold, the promise resolves with [total]
    distances, [total] labels cut to 32 bits, ["nq"] 1 and ["lims"]
    [[0, total mod 2^32]]; for a larger [total], [resize] throws and the
    promise is rejected.  When the library throws, the promise is rejected
    with "FAISS error: Failed to range search: " and its message. *)
Theorem rangeSearch_end_to_end s p i wdims q radius :
  heap s !! p = Some (FaissIndexWrapper.mk (Some i) wdims false) -> held s = [] ->
  f32_lt0 radius = false -> to_size_t (Faiss.ntotal i) <> 0 -> q <> [] ->
  match Faiss.range_search 1 q radius i with
  | inr (rlims, rd, rl) =>
      let total := nth 1 rlims 0 in
      (0 <= total <= max_size sizeof_int64_t ->
       exists distances labels s',
         AsyncWorker.run (AsyncWorker.RangeSearch (RangeSearchWorker.mk p q radius)) s
         = (Ret (AsyncWorker.Resolve
                   (Js.RangeSearchResult distances (map to_int32 labels) 1
                      [0; total mod 2 ^ 32])), s') /\
         Z.of_nat (length distances) = total /\ Z.of_nat (length labels) = total /\
         labels = blit rl (repeat 0 (Z.to_nat total)) /\ heap s' = heap s) /\
      (max_size sizeof_int64_t < total ->
       exists msg s',
         AsyncWorker.run (AsyncWorker.RangeSearch (RangeSearchWorker.mk p q radius)) s
         = (Ret (AsyncWorker.Reject ("FAISS error: Failed to range search: " +:+ msg)), s') /\
         heap s' = heap s)
  | inl msg =>
      exists s',
        AsyncWorker.run (AsyncWorker.RangeSearch (RangeSearchWorker.mk p q radius)) s
        = (Ret (AsyncWorker.Reject ("FAISS error: Failed to range search: " +:+ msg)), s') /\
        heap s' = heap s
  end.
Proof.
  intros Hp Hh Hr Hn Hq0.
  set (s2 := logged [Acquire p; Release p; Acquire p; Backend p "ntotal"; Release p] s).
  assert (Hp2 : heap s2 !! p = Some (FaissIndexWrapper.mk (Some i) wdims false)) by exact Hp.
  assert (Hh2 : held s2 = []) by exact Hh.
  pose proof (RangeSearchWorker_Execute_steps s p i wdims q radius Hp Hh Hn Hq0) as He.
  fold s2 in He.
  destruct (Faiss.range_search 1 q radius i) as [msg|[[rlims rd] rl]] eqn:Hs.
  - rewrite (RangeSearch_fails s2 p i wdims q radius msg Hp2 Hh2 Hr Hn Hs) in He.
    eexists. cbn [AsyncWorker.run]. rewrite (bind_run_ret _ _ _ _ _ He).
    split; reflexivity.
  - intros total. split.
    + intros Htotal.
      rewrite (RangeSearch_run s2 p i wdims q radius rlims rd rl Hp2 Hh2 Hr Hn Hs
                 (proj2 Htotal)) in He.
      fold total in He.
      eexists _, _, _. cbn [AsyncWorker.run]. rewrite (bind_run_ret _ _ _ _ _ He).
      unfold ret. cbn [AsyncWorker.settle RangeSearchWorker.OnOK map]. unfold to_uint32.
      rewrite Z.mod_0_l by lia.
      split; [reflexivity|].
      rewrite !blit_length, !repeat_length, Z2Nat.id by lia.
      repeat split; reflexivity.
    + intros Hbig.
      rewrite (RangeSearch_too_large s2 p i wdims q radius rlims rd rl Hp2 Hh2 Hr Hn Hs Hbig)
        in He.
      exists "vector::_M_default_append". eexists.
      cbn [AsyncWorker.run]. rewrite (bind_run_ret _ _ _ _ _ He).
      split; reflexivity.
Qed.

End BatchAndRange.

(* ================================================================== *)
(** * The labels a caller receives *)


Section Labels.
Context {I : Type} {faiss : Faiss.Index I}.
Implicit Types (s : World (FaissIndexWrapper.t I)) (p : Z).


End Labels.

(* ================================================================== *)
(** * What every entry point leaves as it found it *)

Section Closure.
Context {Obj : Type}.

Lemma preserves_ret {A X} (f : World Obj -> X) (a : A) : preserves f (ret a).
Proof. intros s. reflexivity. Qed.

Lemma preserves_throw {A X} (f : World Obj -> X) (e : exn) : preserves f (@throw Obj A e).
Proof. intros s. reflexivity. Qed.

Lemma preserves_fault {A X} (f : World Obj -> X) : preserves f (@fault Obj A).
Proof. intros s. exact I. Qed.

Lemma preserves_bind {A B X} (f : World Obj -> X) (m : M Obj A) (k : A -> M Obj B) :
  preserves f m -> (forall a, preserves f (k a)) -> preserves f (bind m k).
Proof.
  intros Hm Hk s. unfold bind. specialize (Hm s).
  destruct (m s) as [[a|e|] s1]; [|exact Hm|exact I].
  specialize (Hk a s1). destruct (k a s1) as [[b|e|] s2]; [| |exact I]; congruence.
Qed.

Lemma preserves_try_catch {A X} (f : World Obj -> X) (body : M Obj A) handler :
  preserves f body -> (forall e, preserves f (handler e)) ->
  preserves f (try_catch body handler).
Proof.
  intros Hb Hh s. unfold try_catch. specialize (Hb s).
  destruct (body s) as [[a|e|] s1]; [exact Hb| |exact I].
  specialize (Hh e s1). destruct (handler e s1) as [[b|e'|] s2]; [| |exact I]; congruence.
Qed.

(** A [lock_guard] leaves unchanged whatever its body leaves unchanged
    and the two mutex operations do not touch. *)
Lemma preserves_lock_guard {A X} (f : World Obj -> X) p (body : M Obj A) :
  (forall q s, f (locked q s) = f s) -> (forall q s, f (unlocked q s) = f s) ->
  preserves f body -> preserves f (lock_guard p body).
Proof.
  intros Hl Hu Hb s. unfold lock_guard, lock.
  destruct (heap s !! p); [|exact I]. destruct (holds p (held s)); [exact I|].
  fold (locked p s). specialize (Hb (locked p s)).
  destruct (body (locked p s)) as [[a|e|] s2]; [| |exact I];
    fold (unlocked p s2); rewrite Hu, Hb, Hl; reflexivity.
Qed.

(** The mutexes held: the guard takes one and gives it back on every way
    out of its scope. *)
Lemma held_lock_guard {A} p (body : M Obj A) :
  preserves held body -> preserves held (lock_guard p body).
Proof.
  intros Hb s. unfold lock_guard, lock.
  destruct (heap s !! p); [|exact I]. destruct (holds p (held s)) eqn:Hh; [exact I|].
  fold (locked p s). specialize (Hb (locked p s)).
  destruct (body (locked p s)) as [[a|e|] s2]; [| |exact I];
    unfold unlock; cbn [snd held]; rewrite Hb; unfold locked; cbn [held];
    apply filter_released; exact Hh.
Qed.

Lemma noexcept_ret {A} (a : A) : noexcept (@ret Obj A a).
Proof. intros s. exact I. Qed.

Lemma noexcept_fault {A} : noexcept (@fault Obj A).
Proof. intros s. exact I. Qed.

Lemma noexcept_bind {A B} (m : M Obj A) (k : A -> M Obj B) :
  noexcept m -> (forall a, noexcept (k a)) -> noexcept (bind m k).
Proof.
  intros Hm Hk s. unfold bind. specialize (Hm s).
  destruct (m s) as [[a|e|] s1]; [|exact Hm|exact I]. apply Hk.
Qed.

(** A [catch] whose handler does not throw lets nothing through. *)
Lemma noexcept_try_catch {A} (body : M Obj A) handler :
  (forall e, noexcept (handler e)) -> noexcept (try_catch body handler).
Proof.
  intros Hh s. unfold try_catch.
  destruct (body s) as [[a|e|] s1]; [exact I| |exact I]. apply Hh.
Qed.

Lemma noexcept_lock_guard {A} p (body : M Obj A) :
  noexcept body -> noexcept (lock_guard p body).
Proof.
  intros Hb s. unfold lock_guard, lock.
  destruct (heap s !! p); [|exact I]. destruct (holds p (held s)); [exact I|].
  fold (locked p s). specialize (Hb (locked p s)).
  destruct (body (locked p s)) as [[a|e|] s2]; [exact I|exact Hb|exact I].
Qed.

Lemma noexcept_load p : noexcept (@load Obj p).
Proof. intros s. unfold load. destruct (heap s !! p); exact I. Qed.

Lemma noexcept_store p o : noexcept (@store Obj p o).
Proof. intros s. unfold store. destruct (heap s !! p); exact I. Qed.

Lemma noexcept_emit ev : noexcept (@emit Obj ev).
Proof. intros s. exact I. Qed.

Lemma noexcept_alloc o : noexcept (@alloc Obj o).
Proof. intros s. exact I. Qed.

Lemma noexcept_free p : noexcept (@free Obj p).
Proof. intros s. unfold free. destruct (heap s !! p); exact I. Qed.

Lemma strong_ret {A} (a : A) : strong_guarantee (@ret Obj A a).
Proof. intros s. exact I. Qed.

Lemma strong_throw {A} (e : exn) : strong_guarantee (@throw Obj A e).
Proof. intros s. reflexivity. Qed.

Lemma strong_fault {A} : strong_guarantee (@fault Obj A).
Proof. intros s. exact I. Qed.

Lemma strong_noexcept {A} (m : M Obj A) : noexcept m -> strong_guarantee m.
Proof. intros Hm s. specialize (Hm s). destruct (m s) as [[a|e|] s1]; tauto. Qed.

Lemma strong_bind_ret {A B} (a : A) (k : A -> M Obj B) :
  strong_guarantee (k a) -> strong_guarantee (bind (ret a) k).
Proof. intros Hk s. exact (Hk s). Qed.

Lemma strong_bind_throw {A B} (e : exn) (k : A -> M Obj B) :
  strong_guarantee (bind (throw e) k).
Proof. intros s. reflexivity. Qed.

Lemma strong_try_catch {A} (body : M Obj A) handler :
  strong_guarantee body -> (forall e, strong_guarantee (handler e)) ->
  strong_guarantee (try_catch body handler).
Proof.
  intros Hb Hh s. unfold try_catch. specialize (Hb s).
  destruct (body s) as [[a|e|] s1]; [exact I| |exact I]. subst s1. apply Hh.
Qed.

Lemma noexcept_napi {A} (m : M Obj A) : noexcept m -> throws_napi_only m.
Proof. intros Hm s. specialize (Hm s). destruct (m s) as [[a|e|] s1]; tauto. Qed.

(** The two [catch] clauses at the end of every bound method. *)
Lemma guarded_napi {A} (body : M Obj A) : throws_napi_only (Napi.guarded body).
Proof.
  intros s. unfold Napi.guarded, try_catch.
  destruct (body s) as [[a|e|] s1]; [exact I| |exact I].
  destruct (is_napi e) eqn:He; [exact He|reflexivity].
Qed.

End Closure.

(** The same for the absence of undefined behaviour. *)
Section Settling.
Context {I : Type} {faiss : Faiss.Index I}.
Implicit Types (ps hs : list Z).










End Settling.

Create HintDb entry_points.

#[local] Hint Unfold
  FaissIndexWrapper.deref FaissIndexWrapper.rethrow FaissIndexWrapper.make_unique
  FaissIndexWrapper.make_unique_flat FaissIndexWrapper.IsDisposed FaissIndexWrapper.Dispose
  FaissIndexWrapper.destroy FaissIndexWrapper.Add FaissIndexWrapper.Search
  FaissIndexWrapper.SearchBatch FaissIndexWrapper.GetTotalVectors
  FaissIndexWrapper.GetDimensions FaissIndexWrapper.Train FaissIndexWrapper.SetNprobe
  FaissIndexWrapper.IsTrained FaissIndexWrapper.Save FaissIndexWrapper.adopt
  FaissIndexWrapper.Load FaissIndexWrapper.ToBuffer FaissIndexWrapper.FromBuffer
  FaissIndexWrapper.MergeFrom FaissIndexWrapper.Reset FaissIndexWrapper.RangeSearch
  AddWorker.Execute TrainWorker.Execute SearchWorker.Execute RangeSearchWorker.Execute
  SearchBatchWorker.Execute SaveWorker.Execute ToBufferWorker.Execute
  MergeFromWorker.Execute SearchWorker.new RangeSearchWorker.new SearchBatchWorker.new
  AsyncWorker.run Napi.TypeError Napi.RangeError Napi.Error Napi.guarded
  FaissIndexWrapperJS.Unwrap FaissIndexWrapperJS.get FaissIndexWrapperJS.ValidateNotDisposed
  FaissIndexWrapperJS.describe FaissIndexWrapperJS.construct FaissIndexWrapperJS.destroy
  FaissIndexWrapperJS.Add FaissIndexWrapperJS.Train FaissIndexWrapperJS.SetNprobe
  FaissIndexWrapperJS.Search FaissIndexWrapperJS.SearchBatch FaissIndexWrapperJS.RangeSearch
  FaissIndexWrapperJS.GetStats FaissIndexWrapperJS.Dispose FaissIndexWrapperJS.Reset
  FaissIndexWrapperJS.Save FaissIndexWrapperJS.ToBuffer FaissIndexWrapperJS.MergeFrom
  FaissIndexWrapperJS.wrap_loaded FaissIndexWrapperJS.Load FaissIndexWrapperJS.FromBuffer
  FaissIndexWrapperJS.call resize : entry_points.

(** One of the operations on the store: it is run on an arbitrary store
    and the part in question compared before and after. *)
Ltac primitive :=
  lazymatch goal with
  | |- preserves _ (emit _) => idtac
  | |- preserves _ (load _) => idtac
  | |- preserves _ (store _ _) => idtac
  | |- preserves _ (alloc _) => idtac
  | |- preserves _ (free _) => idtac
  | |- preserves _ (read_file _) => idtac
  | |- preserves _ (write_file _ _) => idtac
  end;
  let s := fresh "s" in
  intros s; unfold emit, load, store, alloc, free, read_file, write_file;
  try match goal with |- context [heap s !! ?p] => destruct (heap s !! p) end;
  cbn; first [reflexivity | exact I].

(** The code of an entry point is walked down to the operations on the
    store; [scoped] is the rule for a [lock_guard]. *)
Ltac walk scoped :=
  autounfold with entry_points;
  repeat lazymatch goal with
    | |- preserves _ (ret _) => apply preserves_ret
    | |- preserves _ (throw _) => apply preserves_throw
    | |- preserves _ fault => apply preserves_fault
    | |- preserves _ (bind _ _) => apply preserves_bind; [|intros ?]
    | |- preserves _ (try_catch _ _) => apply preserves_try_catch; [|intros ?]
    | |- preserves _ (lock_guard _ _) => scoped
    | |- preserves _ (match ?x with _ => _ end) => destruct x
    | |- preserves _ _ => primitive
    end.

(** The same walk for [noexcept]. *)
Ltac walk_noexcept :=
  autounfold with entry_points;
  repeat lazymatch goal with
    | |- noexcept (ret _) => apply noexcept_ret
    | |- noexcept fault => apply noexcept_fault
    | |- noexcept (bind _ _) => apply noexcept_bind; [|intros ?]
    | |- noexcept (try_catch _ _) => apply noexcept_try_catch; intros ?
    | |- noexcept (lock_guard _ _) => apply noexcept_lock_guard
    | |- noexcept (load _) => apply noexcept_load
    | |- noexcept (store _ _) => apply noexcept_store
    | |- noexcept (emit _) => apply noexcept_emit
    | |- noexcept (alloc _) => apply noexcept_alloc
    | |- noexcept (free _) => apply noexcept_free
    | |- noexcept (match ?x with _ => _ end) => destruct x
    end.

(** The walk for the strong guarantee: up to the first change of the
    store, after which nothing may throw. *)
Ltac walk_strong :=
  repeat lazymatch goal with
    | |- strong_guarantee (ret _) => apply strong_ret
    | |- strong_guarantee (throw _) => apply strong_throw
    | |- strong_guarantee fault => apply strong_fault
    | |- strong_guarantee (try_catch _ _) => apply strong_try_catch; [|intros ?]
    | |- strong_guarantee (bind (ret _) _) => apply strong_bind_ret; cbv beta
    | |- strong_guarantee (bind (throw _) _) => apply strong_bind_throw
    | |- strong_guarantee (bind (match ?x with _ => _ end) _) => destruct x
    | |- strong_guarantee (match ?x with _ => _ end) => destruct x
    end.

Ltac walk_held := walk ltac:(apply held_lock_guard).
Ltac walk_other :=
  walk ltac:(apply preserves_lock_guard; [reflexivity|reflexivity|]).



Section Invariants.
Context {I : Type} {faiss : Faiss.Index I}.
Implicit Types (this : FaissIndexWrapperJS.t) (info : list Napi.Value).

(** [SetNprobe] does not throw on a live wrapper. *)
Lemma SetNprobe_on_live (s : World (FaissIndexWrapper.t I)) p i wdims nprobe :
  heap s !! p = Some (FaissIndexWrapper.mk (Some i) wdims false) ->
  match FaissIndexWrapper.SetNprobe p nprobe s with
  | (Throw _, _) => False
  | _ => True
  end.
Proof.
  intros Hp. unfold FaissIndexWrapper.SetNprobe, lock_guard, lock. rewrite Hp.
  destruct (holds p (held s)); [exact Logic.I|].
  unfold bind, load, emit, store, ret, FaissIndexWrapper.deref. cbn. rewrite Hp. cbn.
  destruct (Faiss.is_ivf i); cbn; [rewrite Hp|]; exact Logic.I.
Qed.

(** No entry point returns or throws with a mutex still taken: every
    bound method, the constructor, the destructor, the two static loaders
    and every worker leave the set of held mutexes as they found it. *)
Theorem every_lock_is_released this info :
  (forall m, preserves held (FaissIndexWrapperJS.call m this info)) /\
  (forall w : AsyncWorker.t, preserves held (AsyncWorker.run (I := I) w)) /\
  preserves held (FaissIndexWrapperJS.construct (I := I) info) /\
  preserves held (FaissIndexWrapperJS.destroy (I := I) this) /\
  preserves held (FaissIndexWrapperJS.Load (I := I) info) /\
  preserves held (FaissIndexWrapperJS.FromBuffer (I := I) info).
Proof.
  repeat split; intros; walk_held.
Qed.



(** Whatever goes wrong in a bound method, the constructor or a static
    loader, JavaScript sees an exception of a class derived from
    [Napi::Error], never a C++ exception of another class; [dispose], which
    has no [catch], throws nothing at all. *)
Theorem only_napi_errors_reach_javascript this info :
  (forall m, throws_napi_only (FaissIndexWrapperJS.call m this info)) /\
  noexcept (FaissIndexWrapperJS.Dispose (I := I) this info) /\
  throws_napi_only (FaissIndexWrapperJS.construct (I := I) info) /\
  throws_napi_only (FaissIndexWrapperJS.Load (I := I) info) /\
  throws_napi_only (FaissIndexWrapperJS.FromBuffer (I := I) info).
Proof.
  assert (Hd : noexcept (FaissIndexWrapperJS.Dispose (I := I) this info)) by walk_noexcept.
  repeat split; try apply guarded_napi; try exact Hd.
  intros m. destruct m; cbn [FaissIndexWrapperJS.call];
    first [apply guarded_napi | apply noexcept_napi, Hd].
Qed.

(** The file system is written by the [save] worker and by nothing else:
    no bound method, no other worker, neither the constructor nor the
    destructor, and neither loader changes a file. *)
Theorem only_the_save_worker_writes_files this info :
  (forall m, preserves files (FaissIndexWrapperJS.call m this info)) /\
  (forall w : AsyncWorker.t,
     match w with
     | AsyncWorker.Save _ => True
     | _ => preserves files (AsyncWorker.run (I := I) w)
     end) /\
  preserves files (FaissIndexWrapperJS.construct (I := I) info) /\
  preserves files (FaissIndexWrapperJS.destroy (I := I) this) /\
  preserves files (FaissIndexWrapperJS.Load (I := I) info) /\
  preserves files (FaissIndexWrapperJS.FromBuffer (I := I) info).
Proof.
  repeat split; intros; try (destruct w); try exact Logic.I; walk_other.
Qed.

(** What changes no index.  The bound methods other than [dispose],
    [setNprobe] and [reset] only check their arguments and queue a worker:
    no wrapper and no index changes before the worker runs.  The workers
    of [search], [rangeSearch], [searchBatch], [save] and [toBuffer] leave
    every wrapper and every index as they found them. *)
Theorem queries_change_no_index this info :
  (forall m,
     match m with
     | FaissIndexWrapperJS.dispose | FaissIndexWrapperJS.setNprobe
     | FaissIndexWrapperJS.reset => True
     | _ => preserves heap (FaissIndexWrapperJS.call m this info)
     end) /\
  (forall w : AsyncWorker.t,
     match w with
     | AsyncWorker.Add _ | AsyncWorker.Train _ | AsyncWorker.MergeFrom _ => True
     | _ => preserves heap (AsyncWorker.run (I := I) w)
     end).
Proof.
  split; [intros m; destruct m|intros w; destruct w]; try exact Logic.I; walk_other.
Qed.

(** A constructor that throws has created nothing: the store is as it
    was, whatever the arguments.  Everything that can fail (the checks of
    the configuration, the dimension, the library's factory) comes before
    the wrapper is allocated, and [SetNprobe] on the new wrapper does not
    throw. *)
Theorem constructor_failure_creates_nothing info :
  strong_guarantee (FaissIndexWrapperJS.construct (I := I) info).
Proof.
  unfold FaissIndexWrapperJS.construct, FaissIndexWrapperJS.describe,
    FaissIndexWrapper.make_unique, Napi.guarded, Napi.TypeError, Napi.RangeError, Napi.Error.
  walk_strong.
  all: intros s; unfold bind at 1, alloc; cbn [fst snd].
  all: match goal with
       | |- context [if ?c then _ else _] => destruct c
       end; [|exact Logic.I].
  all: match goal with
       | |- context [match ?v with Napi.Number _ _ => _ | _ => _ end] => destruct v
       end; try exact Logic.I.
  all: unfold bind at 1;
    match goal with
    | |- context [FaissIndexWrapper.SetNprobe ?p ?n ?s1] =>
        pose proof (SetNprobe_on_live s1 p _ _ n (lookup_insert_eq _ _ _)) as Hn;
        destruct (FaissIndexWrapper.SetNprobe p n s1) as [[[]|e|] s2];
        [exact Logic.I|contradiction|exact Logic.I]
    end.
Qed.

End Invariants.
(* ================================================================== *)
(** * The constructor, the destructor, [setNprobe] and [reset] *)

Section Lifecycle.
Context {I : Type} {faiss : Faiss.Index I}.
Implicit Types (s : World (FaissIndexWrapper.t I)) (p : Z) (w : FaissIndexWrapper.t I).

(** The store once the constructor has allocated the wrapper of [i]. *)
Lemma construct_run s props rest dims f desc metric i :
  Napi.lookup "dims" props = Some (Napi.Number dims f) -> 0 < dims ->
  FaissIndexWrapperJS.describe (Napi.Object props) s = (Ret (desc, metric), s) ->
  Faiss.index_factory dims desc metric = inr i -> held s = [] ->
  let made i' :=
    mkWorld (<[next s := FaissIndexWrapper.mk (Some i') dims false]> (heap s))
            (next s + 1) (held s) (trace s) (files s) in
  FaissIndexWrapperJS.construct (Napi.Object props :: rest) s
  = (Ret (FaissIndexWrapperJS.mk (Some (next s)) dims),
     match Napi.lookup "nprobe" props with
     | Some (Napi.Number nprobe _) =>
         if Faiss.is_ivf i then
           logged [Acquire (next s); Backend (next s) "nprobe"; Release (next s)]
             (made (Faiss.set_nprobe (to_size_t nprobe) i))
         else logged [Acquire (next s); Release (next s)] (made i)
     | _ => made i
     end).
Proof.
  intros Hdims Hpos Hdesc Hfac Hh made.
  unfold FaissIndexWrapperJS.construct. apply guarded_run_ret.
  rewrite Length_cons.
  destruct (Z.ltb_spec (Napi.Length rest + 1) 1) as [Hl|_];
    [pose proof (Length_nonneg rest); lia|].
  cbn [Napi.arg nth Napi.IsObject negb].
  unfold Napi.Get at 1, Napi.Has at 1. rewrite Hdims. cbn [from_option id negb].
  destruct (Z.leb_spec dims 0) as [?|_]; [lia|].
  rewrite (bind_run_ret _ _ _ _ _ Hdesc). cbn [fst snd].
  unfold FaissIndexWrapper.make_unique.
  destruct (Z.leb_spec dims 0) as [?|_]; [lia|].
  rewrite Hfac. unfold bind at 1, alloc. fold (made i).
  assert (Hm : heap (made i) !! next s = Some (FaissIndexWrapper.mk (Some i) dims false))
    by apply lookup_insert_eq.
  assert (Hhm : held (made i) = []) by exact Hh.
  unfold Napi.Has, Napi.Get.
  destruct (Napi.lookup "nprobe" props) as [[| nprobe g | | | | | |]|];
    cbn [from_option id Napi.IsNumber andb]; try reflexivity.
  unfold bind at 1. rewrite (SetNprobe_run (made i) (next s) i dims nprobe Hm Hhm).
  unfold ret. f_equal.
  destruct (Faiss.is_ivf i); [|reflexivity].
  unfold logged, with_heap, made. cbn. rewrite insert_insert_eq. reflexivity.
Qed.

(** [new FaissIndex({ dims })], and every configuration whose ["type"] is
    absent or is not a string: the type is not rejected, the library's
    factory is asked for "Flat" with the L2 metric, and the new handle
    owns a live wrapper of that index at a new address. *)
Theorem constructor_defaults_to_flat_L2 s props rest dims f i :
  Napi.lookup "dims" props = Some (Napi.Number dims f) -> 0 < dims ->
  Napi.IsString (default Napi.Undefined (Napi.lookup "type" props)) = false ->
  Napi.lookup "nprobe" props = None ->
  Faiss.index_factory dims "Flat" 1 = inr i -> held s = [] ->
  FaissIndexWrapperJS.construct (Napi.Object props :: rest) s
  = (Ret (FaissIndexWrapperJS.mk (Some (next s)) dims),
     mkWorld (<[next s := FaissIndexWrapper.mk (Some i) dims false]> (heap s))
             (next s + 1) (held s) (trace s) (files s)).
Proof.
  intros Hdims Hpos Htype Hnp Hfac Hh.
  assert (Hdesc : FaissIndexWrapperJS.describe (Napi.Object props) s = (Ret ("Flat", 1), s)).
  { unfold FaissIndexWrapperJS.describe, Napi.Has, Napi.Get. rewrite Htype.
    destruct (Napi.lookup "type" props); reflexivity. }
  rewrite (construct_run s props rest dims f "Flat" 1 i Hdims Hpos Hdesc Hfac Hh), Hnp.
  reflexivity.
Qed.

(** [new FaissIndex({ dims, type: 'IVF_FLAT', nlist, nprobe })]: the
    factory is asked for "IVF<nlist>,Flat" with the L2 metric ("IVF100,Flat"
    when ["nlist"] is not a number), and the index it returns gets
    [nprobe] converted to [size_t].  The constructor does not check that
    [nprobe] is positive, which [setNprobe] does: a negative [nprobe] is
    stored as [2^64 + nprobe]. *)
Theorem constructor_ivf_flat s props rest dims f nprobe g i :
  Napi.lookup "dims" props = Some (Napi.Number dims f) -> 0 < dims ->
  Napi.lookup "type" props = Some (Napi.String "IVF_FLAT") ->
  Napi.lookup "nprobe" props = Some (Napi.Number nprobe g) ->
  let nlist := match Napi.lookup "nlist" props with
               | Some (Napi.Number n _) => n
               | _ => 100
               end in
  Faiss.index_factory dims ("IVF" +:+ to_string nlist +:+ ",Flat") 1 = inr i ->
  Faiss.is_ivf i = true -> held s = [] ->
  FaissIndexWrapperJS.construct (Napi.Object props :: rest) s
  = (Ret (FaissIndexWrapperJS.mk (Some (next s)) dims),
     logged [Acquire (next s); Backend (next s) "nprobe"; Release (next s)]
       (mkWorld (<[next s := FaissIndexWrapper.mk
                                (Some (Faiss.set_nprobe (to_size_t nprobe) i)) dims false]>
                   (heap s))
                (next s + 1) (held s) (trace s) (files s))).
Proof.
  intros Hdims Hpos Htype Hnp nlist Hfac Hivf Hh.
  assert (Hdesc : FaissIndexWrapperJS.describe (Napi.Object props) s
                  = (Ret ("IVF" +:+ to_string nlist +:+ ",Flat", 1), s)).
  { unfold FaissIndexWrapperJS.describe, Napi.Has, Napi.Get. rewrite Htype.
    cbn [from_option id Napi.IsString andb]. subst nlist.
    destruct (Napi.lookup "nlist" props) as [[]|]; reflexivity. }
  rewrite (construct_run s props rest dims f _ 1 i Hdims Hpos Hdesc Hfac Hh), Hnp, Hivf.
  reflexivity.
Qed.

(** [setNprobe(nprobe)] on a live handle.  A value that is not positive is
    refused with a [RangeError] and the wrapper is not asked.  Otherwise the
    call returns [undefined]: on an IVF index the index gets the new
    [nprobe] (converted to [size_t], which leaves a positive [int] as it
    is), on any other index nothing changes and no error is raised. *)
Theorem setNprobe_end_to_end s p i wdims dims nprobe f rest :
  heap s !! p = Some (FaissIndexWrapper.mk (Some i) wdims false) -> held s = [] ->
  FaissIndexWrapperJS.SetNprobe (FaissIndexWrapperJS.mk (Some p) dims)
    (Napi.Number nprobe f :: rest) s
  = if nprobe <=? 0 then
      (Throw (Exn napi_RangeError "nprobe must be positive"), logged [Acquire p; Release p] s)
    else
      (Ret FaissIndexWrapperJS.Undefined,
       if Faiss.is_ivf i then
         logged [Acquire p; Release p; Acquire p; Backend p "nprobe"; Release p]
           (with_heap (<[p := FaissIndexWrapper.mk
                                  (Some (Faiss.set_nprobe (to_size_t nprobe) i)) wdims false]>
                         (heap s)) s)
       else logged [Acquire p; Release p; Acquire p; Release p] s).
Proof.
  intros Hp Hh. pose proof (quiet s p Hh) as Hq.
  set (s1 := logged [Acquire p; Release p] s).
  assert (Hp1 : heap s1 !! p = Some (FaissIndexWrapper.mk (Some i) wdims false)) by exact Hp.
  assert (Hh1 : held s1 = []) by exact Hh.
  unfold FaissIndexWrapperJS.SetNprobe.
  destruct (Z.leb_spec nprobe 0) as [Hle|Hgt].
  - apply guarded_run_throw; [|reflexivity].
    rewrite (validated_continues s p dims _ _ Hp Hq eq_refl).
    rewrite Length_cons.
    destruct (Z.ltb_spec (Napi.Length rest + 1) 1) as [Hl|_];
      [pose proof (Length_nonneg rest); lia|].
    cbn [Napi.arg nth].
    destruct (Z.leb_spec nprobe 0) as [_|?]; [reflexivity|lia].
  - apply guarded_run_ret.
    rewrite (validated_continues s p dims _ _ Hp Hq eq_refl).
    rewrite Length_cons.
    destruct (Z.ltb_spec (Napi.Length rest + 1) 1) as [Hl|_];
      [pose proof (Length_nonneg rest); lia|].
    cbn [Napi.arg nth].
    destruct (Z.leb_spec nprobe 0) as [?|_]; [lia|].
    unfold FaissIndexWrapperJS.get. cbn [FaissIndexWrapperJS.wrapper_].
    unfold bind at 1, ret at 1. fold s1.
    unfold bind at 1. rewrite (SetNprobe_run s1 p i wdims nprobe Hp1 Hh1).
    unfold ret. f_equal.
    destruct (Faiss.is_ivf i); subst s1; unfold logged, with_heap; cbn;
      apply world_ext; cbn; rewrite <- ?app_assoc; reflexivity.
Qed.

(** [reset()] on a live handle: the index becomes what the library's
    [reset] leaves and the call returns [undefined]; the dimension and the
    handle stay.  When the library throws, JavaScript gets an [Error] whose
    message is "FAISS error: Failed to reset index: " and the library's. *)
Theorem reset_end_to_end s p i wdims dims info :
  heap s !! p = Some (FaissIndexWrapper.mk (Some i) wdims false) -> held s = [] ->
  FaissIndexWrapperJS.Reset (FaissIndexWrapperJS.mk (Some p) dims) info s
  = (match fst (Faiss.reset i) with
     | None => Ret FaissIndexWrapperJS.Undefined
     | Some msg => Throw (Exn napi_Error ("FAISS error: Failed to reset index: " +:+ msg))
     end,
     logged [Acquire p; Release p; Acquire p; Backend p "reset"; Release p]
       (with_heap (<[p := FaissIndexWrapper.mk (Some (snd (Faiss.reset i))) wdims false]>
                     (heap s)) s)).
Proof.
  intros Hp Hh. pose proof (quiet s p Hh) as Hq.
  set (s1 := logged [Acquire p; Release p] s).
  assert (Hp1 : heap s1 !! p = Some (FaissIndexWrapper.mk (Some i) wdims false)) by exact Hp.
  assert (Hh1 : held s1 = []) by exact Hh.
  assert (Hs : logged [Acquire p; Backend p "reset"; Release p]
                 (with_heap (<[p := FaissIndexWrapper.mk (Some (snd (Faiss.reset i))) wdims false]>
                               (heap s1)) s1)
               = logged [Acquire p; Release p; Acquire p; Backend p "reset"; Release p]
                   (with_heap (<[p := FaissIndexWrapper.mk (Some (snd (Faiss.reset i))) wdims false]>
                                 (heap s)) s)).
  { subst s1. unfold logged, with_heap. cbn.
    apply world_ext; cbn; rewrite <- ?app_assoc; reflexivity. }
  unfold FaissIndexWrapperJS.Reset, Napi.guarded, try_catch.
  rewrite (validated_continues s p dims _ _ Hp Hq eq_refl).
  unfold FaissIndexWrapperJS.get. cbn [FaissIndexWrapperJS.wrapper_].
  unfold bind at 1, ret at 1. fold s1.
  unfold bind at 1. rewrite (Reset_run s1 p i wdims Hp1 Hh1), Hs.
  destruct (fst (Faiss.reset i)) as [msg|]; reflexivity.
Qed.

(** The destructor of a handle releases its wrapper, whether or not
    [dispose()] was called before: the wrapper is disposed if it was not,
    and then freed; its address is no longer in the store, and no other
    object changes. *)
Theorem destructor_frees_the_wrapper s p w dims :
  heap s !! p = Some w -> held s = [] ->
  exists s',
    FaissIndexWrapperJS.destroy (FaissIndexWrapperJS.mk (Some p) dims) s = (Ret tt, s') /\
    heap s' = delete p (heap s) /\ held s' = [] /\ next s' = next s /\ files s' = files s.
Proof.
  intros Hp Hh. pose proof (quiet s p Hh) as Hq.
  unfold FaissIndexWrapperJS.destroy. cbn [FaissIndexWrapperJS.wrapper_].
  rewrite (bind_run_ret _ _ _ _ _ (IsDisposed_run s p w Hp Hq)).
  set (s1 := logged [Acquire p; Release p] s).
  assert (Hp1 : heap s1 !! p = Some w) by exact Hp.
  assert (Hq1 : holds p (held s1) = false) by exact Hq.
  destruct (FaissIndexWrapper.disposed_ w) eqn:Hd.
  - unfold bind at 1, ret at 1. unfold FaissIndexWrapper.destroy.
    unfold bind at 1, load at 1. rewrite Hp1, Hd.
    unfold bind, ret, free. rewrite Hp1.
    eexists. split; [reflexivity|]. subst s1. unfold logged. cbn.
    repeat split; try reflexivity. exact Hh.
  - unfold bind at 1. rewrite (Dispose_run s1 p w Hp1 Hq1), Hd.
    set (s2 := logged _ _).
    assert (Hp2 : heap s2 !! p
                  = Some (FaissIndexWrapper.mk None (FaissIndexWrapper.dims_ w) true)).
    { subst s2. unfold logged, with_heap. cbn. apply lookup_insert_eq. }
    unfold FaissIndexWrapper.destroy.
    unfold bind at 1, load at 1. rewrite Hp2. cbn [FaissIndexWrapper.disposed_].
    unfold bind, ret, free. rewrite Hp2.
    eexists. split; [reflexivity|]. subst s2 s1. unfold logged, with_heap. cbn.
    rewrite delete_insert_eq. repeat split; try reflexivity. exact Hh.
Qed.

End Lifecycle.
(* ================================================================== *)
(** * Loading and saving *)

Section Loading.
Context {I : Type} {faiss : Faiss.Index I}.
Implicit Types (s : World (FaissIndexWrapper.t I)) (p : Z) (w : FaissIndexWrapper.t I).

Lemma guarded_run_convert {A} (m : M (FaissIndexWrapper.t I) A) s e s' :
  m s = (Throw e, s') -> is_napi e = false ->
  Napi.guarded m s = (Throw (Exn napi_Error ("FAISS error: " +:+ what e)), s').
Proof.
  intros H Hn. unfold Napi.guarded, try_catch. rewrite H, Hn. reflexivity.
Qed.

Lemma to_int32_fits (z : Z) : 0 < z <= INT_MAX -> to_int32 z = z.
Proof. unfold INT_MAX, to_int32. intros. apply wrap_signed_fits. lia. Qed.

(** The end of both loaders.  The handle is made by the constructor, which
    builds a flat index of the loaded dimension in a wrapper of its own;
    that wrapper is destroyed when the loaded one takes its place, so the
    store ends with the objects it had. *)
Lemma wrap_loaded_run s p loaded tmp :
  heap s !! p = Some (FaissIndexWrapper.mk (Some loaded) (Faiss.d loaded) false) ->
  0 < Faiss.d loaded <= INT_MAX ->
  Faiss.index_factory (Faiss.d loaded) "Flat" 1 = inr tmp ->
  held s = [] -> heap s !! next s = None ->
  exists s',
    FaissIndexWrapperJS.wrap_loaded p s
    = (Ret (FaissIndexWrapperJS.Instance (FaissIndexWrapperJS.mk (Some p) (Faiss.d loaded))), s') /\
    heap s' = heap s /\ held s' = [] /\ next s' = next s + 1 /\ files s' = files s.
Proof.
  intros Hp Hd Hfac Hh Hfresh.
  set (dims := Faiss.d loaded) in *.
  pose proof (to_int32_fits dims Hd) as H32.
  unfold FaissIndexWrapperJS.wrap_loaded.
  rewrite (bind_run_ret _ _ _ _ _ (GetDimensions_run s p _ Hp)).
  cbn [FaissIndexWrapper.dims_]. rewrite H32.
  assert (Hc := construct_run s [("dims", Napi.Number dims 0)] [] dims 0 "Flat" 1 tmp
                  eq_refl (proj1 Hd) eq_refl Hfac Hh).
  cbn zeta in Hc. cbn [Napi.lookup String.eqb Ascii.eqb Bool.eqb] in Hc.
  set (s1 := mkWorld _ _ _ _ _) in Hc.
  assert (Htc : forall h, try_catch (FaissIndexWrapperJS.construct
                                       [Napi.Object [("dims", Napi.Number dims 0)]]) h s
                          = (Ret (FaissIndexWrapperJS.mk (Some (next s)) dims), s1)).
  { intros h. unfold try_catch. rewrite Hc. reflexivity. }
  rewrite (bind_run_ret _ _ _ _ _ (Htc _)). cbn [FaissIndexWrapperJS.wrapper_].
  assert (Hp1 : heap s1 !! next s = Some (FaissIndexWrapper.mk (Some tmp) dims false))
    by apply lookup_insert_eq.
  assert (Hq1 : holds (next s) (held s1) = false) by (apply quiet; exact Hh).
  unfold FaissIndexWrapper.destroy.
  unfold bind at 1. unfold bind at 1, load at 1. rewrite Hp1.
  cbn [FaissIndexWrapper.disposed_].
  unfold bind at 1. rewrite (Dispose_run s1 (next s) _ Hp1 Hq1).
  cbn [FaissIndexWrapper.disposed_ FaissIndexWrapper.dims_].
  unfold free, ret, logged, with_heap. cbn. rewrite lookup_insert_eq.
  eexists. split; [reflexivity|]. cbn.
  rewrite delete_insert_eq, delete_insert_id by exact Hfresh.
  repeat split; try reflexivity. exact Hh.
Qed.

(** [FaissIndex.fromBuffer(buffer)] on a buffer the library reads back:
    the call returns a handle on a new live wrapper that owns the index
    read, with the dimension of that index.  Two flat indexes of that
    dimension are built on the way and dropped; the store ends with one
    object more, and two addresses are used. *)
Theorem fromBuffer_end_to_end s data loaded tmp rest :
  data <> [] -> Faiss.read_index data = inr loaded -> 0 < Faiss.d loaded <= INT_MAX ->
  Faiss.index_factory (Faiss.d loaded) "Flat" 1 = inr tmp ->
  held s = [] -> heap s !! (next s + 1) = None ->
  exists s',
    FaissIndexWrapperJS.FromBuffer (Napi.Buffer data :: rest) s
    = (Ret (FaissIndexWrapperJS.Instance
              (FaissIndexWrapperJS.mk (Some (next s)) (Faiss.d loaded))), s') /\
    heap s' = <[next s := FaissIndexWrapper.mk (Some loaded) (Faiss.d loaded) false]> (heap s) /\
    held s' = [] /\ next s' = next s + 2 /\ files s' = files s.
Proof.
  intros Hne Hr Hd Hfac Hh Hfresh.
  assert (Hv : vector_data data = Some data) by (destruct data; [contradiction|reflexivity]).
  pose proof (FromBuffer_run s data loaded tmp Hne Hr (proj1 Hd) Hfac) as Hfrom.
  rewrite Hv in Hfrom. set (s1 := mkWorld _ _ _ _ _) in Hfrom.
  assert (Hp1 : heap s1 !! next s
                = Some (FaissIndexWrapper.mk (Some loaded) (Faiss.d loaded) false))
    by apply lookup_insert_eq.
  assert (Hf1 : heap s1 !! next s1 = None).
  { subst s1. cbn. rewrite lookup_insert_ne by lia. exact Hfresh. }
  destruct (wrap_loaded_run s1 (next s) loaded tmp Hp1 Hd Hfac Hh Hf1)
    as (s' & Hrun & Hheap & Hheld & Hnext & Hfiles).
  exists s'. split.
  - unfold FaissIndexWrapperJS.FromBuffer. apply guarded_run_ret.
    rewrite Length_cons.
    destruct (Z.ltb_spec (Napi.Length rest + 1) 1) as [Hl|_];
      [pose proof (Length_nonneg rest); lia|].
    cbn [Napi.arg nth Napi.IsBuffer negb Napi.buffer_data]. cbv zeta.
    rewrite (bind_run_ret _ _ _ _ _ Hfrom). exact Hrun.
  - rewrite Hheap, Hheld, Hnext, Hfiles. subst s1. cbn.
    repeat split; try reflexivity; try exact Hh. lia.
Qed.

(** What [FaissIndex.fromBuffer] refuses, and with which error; in
    each case the store is as before the call.  An argument for which
    [IsBuffer()] does not hold is a [TypeError]; that test lets every typed
    array through, so an empty [Float32Array] or [Uint8Array] is refused
    like an empty [Buffer], with "Invalid buffer data", and a non-empty one
    is read as the bytes it views.  A buffer the library cannot read is
    "Failed to deserialize index: " and the library's message.  A buffer
    the library reads is still refused when the index read has no positive
    dimension, or when the library's factory cannot build the flat index
    of that dimension that the wrapper's constructor asks for before the
    loaded index replaces it. *)
Theorem fromBuffer_failures s rest :
  FaissIndexWrapperJS.FromBuffer [] s
  = (Throw (Exn napi_TypeError "Expected 1 argument: buffer (Buffer)"), s) /\
  (forall v, Napi.IsBuffer v = false ->
     FaissIndexWrapperJS.FromBuffer (v :: rest) s
     = (Throw (Exn napi_TypeError "Expected Buffer"), s)) /\
  (forall v, Napi.IsBuffer v = true -> Napi.buffer_data v = [] ->
     FaissIndexWrapperJS.FromBuffer (v :: rest) s
     = (Throw (Exn napi_Error "FAISS error: Invalid buffer data"), s)) /\
  (forall v msg, Napi.IsBuffer v = true -> Napi.buffer_data v <> [] ->
     Faiss.read_index (Napi.buffer_data v) = inl msg ->
     FaissIndexWrapperJS.FromBuffer (v :: rest) s
     = (Throw (Exn napi_Error ("FAISS error: Failed to deserialize index: " +:+ msg)), s)) /\
  (forall v loaded, Napi.IsBuffer v = true -> Napi.buffer_data v <> [] ->
     Faiss.read_index (Napi.buffer_data v) = inr loaded -> Faiss.d loaded <= 0 ->
     FaissIndexWrapperJS.FromBuffer (v :: rest) s
     = (Throw (Exn napi_Error
                 "FAISS error: Failed to deserialize index: Dimensions must be positive"), s)) /\
  (forall v loaded msg, Napi.IsBuffer v = true -> Napi.buffer_data v <> [] ->
     Faiss.read_index (Napi.buffer_data v) = inr loaded ->
     0 < Faiss.d loaded -> Faiss.index_factory (Faiss.d loaded) "Flat" 1 = inl msg ->
     FaissIndexWrapperJS.FromBuffer (v :: rest) s
     = (Throw (Exn napi_Error ("FAISS error: Failed to deserialize index: " +:+ msg)), s)) /\
  (forall v, In v [Napi.Buffer []; Napi.Float32Array []; Napi.TypedArray []] ->
     FaissIndexWrapperJS.FromBuffer (v :: rest) s
     = (Throw (Exn napi_Error "FAISS error: Invalid buffer data"), s)).
Proof.
  assert (Hlen : forall v, (Napi.Length (v :: rest) <? 1) = false).
  { intros v. rewrite Length_cons.
    destruct (Z.ltb_spec (Napi.Length rest + 1) 1) as [Hl|_];
      [pose proof (Length_nonneg rest); lia|reflexivity]. }
  assert (Hfull : forall data : list Byte.byte, data <> [] ->
            (Z.of_nat (length data) =? 0) = false /\
            firstn (Z.to_nat (Z.of_nat (length data))) data = data).
  { intros data Hne. split.
    - destruct data; [contradiction|]. apply Z.eqb_neq. cbn [length]. lia.
    - rewrite Nat2Z.id. apply firstn_all. }
  assert (Hstart : forall v e, Napi.IsBuffer v = true ->
            FaissIndexWrapper.FromBuffer (Some (Napi.buffer_data v))
              (Z.of_nat (length (Napi.buffer_data v))) s = (Throw e, s) ->
            is_napi e = false ->
            FaissIndexWrapperJS.FromBuffer (v :: rest) s
            = (Throw (Exn napi_Error ("FAISS error: " +:+ what e)), s)).
  { intros v e Hv Hrun He. unfold FaissIndexWrapperJS.FromBuffer.
    apply (guarded_run_convert _ s e s); [|exact He].
    rewrite Hlen. cbn [Napi.arg nth]. rewrite Hv. cbn [negb]. cbv zeta.
    apply bind_run_throw. exact Hrun. }
  split; [reflexivity|]. split.
  { intros v Hv. unfold FaissIndexWrapperJS.FromBuffer.
    apply guarded_run_throw; [|reflexivity]. rewrite Hlen. cbn [Napi.arg nth].
    rewrite Hv. reflexivity. }
  split.
  { intros v Hv Hd.
    apply (Hstart v (Exn std_invalid_argument "Invalid buffer data") Hv); [|reflexivity].
    rewrite Hd. reflexivity. }
  split.
  { intros v msg Hv Hne Hr. destruct (Hfull _ Hne) as [Hz Hall].
    apply (Hstart v (Exn std_runtime_error ("Failed to deserialize index: " +:+ msg)) Hv);
      [|reflexivity].
    unfold FaissIndexWrapper.FromBuffer. rewrite Hz, Hall, Hr. reflexivity. }
  split.
  { intros v loaded Hv Hne Hr Hd. destruct (Hfull _ Hne) as [Hz Hall].
    apply (Hstart v (Exn std_runtime_error
                       "Failed to deserialize index: Dimensions must be positive") Hv);
      [|reflexivity].
    unfold FaissIndexWrapper.FromBuffer. rewrite Hz, Hall, Hr.
    unfold try_catch, FaissIndexWrapper.adopt, FaissIndexWrapper.make_unique_flat,
      FaissIndexWrapper.make_unique, bind.
    destruct (Z.leb_spec (Faiss.d loaded) 0) as [_|?]; [reflexivity|lia]. }
  split.
  { intros v loaded msg Hv Hne Hr Hd Hfac. destruct (Hfull _ Hne) as [Hz Hall].
    apply (Hstart v (Exn std_runtime_error ("Failed to deserialize index: " +:+ msg)) Hv);
      [|reflexivity].
    unfold FaissIndexWrapper.FromBuffer. rewrite Hz, Hall, Hr.
    unfold try_catch, FaissIndexWrapper.adopt, FaissIndexWrapper.make_unique_flat,
      FaissIndexWrapper.make_unique, bind.
    destruct (Z.leb_spec (Faiss.d loaded) 0) as [?|_]; [lia|]. rewrite Hfac. reflexivity. }
  intros v Hin.
  assert (Hv : Napi.IsBuffer v = true /\ Napi.buffer_data v = []).
  { cbn [In] in Hin. destruct Hin as [<-|[<-|[<-|[]]]]; split; reflexivity. }
  apply (Hstart v (Exn std_invalid_argument "Invalid buffer data") (proj1 Hv)); [|reflexivity].
  rewrite (proj2 Hv). reflexivity.
Qed.

Lemma Save_run s p i wdims filename bytes :
  heap s !! p = Some (FaissIndexWrapper.mk (Some i) wdims false) -> held s = [] ->
  filename <> "" -> Faiss.write_index_file i filename = (None, Some bytes) ->
  FaissIndexWrapper.Save p filename s
  = (Ret tt,
     logged [Acquire p; Backend p "write_index"; Release p]
       (mkWorld (heap s) (next s) (held s) (trace s) (<[filename := bytes]> (files s)))).
Proof.
  intros Hp Hh Hn Hw. pose proof (quiet s p Hh) as Hq.
  unfold FaissIndexWrapper.Save. enter Hp Hq. cbn.
  destruct (String.eqb_spec filename "") as [?|_]; [contradiction|].
  unfold try_catch, bind, emit, write_file, FaissIndexWrapper.rethrow. cbn. rewrite Hw.
  same_world Hh.
Qed.

(** The library's write throws: the exception is thrown again as "Failed
    to save index: " and its message, and the file holds what the library
    left in it. *)
Lemma Save_fails s p i wdims filename msg written :
  heap s !! p = Some (FaissIndexWrapper.mk (Some i) wdims false) -> held s = [] ->
  filename <> "" -> Faiss.write_index_file i filename = (Some msg, written) ->
  FaissIndexWrapper.Save p filename s
  = (Throw (Exn std_runtime_error ("Failed to save index: " +:+ msg)),
     logged [Acquire p; Backend p "write_index"; Release p]
       (mkWorld (heap s) (next s) (held s) (trace s)
                (match written with
                 | Some data => <[filename := data]> (files s)
                 | None => files s
                 end))).
Proof.
  intros Hp Hh Hn Hw. pose proof (quiet s p Hh) as Hq.
  unfold FaissIndexWrapper.Save. enter Hp Hq. cbn.
  destruct (String.eqb_spec filename "") as [?|_]; [contradiction|].
  unfold try_catch, bind, emit, write_file, FaissIndexWrapper.rethrow, throw, ret. cbn.
  rewrite Hw. destruct written as [data|]; cbn; same_world Hh.
Qed.

Lemma Load_run s filename bytes loaded tmp :
  filename <> "" -> files s !! filename = Some bytes ->
  Faiss.read_index bytes = inr loaded -> 0 < Faiss.d loaded ->
  Faiss.index_factory (Faiss.d loaded) "Flat" 1 = inr tmp ->
  FaissIndexWrapper.Load filename s
  = (Ret (next s),
     mkWorld (<[next s := FaissIndexWrapper.mk (Some loaded) (Faiss.d loaded) false]> (heap s))
             (next s + 1) (held s) (trace s) (files s)).
Proof.
  intros Hn Hf Hr Hd Hfac. unfold FaissIndexWrapper.Load.
  destruct (String.eqb_spec filename "") as [?|_]; [contradiction|].
  unfold try_catch, bind, read_file. rewrite Hf, Hr.
  unfold FaissIndexWrapper.adopt, FaissIndexWrapper.make_unique_flat,
    FaissIndexWrapper.make_unique.
  destruct (Z.leb_spec (Faiss.d loaded) 0) as [?|_]; [lia|].
  rewrite Hfac. unfold bind, alloc, load, store, ret. cbn.
  rewrite lookup_insert_eq. cbn. rewrite insert_insert_eq, lookup_insert_eq.
  reflexivity.
Qed.

(** [save(filename)] and then [FaissIndex.load(filename)], when the
    library's write to that file succeeds and leaves [bytes] in it.  The
    worker of [save] resolves with [undefined], the file holds [bytes] and
    every index is as it was; [load] then returns a handle on a new live
    wrapper that owns the index the library reads back from those bytes.
    The saved handle is not changed by either. *)
Theorem save_then_load s p i wdims filename bytes loaded tmp rest :
  heap s !! p = Some (FaissIndexWrapper.mk (Some i) wdims false) -> held s = [] ->
  filename <> "" -> Faiss.write_index_file i filename = (None, Some bytes) ->
  Faiss.read_index bytes = inr loaded -> 0 < Faiss.d loaded <= INT_MAX ->
  Faiss.index_factory (Faiss.d loaded) "Flat" 1 = inr tmp ->
  heap s !! next s = None -> heap s !! (next s + 1) = None ->
  exists s1 s2,
    AsyncWorker.run (AsyncWorker.Save (SaveWorker.mk p filename)) s
    = (Ret (AsyncWorker.Resolve Js.Undefined), s1) /\
    files s1 = <[filename := bytes]> (files s) /\ heap s1 = heap s /\
    FaissIndexWrapperJS.Load (Napi.String filename :: rest) s1
    = (Ret (FaissIndexWrapperJS.Instance
              (FaissIndexWrapperJS.mk (Some (next s)) (Faiss.d loaded))), s2) /\
    heap s2 = <[next s := FaissIndexWrapper.mk (Some loaded) (Faiss.d loaded) false]> (heap s) /\
    heap s2 !! p = Some (FaissIndexWrapper.mk (Some i) wdims false) /\
    files s2 = files s1 /\ held s2 = [].
Proof.
  intros Hp Hh Hn Hw Hr Hd Hfac Hfresh Hfresh1.
  pose proof (quiet s p Hh) as Hq.
  set (s0 := logged [Acquire p; Release p] s).
  assert (Hp0 : heap s0 !! p = Some (FaissIndexWrapper.mk (Some i) wdims false)) by exact Hp.
  assert (Hh0 : held s0 = []) by exact Hh.
  pose proof (Save_run s0 p i wdims filename bytes Hp0 Hh0 Hn Hw) as Hsave.
  set (s1 := logged _ _) in Hsave.
  assert (Hf1 : files s1 !! filename = Some bytes) by apply lookup_insert_eq.
  pose proof (Load_run s1 filename bytes loaded tmp Hn Hf1 Hr (proj1 Hd) Hfac) as Hload.
  set (s1' := mkWorld _ _ _ _ _) in Hload.
  assert (Hp1 : heap s1' !! next s
                = Some (FaissIndexWrapper.mk (Some loaded) (Faiss.d loaded) false))
    by apply lookup_insert_eq.
  assert (Hfr : heap s1' !! next s1' = None).
  { subst s1'. cbn. rewrite lookup_insert_ne by lia. exact Hfresh1. }
  assert (Hh1 : held s1' = []) by exact Hh.
  destruct (wrap_loaded_run s1' (next s) loaded tmp Hp1 Hd Hfac Hh1 Hfr)
    as (s2 & Hrun & Hheap & Hheld & Hnext & Hfiles).
  exists s1, s2.
  split.
  { cbn [AsyncWorker.run]. unfold bind at 1. unfold SaveWorker.Execute, try_catch.
    cbn [SaveWorker.wrapper_ SaveWorker.filename_].
    rewrite (bind_run_ret _ _ _ _ _ (IsDisposed_run s p _ Hp Hq)).
    cbn [FaissIndexWrapper.disposed_]. fold s0.
    unfold bind at 1. rewrite Hsave. reflexivity. }
  split; [reflexivity|]. split; [reflexivity|].
  split.
  { unfold FaissIndexWrapperJS.Load. apply guarded_run_ret.
    rewrite Length_cons.
    destruct (Z.ltb_spec (Napi.Length rest + 1) 1) as [Hl|_];
      [pose proof (Length_nonneg rest); lia|].
    cbn [Napi.arg nth]. rewrite (bind_run_ret _ _ _ _ _ Hload). exact Hrun. }
  rewrite Hheap, Hfiles, Hheld.
  split; [reflexivity|]. split; [|split; reflexivity].
  subst s1'. cbn. rewrite lookup_insert_ne; [exact Hp|].
  intros Heq. change (next s = p) in Heq. rewrite Heq in Hfresh. congruence.
Qed.

End Loading.
(* ================================================================== *)
(** * What the search calls check before queueing *)

Section SearchGates.
Context {I : Type} {faiss : Faiss.Index I}.
Implicit Types (s : World (FaissIndexWrapper.t I)) (p : Z) (w : FaissIndexWrapper.t I).

(** [search(query, k)] and [searchBatch(queries, k)] on a live handle,
    with arrays of an accepted length: a [k] that is not positive is
    refused with a [RangeError] before anything is queued; any other [k]
    is queued as it is, however large, with a copy of the array cut to the
    wrapper's own dimension.  An empty [queries] array is refused first,
    whatever [k] is. *)
Theorem k_must_be_positive s p w dims k f rest :
  heap s !! p = Some w -> held s = [] -> FaissIndexWrapper.disposed_ w = false ->
  0 < dims <= INT_MAX ->
  let this := FaissIndexWrapperJS.mk (Some p) dims in
  let s1 := logged [Acquire p; Release p] s in
  let refused := Exn napi_RangeError "k must be positive" in
  (forall query, to_int (Z.of_nat (length query)) = dims ->
     FaissIndexWrapperJS.Search this (Napi.Float32Array query :: Napi.Number k f :: rest) s
     = if k <=? 0 then (Throw refused, s1)
       else (Ret (FaissIndexWrapperJS.Promise
                    (AsyncWorker.Search
                       (SearchWorker.mk p
                          (firstn (Z.to_nat (FaissIndexWrapper.dims_ w)) query) k))), s1)) /\
  (forall queries, queries <> [] -> Z.of_nat (length queries) mod dims = 0 ->
     let nq := Z.of_nat (length queries) / dims in
     FaissIndexWrapperJS.SearchBatch this
       (Napi.Float32Array queries :: Napi.Number k f :: rest) s
     = if k <=? 0 then (Throw refused, s1)
       else (Ret (FaissIndexWrapperJS.Promise
                    (AsyncWorker.SearchBatch
                       (SearchBatchWorker.mk p
                          (firstn (Z.to_nat (to_size_t
                                     (nq * to_size_t (FaissIndexWrapper.dims_ w)))) queries)
                          nq k))), s1)) /\
  FaissIndexWrapperJS.SearchBatch this (Napi.Float32Array [] :: Napi.Number k f :: rest) s
  = (Throw (Exn napi_RangeError "Queries array cannot be empty"), s1).
Proof.
  intros Hp Hh Hd Hdims this s1 refused. subst this refused.
  pose proof (quiet s p Hh) as Hq.
  assert (Hsz : to_size_t dims = dims).
  { apply to_size_t_fits. unfold INT_MAX in Hdims. lia. }
  assert (Hlen : forall a b, (Napi.Length (a :: b :: rest) <? 2) = false).
  { intros a b. rewrite !Length_cons.
    destruct (Z.ltb_spec (Napi.Length rest + 1 + 1) 2) as [Hl|_];
      [pose proof (Length_nonneg rest); lia|reflexivity]. }
  assert (Hp1 : heap s1 !! p = Some w) by exact Hp.
  split; [|split].
  - intros query Hm. unfold FaissIndexWrapperJS.Search.
    destruct (Z.leb_spec k 0) as [Hk|Hk].
    + apply guarded_run_throw; [|reflexivity].
      rewrite (validated_continues s p dims w _ Hp Hq Hd). fold s1. rewrite Hlen.
      cbn [Napi.arg nth Napi.IsTypedArray negb FaissIndexWrapperJS.dims_].
      rewrite Hm, Z.eqb_refl. cbn [negb].
      destruct (Z.leb_spec k 0) as [_|?]; [reflexivity|lia].
    + apply guarded_run_ret.
      rewrite (validated_continues s p dims w _ Hp Hq Hd). fold s1. rewrite Hlen.
      cbn [Napi.arg nth Napi.IsTypedArray negb FaissIndexWrapperJS.dims_].
      rewrite Hm, Z.eqb_refl. cbn [negb].
      destruct (Z.leb_spec k 0) as [?|_]; [lia|].
      unfold FaissIndexWrapperJS.get. cbn [FaissIndexWrapperJS.wrapper_].
      unfold bind at 1, ret at 1. unfold SearchWorker.new.
      unfold bind at 1. rewrite (bind_run_ret _ _ _ _ _ (GetDimensions_run s1 p w Hp1)).
      reflexivity.
  - intros queries Hne Hmod nq. unfold FaissIndexWrapperJS.SearchBatch.
    assert (Hz : (Z.of_nat (length queries) =? 0) = false).
    { destruct queries; [contradiction|]. apply Z.eqb_neq. cbn [length]. lia. }
    destruct (Z.leb_spec k 0) as [Hk|Hk].
    + apply guarded_run_throw; [|reflexivity].
      rewrite (validated_continues s p dims w _ Hp Hq Hd). fold s1. rewrite Hlen.
      cbn [Napi.arg nth Napi.IsTypedArray negb FaissIndexWrapperJS.dims_].
      rewrite Hz, Hsz, Hmod.
      destruct (Z.eqb_spec dims 0) as [?|_]; [lia|]. cbn [Z.eqb negb].
      destruct (Z.leb_spec k 0) as [_|?]; [reflexivity|lia].
    + apply guarded_run_ret.
      rewrite (validated_continues s p dims w _ Hp Hq Hd). fold s1. rewrite Hlen.
      cbn [Napi.arg nth Napi.IsTypedArray negb FaissIndexWrapperJS.dims_].
      rewrite Hz, Hsz, Hmod.
      destruct (Z.eqb_spec dims 0) as [?|_]; [lia|]. cbn [Z.eqb negb].
      destruct (Z.leb_spec k 0) as [?|_]; [lia|].
      unfold FaissIndexWrapperJS.get. cbn [FaissIndexWrapperJS.wrapper_].
      unfold bind at 1, ret at 1. unfold SearchBatchWorker.new.
      unfold bind at 1. rewrite (bind_run_ret _ _ _ _ _ (GetDimensions_run s1 p w Hp1)).
      reflexivity.
  - unfold FaissIndexWrapperJS.SearchBatch.
    apply guarded_run_throw; [|reflexivity].
    rewrite (validated_continues s p dims w _ Hp Hq Hd). fold s1. rewrite Hlen.
    reflexivity.
Qed.

(** [rangeSearch(query, radius)] on a live handle, with a query of the
    accepted length: the call is refused with a [RangeError] exactly when
    [radius < 0] holds for the [float] the number converts to.  That
    comparison is false for a NaN and for negative zero, so both are
    queued, like every positive radius. *)
Theorem radius_gate s p w dims query n radius rest :
  heap s !! p = Some w -> held s = [] -> FaissIndexWrapper.disposed_ w = false ->
  to_int (Z.of_nat (length query)) = dims ->
  let s1 := logged [Acquire p; Release p] s in
  FaissIndexWrapperJS.RangeSearch (FaissIndexWrapperJS.mk (Some p) dims)
    (Napi.Float32Array query :: Napi.Number n radius :: rest) s
  = (if f32_lt0 radius then
       (Throw (Exn napi_RangeError "Radius must be non-negative"), s1)
     else
       (Ret (FaissIndexWrapperJS.Promise
               (AsyncWorker.RangeSearch
                  (RangeSearchWorker.mk p
                     (firstn (Z.to_nat (FaissIndexWrapper.dims_ w)) query) radius))), s1)) /\
  (f32_is_nan radius = true -> f32_lt0 radius = false) /\
  (f32_is_zero radius = true -> f32_lt0 radius = false).
Proof.
  intros Hp Hh Hd Hm s1. pose proof (quiet s p Hh) as Hq.
  assert (Hp1 : heap s1 !! p = Some w) by exact Hp.
  split; [|split].
  - unfold FaissIndexWrapperJS.RangeSearch.
    assert (Hlen : (Napi.Length (Napi.Float32Array query :: Napi.Number n radius :: rest) <? 2)
                   = false).
    { rewrite !Length_cons.
      destruct (Z.ltb_spec (Napi.Length rest + 1 + 1) 2) as [Hl|_];
        [pose proof (Length_nonneg rest); lia|reflexivity]. }
    destruct (f32_lt0 radius) eqn:Hr.
    + apply guarded_run_throw; [|reflexivity].
      rewrite (validated_continues s p dims w _ Hp Hq Hd). fold s1. rewrite Hlen.
      cbn [Napi.arg nth Napi.IsTypedArray negb FaissIndexWrapperJS.dims_].
      rewrite Hm, Z.eqb_refl, Hr. reflexivity.
    + apply guarded_run_ret.
      rewrite (validated_continues s p dims w _ Hp Hq Hd). fold s1. rewrite Hlen.
      cbn [Napi.arg nth Napi.IsTypedArray negb FaissIndexWrapperJS.dims_].
      rewrite Hm, Z.eqb_refl, Hr. cbn [negb].
      unfold FaissIndexWrapperJS.get. cbn [FaissIndexWrapperJS.wrapper_].
      unfold bind at 1, ret at 1. unfold RangeSearchWorker.new.
      unfold bind at 1. rewrite (bind_run_ret _ _ _ _ _ (GetDimensions_run s1 p w Hp1)).
      reflexivity.
  - intros Hnan. unfold f32_lt0. rewrite Hnan. cbn [negb]. rewrite andb_false_r. reflexivity.
  - intros Hzero. unfold f32_lt0. rewrite Hzero. cbn [negb]. apply andb_false_r.
Qed.

End SearchGates.
(* ================================================================== *)
(** * The further theorems at concrete inputs *)

(** A disposed wrapper of dimension 2 at address 1. *)
Lemma getters_on_disposed_witness :
  let s := StubIndex.world_of [FaissIndexWrapper.mk None 2 true] in
  heap s !! 1 = Some (FaissIndexWrapper.mk None 2 true) /\ held s = [] /\
  FaissIndexWrapper.GetTotalVectors 1 s = (Ret 0, logged [Acquire 1; Release 1] s) /\
  FaissIndexWrapper.IsTrained 1 s = (Ret false, logged [Acquire 1; Release 1] s) /\
  FaissIndexWrapper.GetDimensions 1 s = (Ret 2, s) /\
  FaissIndexWrapper.IsDisposed 1 s = (Ret true, logged [Acquire 1; Release 1] s).
Proof.
  cbv zeta. split; [reflexivity|]. split; [reflexivity|].
  exact (getters_on_disposed (StubIndex.world_of [FaissIndexWrapper.mk None 2 true]) 1
           (FaissIndexWrapper.mk None 2 true) eq_refl eq_refl eq_refl).
Defined.

(** A disposed target, a disposed source, and a source of another
    dimension. *)
Lemma MergeFrom_guards_witness :
  let s := StubIndex.world_of [FaissIndexWrapper.mk None 2 true; StubIndex.flat 2 1] in
  let s' := StubIndex.world_of [StubIndex.flat 2 1; StubIndex.flat 3 1] in
  FaissIndexWrapper.MergeFrom 1 2 s
  = (Throw (Exn std_runtime_error "Index has been disposed"),
     logged [Acquire 1; Acquire 2; Release 2; Release 1] s) /\
  FaissIndexWrapper.MergeFrom 2 1 s
  = (Throw (Exn std_runtime_error "Cannot merge from disposed index"),
     logged [Acquire 2; Acquire 1; Release 1; Release 2] s) /\
  FaissIndexWrapper.MergeFrom 1 2 s'
  = (Throw (Exn std_invalid_argument "Merging index must have the same dimensions"),
     logged [Acquire 1; Acquire 2; Release 2; Release 1] s').
Proof.
  cbv zeta.
  assert (H12 : 1 <> 2) by discriminate. assert (H21 : 2 <> 1) by discriminate.
  assert (H32 : 3 <> 2) by discriminate.
  split; [|split].
  - exact (proj1 (MergeFrom_guards
                    (StubIndex.world_of [FaissIndexWrapper.mk None 2 true; StubIndex.flat 2 1])
                    1 2 (FaissIndexWrapper.mk None 2 true) (StubIndex.flat 2 1)
                    eq_refl eq_refl H12 eq_refl) eq_refl).
  - exact (proj1 (proj2 (MergeFrom_guards
                    (StubIndex.world_of [FaissIndexWrapper.mk None 2 true; StubIndex.flat 2 1])
                    2 1 (StubIndex.flat 2 1) (FaissIndexWrapper.mk None 2 true)
                    eq_refl eq_refl H21 eq_refl)) eq_refl eq_refl).
  - exact (proj2 (proj2 (MergeFrom_guards
                    (StubIndex.world_of [StubIndex.flat 2 1; StubIndex.flat 3 1])
                    1 2 (StubIndex.flat 2 1) (StubIndex.flat 3 1)
                    eq_refl eq_refl H12 eq_refl)) eq_refl eq_refl H32).
Defined.

(** Merging the wrapper at address 1 into itself. *)
Lemma MergeFrom_self_witness :
  let s := StubIndex.world_of [StubIndex.flat 2 1] in
  heap s !! 1 = Some (StubIndex.flat 2 1) /\ held s = [] /\
  FaissIndexWrapper.MergeFrom 1 1 s = (Fault, locked 1 s).
Proof.
  cbv zeta. split; [reflexivity|]. split; [reflexivity|].
  exact (MergeFrom_self (StubIndex.world_of [StubIndex.flat 2 1]) 1 (StubIndex.flat 2 1)
           eq_refl eq_refl).
Defined.


(** [setNprobe(8)] and [setNprobe(0)] on an IVF index. *)
Lemma setNprobe_end_to_end_witness :
  let ivf n := FaissIndexWrapper.mk (Some (StubIndex.mk StubIndex.IVF 2 1 true 0 n)) 2 false in
  let s := StubIndex.world_of [ivf 1] in
  heap s !! 1 = Some (ivf 1) /\ held s = [] /\
  FaissIndexWrapperJS.SetNprobe (FaissIndexWrapperJS.mk (Some 1) 2) [Napi.Number 8 0] s
  = (Ret FaissIndexWrapperJS.Undefined,
     logged [Acquire 1; Release 1; Acquire 1; Backend 1 "nprobe"; Release 1]
       (with_heap (<[1 := ivf 8]> (heap s)) s)) /\
  FaissIndexWrapperJS.SetNprobe (FaissIndexWrapperJS.mk (Some 1) 2) [Napi.Number 0 0] s
  = (Throw (Exn napi_RangeError "nprobe must be positive"), logged [Acquire 1; Release 1] s).
Proof.
  cbv zeta. split; [reflexivity|]. split; [reflexivity|]. split.
  - exact (setNprobe_end_to_end
             (StubIndex.world_of
                [FaissIndexWrapper.mk (Some (StubIndex.mk StubIndex.IVF 2 1 true 0 1)) 2 false])
             1 (StubIndex.mk StubIndex.IVF 2 1 true 0 1) 2 2 8 0 [] eq_refl eq_refl).
  - exact (setNprobe_end_to_end
             (StubIndex.world_of
                [FaissIndexWrapper.mk (Some (StubIndex.mk StubIndex.IVF 2 1 true 0 1)) 2 false])
             1 (StubIndex.mk StubIndex.IVF 2 1 true 0 1) 2 2 0 0 [] eq_refl eq_refl).
Defined.

(** [reset()] on a flat index of three vectors. *)
Lemma reset_end_to_end_witness :
  let s := StubIndex.world_of [StubIndex.flat 2 3] in
  heap s !! 1 = Some (StubIndex.flat 2 3) /\ held s = [] /\
  FaissIndexWrapperJS.Reset (FaissIndexWrapperJS.mk (Some 1) 2) [] s
  = (Ret FaissIndexWrapperJS.Undefined,
     logged [Acquire 1; Release 1; Acquire 1; Backend 1 "reset"; Release 1]
       (with_heap (<[1 := StubIndex.flat 2 0]> (heap s)) s)).
Proof.
  cbv zeta. split; [reflexivity|]. split; [reflexivity|].
  exact (reset_end_to_end (StubIndex.world_of [StubIndex.flat 2 3]) 1
           (StubIndex.mk StubIndex.Flat 2 1 true 3 1) 2 2 [] eq_refl eq_refl).
Defined.

(** An [add] worker and a merge worker that run on a disposed handle. *)
Lemma workers_on_disposed_witness :
  let s := StubIndex.world_of [FaissIndexWrapper.mk None 2 true] in
  heap s !! 1 = Some (FaissIndexWrapper.mk None 2 true) /\ held s = [] /\
  AsyncWorker.run (AsyncWorker.Add (AddWorker.mk 1 [0; 0] 1)) s
  = (Ret (AsyncWorker.Reject "Index has been disposed"), logged [Acquire 1; Release 1] s) /\
  AsyncWorker.run (AsyncWorker.ToBuffer (ToBufferWorker.mk 1)) s
  = (Ret (AsyncWorker.Reject "Index has been disposed"), logged [Acquire 1; Release 1] s).
Proof.
  cbv zeta. split; [reflexivity|]. split; [reflexivity|].
  pose proof (workers_on_disposed (StubIndex.world_of [FaissIndexWrapper.mk None 2 true]) 1
                (FaissIndexWrapper.mk None 2 true) eq_refl eq_refl eq_refl) as H.
  cbv zeta in H. destruct H as (Hadd & _ & _ & _ & _ & _ & Hbuf & _).
  split; [exact (Hadd [0; 0] 1)|exact Hbuf].
Defined.

(** A merge worker whose source, at address 2, is disposed. *)
Lemma merge_worker_on_disposed_source_witness :
  let s := StubIndex.world_of [StubIndex.flat 2 1; FaissIndexWrapper.mk None 2 true] in
  heap s !! 1 = Some (StubIndex.flat 2 1) /\
  heap s !! 2 = Some (FaissIndexWrapper.mk None 2 true) /\ held s = [] /\
  AsyncWorker.run (AsyncWorker.MergeFrom (MergeFromWorker.mk 1 2)) s
  = (Ret (AsyncWorker.Reject "Source index has been disposed"),
     logged [Acquire 1; Release 1; Acquire 2; Release 2] s).
Proof.
  cbv zeta. split; [reflexivity|]. split; [reflexivity|]. split; [reflexivity|].
  exact (merge_worker_on_disposed_source
           (StubIndex.world_of [StubIndex.flat 2 1; FaissIndexWrapper.mk None 2 true]) 1 2
           (StubIndex.flat 2 1) (FaissIndexWrapper.mk None 2 true)
           eq_refl eq_refl eq_refl eq_refl eq_refl).
Defined.

(** Two vectors of dimension 2 added to an empty flat index. *)
Lemma add_end_to_end_witness :
  let s := StubIndex.world_of [StubIndex.flat 2 0] in
  let s1 := logged [Acquire 1; Release 1] s in
  let worker := AsyncWorker.Add (AddWorker.mk 1 [0; 0; 0; 0] 2) in
  heap s !! 1 = Some (StubIndex.flat 2 0) /\ held s = [] /\
  FaissIndexWrapperJS.Add (FaissIndexWrapperJS.mk (Some 1) 2) [Napi.Float32Array [0; 0; 0; 0]] s
  = (Ret (FaissIndexWrapperJS.Promise worker), s1) /\
  AsyncWorker.run worker s1
  = (Ret (AsyncWorker.Resolve Js.Undefined),
     logged [Acquire 1; Release 1; Acquire 1; Backend 1 "add"; Release 1]
       (with_heap (<[1 := StubIndex.flat 2 2]> (heap s)) s1)).
Proof.
  cbv zeta. split; [reflexivity|]. split; [reflexivity|].
  assert (Hd : 0 < 2 <= INT_MAX) by (unfold INT_MAX; lia).
  assert (Hne : [0; 0; 0; 0] <> @nil float32) by discriminate.
  assert (Hb : Z.of_nat (length [0; 0; 0; 0]) < 2 ^ 64) by (cbn; lia).
  exact (add_end_to_end (StubIndex.world_of [StubIndex.flat 2 0]) 1
           (StubIndex.mk StubIndex.Flat 2 1 true 0 1) 2 2 [0; 0; 0; 0] []
           eq_refl eq_refl Hd Hne eq_refl Hb).
Defined.

(** One vector of dimension 2 given to an untrained IVF index. *)
Lemma train_end_to_end_witness :
  let ivf t := FaissIndexWrapper.mk (Some (StubIndex.mk StubIndex.IVF 2 1 t 0 1)) 2 false in
  let s := StubIndex.world_of [ivf false] in
  let s1 := logged [Acquire 1; Release 1] s in
  let worker := AsyncWorker.Train (TrainWorker.mk 1 [0; 0] 1) in
  heap s !! 1 = Some (ivf false) /\ held s = [] /\
  FaissIndexWrapperJS.Train (FaissIndexWrapperJS.mk (Some 1) 2) [Napi.Float32Array [0; 0]] s
  = (Ret (FaissIndexWrapperJS.Promise worker), s1) /\
  AsyncWorker.run worker s1
  = (Ret (AsyncWorker.Resolve Js.Undefined),
     logged [Acquire 1; Release 1; Acquire 1; Backend 1 "train"; Release 1]
       (with_heap (<[1 := ivf true]> (heap s)) s1)).
Proof.
  cbv zeta. split; [reflexivity|]. split; [reflexivity|].
  assert (Hd : 0 < 2 <= INT_MAX) by (unfold INT_MAX; lia).
  assert (Hne : [0; 0] <> @nil float32) by discriminate.
  assert (Hb : Z.of_nat (length [0; 0]) < 2 ^ 64) by (cbn; lia).
  exact (train_end_to_end
           (StubIndex.world_of
              [FaissIndexWrapper.mk (Some (StubIndex.mk StubIndex.IVF 2 1 false 0 1)) 2 false])
           1 (StubIndex.mk StubIndex.IVF 2 1 false 0 1) 2 2 [0; 0] []
           eq_refl eq_refl Hd Hne eq_refl Hb).
Defined.

(** Two queries and [k = 5] on a flat index of three vectors: six
    distances and six labels, and ["k"] is 3.  And 2^31 - 1 queries with
    [k = 2^31 - 1] on an index of 2^31 - 1 vectors: the promise is
    rejected. *)
Lemma searchBatch_returns_nq_times_min_witness :
  let s := StubIndex.world_of [StubIndex.flat 2 3] in
  let s' := StubIndex.world_of [StubIndex.flat 2 INT_MAX] in
  heap s !! 1 = Some (StubIndex.flat 2 3) /\ held s = [] /\
  (exists distances labels s1,
     AsyncWorker.run (AsyncWorker.SearchBatch (SearchBatchWorker.mk 1 [0; 0; 0; 0] 2 5)) s
     = (Ret (AsyncWorker.Resolve (Js.SearchBatchResult distances labels 2 3)), s1) /\
     Z.of_nat (length distances) = 6 /\ Z.of_nat (length labels) = 6 /\ heap s1 = heap s) /\
  (exists msg s1,
     AsyncWorker.run
       (AsyncWorker.SearchBatch (SearchBatchWorker.mk 1 [0; 0] INT_MAX INT_MAX)) s'
     = (Ret (AsyncWorker.Reject ("FAISS error: " +:+ msg)), s1) /\
     heap s1 = heap s').
Proof.
  cbv zeta. split; [reflexivity|]. split; [reflexivity|].
  assert (Hp : heap (StubIndex.world_of [StubIndex.flat 2 3]) !! 1
               = Some (FaissIndexWrapper.mk
                         (Some (StubIndex.mk StubIndex.Flat 2 1 true 3 1)) 2 false))
    by reflexivity.
  assert (Hp' : heap (StubIndex.world_of [StubIndex.flat 2 INT_MAX]) !! 1
                = Some (FaissIndexWrapper.mk
                          (Some (StubIndex.mk StubIndex.Flat 2 1 true INT_MAX 1)) 2 false))
    by reflexivity.
  assert (Ht : 0 < Faiss.ntotal (StubIndex.mk StubIndex.Flat 2 1 true 3 1) <= INT_MAX)
    by (unfold INT_MAX; cbn; lia).
  assert (Ht' : 0 < Faiss.ntotal (StubIndex.mk StubIndex.Flat 2 1 true INT_MAX 1) <= INT_MAX)
    by (unfold INT_MAX; cbn; lia).
  assert (Hk : 0 < 5 <= INT_MAX) by (unfold INT_MAX; lia).
  assert (Hnq : 0 < 2 <= INT_MAX) by (unfold INT_MAX; lia).
  assert (Hm : 0 < INT_MAX <= INT_MAX) by (unfold INT_MAX; lia).
  assert (Hq : [0; 0; 0; 0] <> @nil float32) by discriminate.
  assert (Hq' : [0; 0] <> @nil float32) by discriminate.
  assert (Hfit : 2 * Z.min 5 (Faiss.ntotal (StubIndex.mk StubIndex.Flat 2 1 true 3 1))
                 <= INT_MAX) by (unfold INT_MAX; cbn; lia).
  assert (Hbig : max_size sizeof_float
                 < INT_MAX * Z.min INT_MAX
                               (Faiss.ntotal (StubIndex.mk StubIndex.Flat 2 1 true INT_MAX 1)))
    by (vm_compute; reflexivity).
  split.
  - exact (proj1 (searchBatch_returns_nq_times_min _ 1 _ 2 [0; 0; 0; 0] 2 5
                    Hp eq_refl Ht Hk Hnq Hq) Hfit _ _ eq_refl).
  - exact (proj2 (searchBatch_returns_nq_times_min _ 1 _ 2 [0; 0] INT_MAX INT_MAX
                    Hp' eq_refl Ht' Hm Hm Hq') Hbig).
Defined.

(** A range search on a flat index of three vectors: three neighbours. *)
Lemma rangeSearch_end_to_end_witness :
  let s := StubIndex.world_of [StubIndex.flat 2 3] in
  heap s !! 1 = Some (StubIndex.flat 2 3) /\ held s = [] /\
  exists distances labels s',
    AsyncWorker.run (AsyncWorker.RangeSearch (RangeSearchWorker.mk 1 [0; 0] 0)) s
    = (Ret (AsyncWorker.Resolve
              (Js.RangeSearchResult distances (map to_int32 labels) 1 [0; 3])), s') /\
    Z.of_nat (length distances) = 3 /\ Z.of_nat (length labels) = 3 /\
    labels = [0; 1; 2] /\ heap s' = heap s.
Proof.
  cbv zeta. split; [reflexivity|]. split; [reflexivity|].
  assert (Hp : heap (StubIndex.world_of [StubIndex.flat 2 3]) !! 1
               = Some (FaissIndexWrapper.mk
                         (Some (StubIndex.mk StubIndex.Flat 2 1 true 3 1)) 2 false))
    by reflexivity.
  assert (Hn : to_size_t (Faiss.ntotal (StubIndex.mk StubIndex.Flat 2 1 true 3 1)) <> 0)
    by discriminate.
  assert (Hq : [0; 0] <> @nil float32) by discriminate.
  assert (Htotal : 0 <= 3 <= max_size sizeof_int64_t)
    by (rewrite max_size_int64_t; lia).
  exact (proj1 (rangeSearch_end_to_end _ 1 _ 2 [0; 0] 0 Hp eq_refl eq_refl Hn Hq) Htotal).
Defined.

(** [new FaissIndex({ dims: 4 })] and [new FaissIndex({ dims: 4, type: 7 })]
    in an empty store. *)
Lemma constructor_defaults_to_flat_L2_witness :
  let s := StubIndex.empty_world in
  let made := mkWorld (<[1 := StubIndex.flat 4 0]> (heap s)) 2 [] [] (files s) in
  FaissIndexWrapperJS.construct [Napi.Object [("dims", Napi.Number 4 0)]] s
  = (Ret (FaissIndexWrapperJS.mk (Some 1) 4), made) /\
  FaissIndexWrapperJS.construct
    [Napi.Object [("dims", Napi.Number 4 0); ("type", Napi.Number 7 0)]] s
  = (Ret (FaissIndexWrapperJS.mk (Some 1) 4), made).
Proof.
  cbv zeta. assert (Hpos : 0 < 4) by lia. split.
  - exact (constructor_defaults_to_flat_L2 StubIndex.empty_world
             [("dims", Napi.Number 4 0)] [] 4 0 (StubIndex.mk StubIndex.Flat 4 1 true 0 1)
             eq_refl Hpos eq_refl eq_refl eq_refl eq_refl).
  - exact (constructor_defaults_to_flat_L2 StubIndex.empty_world
             [("dims", Napi.Number 4 0); ("type", Napi.Number 7 0)] [] 4 0
             (StubIndex.mk StubIndex.Flat 4 1 true 0 1)
             eq_refl Hpos eq_refl eq_refl eq_refl eq_refl).
Defined.

(** [new FaissIndex({ dims: 4, type: 'IVF_FLAT', nlist: 8, nprobe: -3 })]:
    the index is built from "IVF8,Flat" and its [nprobe] is 2^64 - 3. *)
Lemma constructor_ivf_flat_witness :
  let s := StubIndex.empty_world in
  let props := [("dims", Napi.Number 4 0); ("type", Napi.String "IVF_FLAT");
                ("nlist", Napi.Number 8 0); ("nprobe", Napi.Number (-3) 0)] in
  Faiss.index_factory 4 "IVF8,Flat" 1 = inr (StubIndex.mk StubIndex.IVF 4 1 false 0 1) /\
  FaissIndexWrapperJS.construct [Napi.Object props] s
  = (Ret (FaissIndexWrapperJS.mk (Some 1) 4),
     logged [Acquire 1; Backend 1 "nprobe"; Release 1]
       (mkWorld (<[1 := FaissIndexWrapper.mk
                           (Some (StubIndex.mk StubIndex.IVF 4 1 false 0 (2 ^ 64 - 3))) 4 false]>
                   (heap s)) 2 [] [] (files s))).
Proof.
  cbv zeta. assert (Hpos : 0 < 4) by lia. split; [reflexivity|].
  exact (constructor_ivf_flat StubIndex.empty_world
           [("dims", Napi.Number 4 0); ("type", Napi.String "IVF_FLAT");
            ("nlist", Napi.Number 8 0); ("nprobe", Napi.Number (-3) 0)] [] 4 0 (-3) 0
           (StubIndex.mk StubIndex.IVF 4 1 false 0 1)
           eq_refl Hpos eq_refl eq_refl eq_refl eq_refl eq_refl).
Defined.

(** The destructor of a handle that was never disposed. *)
Lemma destructor_frees_the_wrapper_witness :
  let s := StubIndex.world_of [StubIndex.flat 2 3] in
  heap s !! 1 = Some (StubIndex.flat 2 3) /\ held s = [] /\
  exists s',
    FaissIndexWrapperJS.destroy (FaissIndexWrapperJS.mk (Some 1) 2) s = (Ret tt, s') /\
    heap s' = delete 1 (heap s) /\ held s' = [] /\ next s' = next s /\ files s' = files s.
Proof.
  cbv zeta. split; [reflexivity|]. split; [reflexivity|].
  exact (destructor_frees_the_wrapper (StubIndex.world_of [StubIndex.flat 2 3]) 1
           (StubIndex.flat 2 3) 2 eq_refl eq_refl).
Defined.

(** The buffer of a flat index of three vectors, read into an empty
    store. *)
Lemma fromBuffer_end_to_end_witness :
  let i := StubIndex.mk StubIndex.Flat 2 1 true 3 1 in
  let data := match Faiss.write_index i with inr b => b | inl _ => [] end in
  let s := StubIndex.empty_world in
  data <> [] /\ Faiss.read_index data = inr i /\
  exists s',
    FaissIndexWrapperJS.FromBuffer [Napi.Buffer data] s
    = (Ret (FaissIndexWrapperJS.Instance (FaissIndexWrapperJS.mk (Some 1) 2)), s') /\
    heap s' = <[1 := StubIndex.flat 2 3]> (heap s) /\
    held s' = [] /\ next s' = 3 /\ files s' = files s.
Proof.
  cbv zeta.
  pose (i := StubIndex.mk StubIndex.Flat 2 1 true 3 1).
  pose (data := match Faiss.write_index i with inr b => b | inl _ => [] end).
  assert (Hne : data <> []) by discriminate.
  assert (Hr : Faiss.read_index data = inr i) by (vm_compute; reflexivity).
  assert (Hd : 0 < Faiss.d i <= INT_MAX) by (unfold INT_MAX; cbn; lia).
  split; [exact Hne|]. split; [exact Hr|].
  exact (fromBuffer_end_to_end StubIndex.empty_world data i
           (StubIndex.mk StubIndex.Flat 2 1 true 0 1) [] Hne Hr Hd eq_refl eq_refl eq_refl).
Defined.

(** A flat index of three vectors saved as "a.index" and loaded again. *)
Lemma save_then_load_witness :
  let i := StubIndex.mk StubIndex.Flat 2 1 true 3 1 in
  let bytes := match Faiss.write_index i with inr b => b | inl _ => [] end in
  let s := StubIndex.world_of [StubIndex.flat 2 3] in
  heap s !! 1 = Some (StubIndex.flat 2 3) /\ held s = [] /\
  Faiss.read_index bytes = inr i /\
  exists s1 s2,
    AsyncWorker.run (AsyncWorker.Save (SaveWorker.mk 1 "a.index")) s
    = (Ret (AsyncWorker.Resolve Js.Undefined), s1) /\
    files s1 = <["a.index" := bytes]> (files s) /\ heap s1 = heap s /\
    FaissIndexWrapperJS.Load [Napi.String "a.index"] s1
    = (Ret (FaissIndexWrapperJS.Instance (FaissIndexWrapperJS.mk (Some 2) 2)), s2) /\
    heap s2 = <[2 := StubIndex.flat 2 3]> (heap s) /\
    heap s2 !! 1 = Some (StubIndex.flat 2 3) /\
    files s2 = files s1 /\ held s2 = [].
Proof.
  cbv zeta.
  pose (i := StubIndex.mk StubIndex.Flat 2 1 true 3 1).
  pose (bytes := match Faiss.write_index i with inr b => b | inl _ => [] end).
  assert (Hr : Faiss.read_index bytes = inr i) by (vm_compute; reflexivity).
  assert (Hd : 0 < Faiss.d i <= INT_MAX) by (unfold INT_MAX; cbn; lia).
  assert (Hn : "a.index" <> "") by discriminate.
  split; [reflexivity|]. split; [reflexivity|]. split; [exact Hr|].
  exact (save_then_load (StubIndex.world_of [StubIndex.flat 2 3]) 1 i 2 "a.index" bytes i
           (StubIndex.mk StubIndex.Flat 2 1 true 0 1) []
           eq_refl eq_refl Hn eq_refl Hr Hd eq_refl eq_refl eq_refl).
Defined.

(** [search(q, 0)] and [search(q, 5)] on a handle of dimension 2. *)
Lemma k_must_be_positive_witness :
  let s := StubIndex.world_of [StubIndex.flat 2 3] in
  let this := FaissIndexWrapperJS.mk (Some 1) 2 in
  heap s !! 1 = Some (StubIndex.flat 2 3) /\ held s = [] /\
  FaissIndexWrapperJS.Search this [Napi.Float32Array [0; 0]; Napi.Number 0 0] s
  = (Throw (Exn napi_RangeError "k must be positive"), logged [Acquire 1; Release 1] s) /\
  FaissIndexWrapperJS.Search this [Napi.Float32Array [0; 0]; Napi.Number 5 0] s
  = (Ret (FaissIndexWrapperJS.Promise (AsyncWorker.Search (SearchWorker.mk 1 [0; 0] 5))),
     logged [Acquire 1; Release 1] s).
Proof.
  cbv zeta. split; [reflexivity|]. split; [reflexivity|].
  assert (Hd : 0 < 2 <= INT_MAX) by (unfold INT_MAX; lia).
  split.
  - exact (proj1 (k_must_be_positive (StubIndex.world_of [StubIndex.flat 2 3]) 1
                    (StubIndex.flat 2 3) 2 0 0 [] eq_refl eq_refl eq_refl Hd)
             [0; 0] eq_refl).
  - exact (proj1 (k_must_be_positive (StubIndex.world_of [StubIndex.flat 2 3]) 1
                    (StubIndex.flat 2 3) 2 5 0 [] eq_refl eq_refl eq_refl Hd)
             [0; 0] eq_refl).
Defined.

(** The radii -1.0 (bits 0xBF800000), NaN (0x7FC00000) and -0.0
    (0x80000000): the first is refused, the other two are queued. *)
Lemma radius_gate_witness :
  let s := StubIndex.world_of [StubIndex.flat 2 3] in
  let this := FaissIndexWrapperJS.mk (Some 1) 2 in
  let queued radius :=
    (Ret (FaissIndexWrapperJS.Promise
            (AsyncWorker.RangeSearch (RangeSearchWorker.mk 1 [0; 0] radius))),
     logged [Acquire 1; Release 1] s) in
  heap s !! 1 = Some (StubIndex.flat 2 3) /\ held s = [] /\
  FaissIndexWrapperJS.RangeSearch this [Napi.Float32Array [0; 0]; Napi.Number (-1) 3212836864] s
  = (Throw (Exn napi_RangeError "Radius must be non-negative"),
     logged [Acquire 1; Release 1] s) /\
  FaissIndexWrapperJS.RangeSearch this [Napi.Float32Array [0; 0]; Napi.Number 0 2143289344] s
  = queued 2143289344 /\
  FaissIndexWrapperJS.RangeSearch this [Napi.Float32Array [0; 0]; Napi.Number 0 2147483648] s
  = queued 2147483648.
Proof.
  cbv zeta. split; [reflexivity|]. split; [reflexivity|].
  split; [|split].
  - exact (proj1 (radius_gate (StubIndex.world_of [StubIndex.flat 2 3]) 1
                    (StubIndex.flat 2 3) 2 [0; 0] (-1) 3212836864 []
                    eq_refl eq_refl eq_refl eq_refl)).
  - exact (proj1 (radius_gate (StubIndex.world_of [StubIndex.flat 2 3]) 1
                    (StubIndex.flat 2 3) 2 [0; 0] 0 2143289344 []
                    eq_refl eq_refl eq_refl eq_refl)).
  - exact (proj1 (radius_gate (StubIndex.world_of [StubIndex.flat 2 3]) 1
                    (StubIndex.flat 2 3) 2 [0; 0] 0 2147483648 []
                    eq_refl eq_refl eq_refl eq_refl)).
Defined.
(* ================================================================== *)
(** * [toBuffer] and [save] through the bindings *)

Section Writing.
Context {I : Type} {faiss : Faiss.Index I}.
Implicit Types (s : World (FaissIndexWrapper.t I)) (p : Z) (w : FaissIndexWrapper.t I).

Lemma ToBuffer_fails s p i wdims msg :
  heap s !! p = Some (FaissIndexWrapper.mk (Some i) wdims false) -> held s = [] ->
  Faiss.write_index i = inl msg ->
  FaissIndexWrapper.ToBuffer p s
  = (Throw (Exn std_runtime_error ("Failed to serialize index: " +:+ msg)),
     logged [Acquire p; Backend p "write_index"; Release p] s).
Proof.
  intros Hp Hh Hw. pose proof (quiet s p Hh) as Hq.
  unfold FaissIndexWrapper.ToBuffer. enter Hp Hq. cbn.
  unfold try_catch, bind, emit, throw. cbn. rewrite Hw. same_world Hh.
Qed.

(** [toBuffer()] end to end on a live handle: the call queues a worker;
    the worker resolves the promise with a [Buffer] of exactly the bytes
    the library serializes the index to, or rejects it with "FAISS error:
    Failed to serialize index: " and the library's message.  No index
    changes either way. *)
Theorem toBuffer_end_to_end s p i wdims dims info :
  heap s !! p = Some (FaissIndexWrapper.mk (Some i) wdims false) -> held s = [] ->
  let worker := AsyncWorker.ToBuffer (ToBufferWorker.mk p) in
  let s1 := logged [Acquire p; Release p] s in
  FaissIndexWrapperJS.ToBuffer (FaissIndexWrapperJS.mk (Some p) dims) info s
  = (Ret (FaissIndexWrapperJS.Promise worker), s1) /\
  AsyncWorker.run worker s1
  = (Ret (match Faiss.write_index i with
          | inr bytes => AsyncWorker.Resolve (Js.Buffer bytes)
          | inl msg =>
              AsyncWorker.Reject ("FAISS error: Failed to serialize index: " +:+ msg)
          end),
     logged [Acquire p; Release p; Acquire p; Backend p "write_index"; Release p] s1).
Proof.
  intros Hp Hh worker s1. subst worker. pose proof (quiet s p Hh) as Hq.
  assert (Hp1 : heap s1 !! p = Some (FaissIndexWrapper.mk (Some i) wdims false)) by exact Hp.
  assert (Hh1 : held s1 = []) by exact Hh.
  set (s2 := logged [Acquire p; Release p] s1).
  assert (Hp2 : heap s2 !! p = Some (FaissIndexWrapper.mk (Some i) wdims false)) by exact Hp.
  assert (Hh2 : held s2 = []) by exact Hh.
  split.
  - unfold FaissIndexWrapperJS.ToBuffer. apply guarded_run_ret.
    rewrite (validated_continues s p dims _ _ Hp Hq eq_refl). reflexivity.
  - cbn [AsyncWorker.run]. unfold bind at 1. unfold ToBufferWorker.Execute, try_catch.
    cbn [ToBufferWorker.wrapper_].
    rewrite (bind_run_ret _ _ _ _ _ (IsDisposed_run s1 p _ Hp1 (quiet s1 p Hh1))).
    cbn [FaissIndexWrapper.disposed_]. fold s2. unfold bind at 1.
    destruct (Faiss.write_index i) as [msg|bytes] eqn:Hw.
    + rewrite (ToBuffer_fails s2 p i wdims msg Hp2 Hh2 Hw).
      unfold ret. cbn [AsyncWorker.settle SetError_of what].
      subst s2. rewrite logged_logged. reflexivity.
    + rewrite (ToBuffer_run s2 p i wdims bytes Hp2 Hh2 Hw).
      unfold ret. cbn [AsyncWorker.settle ToBufferWorker.OnOK].
      subst s2. rewrite logged_logged. reflexivity.
Qed.

(** What [save(filename)] does with a bad file name or a failing write, on
    a live handle.  An argument that is not a string is a [TypeError] and
    nothing is queued.  An empty file name is accepted by the call and
    refused by the worker only, which rejects the promise with "FAISS
    error: Filename cannot be empty" and touches no file.  When the
    library's write to the file throws (the file does not open, a write
    fails, the index cannot be serialized) the promise is rejected with
    "FAISS error: Failed to save index: " and the library's message, no
    index changes, and the file holds what the library left in it:
    nothing is cleaned up. *)
Theorem save_failures s p i wdims dims rest :
  heap s !! p = Some (FaissIndexWrapper.mk (Some i) wdims false) -> held s = [] ->
  let this := FaissIndexWrapperJS.mk (Some p) dims in
  let s1 := logged [Acquire p; Release p] s in
  (forall v, Napi.IsString v = false ->
     FaissIndexWrapperJS.Save this (v :: rest) s
     = (Throw (Exn napi_TypeError "Expected string for filename"), s1)) /\
  FaissIndexWrapperJS.Save this (Napi.String "" :: rest) s
  = (Ret (FaissIndexWrapperJS.Promise (AsyncWorker.Save (SaveWorker.mk p ""))), s1) /\
  AsyncWorker.run (AsyncWorker.Save (SaveWorker.mk p "")) s1
  = (Ret (AsyncWorker.Reject "FAISS error: Filename cannot be empty"),
     logged [Acquire p; Release p; Acquire p; Release p] s1) /\
  (forall filename msg written, filename <> "" ->
     Faiss.write_index_file i filename = (Some msg, written) ->
     AsyncWorker.run (AsyncWorker.Save (SaveWorker.mk p filename)) s1
     = (Ret (AsyncWorker.Reject ("FAISS error: Failed to save index: " +:+ msg)),
        logged [Acquire p; Release p; Acquire p; Backend p "write_index"; Release p]
          (mkWorld (heap s1) (next s1) (held s1) (trace s1)
                   (match written with
                    | Some data => <[filename := data]> (files s1)
                    | None => files s1
                    end)))).
Proof.
  intros Hp Hh this s1. subst this. pose proof (quiet s p Hh) as Hq.
  assert (Hp1 : heap s1 !! p = Some (FaissIndexWrapper.mk (Some i) wdims false)) by exact Hp.
  assert (Hh1 : held s1 = []) by exact Hh.
  set (s2 := logged [Acquire p; Release p] s1).
  assert (Hp2 : heap s2 !! p = Some (FaissIndexWrapper.mk (Some i) wdims false)) by exact Hp.
  assert (Hh2 : held s2 = []) by exact Hh.
  assert (Hq2 : holds p (held s2) = false) by (apply quiet; exact Hh).
  assert (Hlen : forall v, (Napi.Length (v :: rest) <? 1) = false).
  { intros v. rewrite Length_cons.
    destruct (Z.ltb_spec (Napi.Length rest + 1) 1) as [Hl|_];
      [pose proof (Length_nonneg rest); lia|reflexivity]. }
  split; [|split; [|split]].
  - intros v Hv. unfold FaissIndexWrapperJS.Save. apply guarded_run_throw; [|reflexivity].
    rewrite (validated_continues s p dims _ _ Hp Hq eq_refl). fold s1. rewrite Hlen.
    cbn [Napi.arg nth]. destruct v; try reflexivity. discriminate Hv.
  - unfold FaissIndexWrapperJS.Save. apply guarded_run_ret.
    rewrite (validated_continues s p dims _ _ Hp Hq eq_refl). fold s1. rewrite Hlen.
    reflexivity.
  - cbn [AsyncWorker.run]. unfold bind at 1. unfold SaveWorker.Execute, try_catch.
    cbn [SaveWorker.wrapper_ SaveWorker.filename_].
    rewrite (bind_run_ret _ _ _ _ _ (IsDisposed_run s1 p _ Hp1 (quiet s1 p Hh1))).
    cbn [FaissIndexWrapper.disposed_]. fold s2. unfold bind at 1.
    unfold FaissIndexWrapper.Save. enter Hp2 Hq2. cbn [FaissIndexWrapper.disposed_ String.eqb].
    unfold throw. rewrite (unlocked_locked _ _ Hq2).
    unfold ret, SetError_of. cbn [what]. subst s2. rewrite logged_logged. reflexivity.
  - intros filename msg written Hn Hw.
    cbn [AsyncWorker.run]. unfold bind at 1. unfold SaveWorker.Execute, try_catch.
    cbn [SaveWorker.wrapper_ SaveWorker.filename_].
    rewrite (bind_run_ret _ _ _ _ _ (IsDisposed_run s1 p _ Hp1 (quiet s1 p Hh1))).
    cbn [FaissIndexWrapper.disposed_]. fold s2. unfold bind at 1.
    rewrite (Save_fails s2 p i wdims filename msg written Hp2 Hh2 Hn Hw).
    unfold ret, SetError_of. cbn [what]. f_equal.
    subst s2. unfold logged. cbn. apply world_ext; cbn; rewrite <- ?app_assoc; reflexivity.
Qed.

End Writing.

(** [toBuffer()] on a flat index of three vectors. *)
Lemma toBuffer_end_to_end_witness :
  let i := StubIndex.mk StubIndex.Flat 2 1 true 3 1 in
  let bytes := match Faiss.write_index i with inr b => b | inl _ => [] end in
  let s := StubIndex.world_of [StubIndex.flat 2 3] in
  let s1 := logged [Acquire 1; Release 1] s in
  heap s !! 1 = Some (StubIndex.flat 2 3) /\ held s = [] /\
  FaissIndexWrapperJS.ToBuffer (FaissIndexWrapperJS.mk (Some 1) 2) [] s
  = (Ret (FaissIndexWrapperJS.Promise (AsyncWorker.ToBuffer (ToBufferWorker.mk 1))), s1) /\
  AsyncWorker.run (AsyncWorker.ToBuffer (ToBufferWorker.mk 1)) s1
  = (Ret (AsyncWorker.Resolve (Js.Buffer bytes)),
     logged [Acquire 1; Release 1; Acquire 1; Backend 1 "write_index"; Release 1] s1) /\
  length bytes = 34%nat.
Proof.
  cbv zeta. split; [reflexivity|]. split; [reflexivity|].
  pose proof (toBuffer_end_to_end (StubIndex.world_of [StubIndex.flat 2 3]) 1
                (StubIndex.mk StubIndex.Flat 2 1 true 3 1) 2 2 [] eq_refl eq_refl) as H.
  cbv zeta in H. destruct H as [Hcall Hrun].
  split; [exact Hcall|]. split; [exact Hrun|reflexivity].
Defined.

(** [save(7)], [save('')] and [save('/nonexistent/x.index')] on a live
    handle: a [TypeError], a rejection by the worker, and a rejection with
    the library's message, no file being written. *)
Lemma save_failures_witness :
  let s := StubIndex.world_of [StubIndex.flat 2 3] in
  let this := FaissIndexWrapperJS.mk (Some 1) 2 in
  let s1 := logged [Acquire 1; Release 1] s in
  heap s !! 1 = Some (StubIndex.flat 2 3) /\ held s = [] /\
  FaissIndexWrapperJS.Save this [Napi.Number 7 0] s
  = (Throw (Exn napi_TypeError "Expected string for filename"), s1) /\
  FaissIndexWrapperJS.Save this [Napi.String ""] s
  = (Ret (FaissIndexWrapperJS.Promise (AsyncWorker.Save (SaveWorker.mk 1 ""))), s1) /\
  AsyncWorker.run (AsyncWorker.Save (SaveWorker.mk 1 "")) s1
  = (Ret (AsyncWorker.Reject "FAISS error: Filename cannot be empty"),
     logged [Acquire 1; Release 1; Acquire 1; Release 1] s1) /\
  AsyncWorker.run (AsyncWorker.Save (SaveWorker.mk 1 "/nonexistent/x.index")) s1
  = (Ret (AsyncWorker.Reject
            ("FAISS error: Failed to save index: could not open /nonexistent/x.index " +:+
             "for writing: No such file or directory")),
     logged [Acquire 1; Release 1; Acquire 1; Backend 1 "write_index"; Release 1] s1).
Proof.
  cbv zeta. split; [reflexivity|]. split; [reflexivity|].
  pose proof (save_failures (StubIndex.world_of [StubIndex.flat 2 3]) 1
                (StubIndex.mk StubIndex.Flat 2 1 true 3 1) 2 2 [] eq_refl eq_refl) as H.
  cbv zeta in H. destruct H as (Htype & Hcall & Hrun & Hfail).
  assert (Hn : "/nonexistent/x.index" <> "") by discriminate.
  split; [exact (Htype (Napi.Number 7 0) eq_refl)|]. split; [exact Hcall|].
  split; [exact Hrun|].
  exact (Hfail "/nonexistent/x.index" _ None Hn eq_refl).
Defined.
